(** * markdown-pdf-mcp: the conversion tool, the HTML template helpers and the
    browser resource manager, embedded and verified.

    The development follows the TypeScript sources:
    - [utils/error-handler.ts]  (validateInputSource, getErrorSuggestion,
      createErrorResponse),
    - [utils/format-utils.ts]   (formatFileSize, replaceTemplateVariables),
    - [utils/file-utils.ts]     (readMarkdownFile, fetchMarkdownUrl,
      ensureOutputDirectory),
    - [renderer/html-template.ts] (generateToc, addHeadingIds,
      formatHeaderFooter),
    - [renderer/pdf-generator.ts] (getBrowser, acquirePage, releasePage,
      closeBrowser, generatePdf, gatherStats, estimatePageCount),
    - [tools/convert.ts]        (convertMarkdownToPdf).

    JavaScript strings are modelled as [string]: sequences of code units
    below 256, read as Latin-1.  JavaScript numbers that the code only uses
    as integers (counters, byte sizes, heading levels, milliseconds) are [Z].
    Module-level mutable variables and everything outside the process (file
    system, network, Playwright) are explicit: the former are fields of
    [World], the latter is an oracle [Env] giving the outcome of each
    external call, and every external call leaves an [Effect] in the
    world's trace. *)

From Stdlib Require Import ZArith List Bool Ascii String Lia.
From Stdlib Require Import Numbers.DecimalString.
Import ListNotations.

Open Scope string_scope.
Open Scope Z_scope.

(* ================================================================== *)
(** * JavaScript strings *)
(* ================================================================== *)

Module Js.

(** The double quote, for templates that contain it. *)
Definition dq : string := String (ascii_of_nat 34) EmptyString.

Definition code (c : ascii) : nat := nat_of_ascii c.

Definition between (lo hi : nat) (c : ascii) : bool :=
  (Nat.leb lo (code c) && Nat.leb (code c) hi)%bool.

(** [\s] of a regular expression and the white space [trim] removes, on
    code units below 256: TAB, LF, VT, FF, CR, SPACE and NBSP. *)
Definition isSpace (c : ascii) : bool :=
  (between 9 13 c || Nat.eqb (code c) 32 || Nat.eqb (code c) 160)%bool.

(** [\w]: ASCII letters, digits and the underscore. *)
Definition isWord (c : ascii) : bool :=
  (between 48 57 c || between 65 90 c || between 97 122 c
   || Nat.eqb (code c) 95)%bool.

(** Line terminators, which [.] does not match: LF and CR (U+2028 and
    U+2029 are not code units below 256). *)
Definition isLineTerminator (c : ascii) : bool :=
  (Nat.eqb (code c) 10 || Nat.eqb (code c) 13)%bool.

(** [String.prototype.toLowerCase] on Latin-1: A-Z and the accented
    capitals U+00C0..U+00DE except the multiplication sign U+00D7. *)
Definition lowerChar (c : ascii) : ascii :=
  if (between 65 90 c || between 192 214 c || between 216 222 c)%bool
  then ascii_of_nat (code c + 32) else c.

Fixpoint toLowerCase (s : string) : string :=
  match s with
  | EmptyString => EmptyString
  | String c r => String (lowerChar c) (toLowerCase r)
  end.

Fixpoint trimStart (s : string) : string :=
  match s with
  | EmptyString => EmptyString
  | String c r => if isSpace c then trimStart r else s
  end.

Fixpoint trimEnd (s : string) : string :=
  match s with
  | EmptyString => EmptyString
  | String c r =>
      match trimEnd r with
      | EmptyString => if isSpace c then EmptyString else String c EmptyString
      | r' => String c r'
      end
  end.

Definition trim (s : string) : string := trimEnd (trimStart s).

(** [Boolean(s)] for a string: the empty string is falsy. *)
Definition truthy (s : string) : bool :=
  match s with EmptyString => false | _ => true end.

(** [Boolean(x)] for an optional string: [undefined] is falsy too. *)
Definition truthyOpt (o : option string) : bool :=
  match o with Some s => truthy s | None => false end.

(** An optional string when it is truthy, as the condition of
    [if (x) { ... x ... }] sees it. *)
Definition whenTruthy (o : option string) : option string :=
  match o with
  | Some s => if truthy s then Some s else None
  | None => None
  end.

(** [x || d] for an optional string. *)
Definition orElse (o : option string) (d : string) : string :=
  match o with
  | Some s => if truthy s then s else d
  | None => d
  end.

Fixpoint startsWith (p s : string) : bool :=
  match p, s with
  | EmptyString, _ => true
  | String a p', String b s' => (Ascii.eqb a b && startsWith p' s')%bool
  | String _ _, EmptyString => false
  end.

(** [s.includes(p)]. *)
Fixpoint includes (p s : string) : bool :=
  match s with
  | EmptyString => startsWith p EmptyString
  | String _ r => (startsWith p s || includes p r)%bool
  end.

Fixpoint drop (n : nat) (s : string) : string :=
  match n, s with
  | O, _ => s
  | S k, String _ r => drop k r
  | S _, EmptyString => EmptyString
  end.

Fixpoint take (n : nat) (s : string) : string :=
  match n, s with
  | O, _ => EmptyString
  | S k, String c r => String c (take k r)
  | S _, EmptyString => EmptyString
  end.

Fixpoint containsChar (x : ascii) (s : string) : bool :=
  match s with
  | EmptyString => false
  | String c r => (Ascii.eqb c x || containsChar x r)%bool
  end.

(** [Number.MAX_SAFE_INTEGER]: up to it every integer is a double of its
    own. *)
Definition MAX_SAFE_INTEGER : Z := 2 ^ 53 - 1.

(** [String(n)] for an integer number below [1e21] in absolute value, where
    JavaScript prints every digit; from [1e21] on it prints an exponent. *)
Definition ofZ (n : Z) : string := NilZero.string_of_int (Z.to_int n).

(** ** The replacements the sources use *)

(** [s.replace(/<[^>]*>/g, '')]: a [<] starts a match when a [>] follows
    somewhere; the match runs to the first such [>]. *)
Fixpoint stripTagsFrom (inTag : bool) (s : string) : string :=
  match s with
  | EmptyString => EmptyString
  | String c r =>
      if inTag then stripTagsFrom (negb (Ascii.eqb c ">")) r
      else if (Ascii.eqb c "<" && containsChar ">" r)%bool
           then stripTagsFrom true r
           else String c (stripTagsFrom false r)
  end.

Definition stripTags (s : string) : string := stripTagsFrom false s.

(** [s.replace(/\s+/g, '-')]: every maximal run of white space becomes one
    hyphen. *)
Fixpoint hyphenateFrom (inRun : bool) (s : string) : string :=
  match s with
  | EmptyString => EmptyString
  | String c r =>
      if isSpace c
      then if inRun then hyphenateFrom true r
           else String "-" (hyphenateFrom true r)
      else String c (hyphenateFrom false r)
  end.

Definition hyphenateSpaces (s : string) : string := hyphenateFrom false s.

(** [s.replace(/[^\w-]/g, '')]. *)
Fixpoint stripNonWord (s : string) : string :=
  match s with
  | EmptyString => EmptyString
  | String c r =>
      if (isWord c || Ascii.eqb c "-")%bool
      then String c (stripNonWord r) else stripNonWord r
  end.

(** The replacement-string patterns of [String.prototype.replace] for a
    regular expression without capture groups: [$$], [$&], [$`] and [$'].
    Any other [$] stands for itself. *)
Fixpoint getSubstitution (matched before after repl : string) : string :=
  match repl with
  | EmptyString => EmptyString
  | String c r =>
      if Ascii.eqb c "$" then
        match r with
        | String d r' =>
            if Ascii.eqb d "$" then String "$" (getSubstitution matched before after r')
            else if Ascii.eqb d "&" then matched ++ getSubstitution matched before after r'
            else if Ascii.eqb d "`" then before ++ getSubstitution matched before after r'
            else if Ascii.eqb d "'" then after ++ getSubstitution matched before after r'
            else String c (getSubstitution matched before after r)
        | EmptyString => String c EmptyString
        end
      else String c (getSubstitution matched before after r)
  end.

(** [orig.replace(/pat/g, repl)] for a literal, non-empty [pat].  [idx] is
    the position in [orig] of the rest [s]; [skip] counts the code units of
    a match still to be passed over (the regular expression's lastIndex). *)
Fixpoint replaceAllFrom (pat repl orig : string) (idx skip : nat) (s : string)
  : string :=
  match s with
  | EmptyString => EmptyString
  | String c r =>
      match skip with
      | S k => replaceAllFrom pat repl orig (S idx) k r
      | O =>
          if startsWith pat s
          then getSubstitution pat (take idx orig) (drop (String.length pat) s) repl
                 ++ replaceAllFrom pat repl orig (S idx) (String.length pat - 1) r
          else String c (replaceAllFrom pat repl orig (S idx) 0 r)
      end
  end.

Definition replaceAll (pat repl s : string) : string :=
  replaceAllFrom pat repl s 0 0 s.

Fixpoint allChars (p : ascii -> bool) (s : string) : bool :=
  match s with
  | EmptyString => true
  | String c r => (p c && allChars p r)%bool
  end.

Fixpoint join (sep : string) (l : list string) : string :=
  match l with
  | [] => EmptyString
  | [x] => x
  | x :: rest => x ++ sep ++ join sep rest
  end.

End Js.

(* ================================================================== *)
(** * Values thrown and returned *)
(* ================================================================== *)

(** A JavaScript [Error]: its message and, for Node's system errors, the
    [code] property (ENOENT, EEXIST, ...). *)
Record JsErr := mkErr { message : string; errCode : option string }.

(** [new Error(msg)]. *)
Definition newError (msg : string) : JsErr := mkErr msg None.

(** What a [throw] carries: an [Error] instance, or a value that is not one
    (a string, a number, an object without a [message]; not null or
    undefined, which no call modelled here throws). *)
Inductive Thrown :=
| ErrorObj (e : JsErr)
| NonError.

(** Completion of a call: a value, or an exception (a rejected promise). *)
Inductive Outcome (A : Type) :=
| Ok (a : A)
| Throw (t : Thrown).
Arguments Ok {A} a.
Arguments Throw {A} t.

(** [error instanceof Error ? error.message : 'Unknown error']. *)
Definition messageOrUnknown (t : Thrown) : string :=
  match t with
  | ErrorObj e => message e
  | NonError => "Unknown error"
  end.

(** Response types of [types/schemas.ts]. *)
Record Metadata := mkMetadata {
  md_theme : string;
  md_page_format : string;
  md_includes_toc : bool;
  md_code_blocks : Z;
  md_images : Z;
  md_headings : Z;
  md_warnings : list string
}.

(** [ConciseSuccessResponse] (no metadata), [DetailedSuccessResponse] and
    [ErrorResponse].  The fields of an error response are optional here
    because [convertMarkdownToPdf] copies the optional fields of a
    validation result into them; [details] stands for [{stack: e.stack}] of
    the error it names. *)
Inductive Response :=
| SuccessResponse (output_path file_size : string) (pages duration_ms : Z)
                  (metadata : option Metadata)
| ErrorResponse (error suggestion : option string) (details : option JsErr).

Definition isSuccess (r : Response) : bool :=
  match r with SuccessResponse _ _ _ _ _ => true | ErrorResponse _ _ _ => false end.

(* ================================================================== *)
(** * utils/error-handler.ts *)
(* ================================================================== *)

Module ErrorHandler.

Definition getErrorSuggestion (error : JsErr) : string :=
  let message := Js.toLowerCase (message error) in
  if (Js.includes "enoent" message || Js.includes "no such file" message)%bool then
    "File not found. Check if the path is correct and the file exists. Use an absolute path for reliability."
  else if (Js.includes "eacces" message || Js.includes "permission denied" message)%bool then
    "Permission denied. Ensure you have write access to the output directory. Try a different output path."
  else if (Js.includes "timeout" message || Js.includes "timed out" message)%bool then
    "Request timed out. Try setting wait_for_network_idle: false or check your network connection."
  else if (Js.includes "fetch" message || Js.includes "network" message)%bool then
    "Network error while fetching remote content. Check the URL and your internet connection."
  else if (Js.includes "markdown" message || Js.includes "parse" message)%bool then
    "Invalid markdown syntax. Review the markdown content for formatting errors."
  else if (Js.includes "browser" message || Js.includes "chromium" message)%bool then
    "Browser error. Ensure Playwright Chromium is installed: pnpm exec playwright install chromium"
  else if (Js.includes "enospc" message || Js.includes "no space" message)%bool then
    "Not enough disk space. Free up some space and try again."
  else if (Js.includes "invalid" message || Js.includes "validation" message)%bool then
    "Invalid input parameters. Check the parameter values and try again."
  else
    "An unexpected error occurred. Check the error message for details and try again.".

Definition createErrorResponse (error : JsErr) (includeDetails : bool) : Response :=
  ErrorResponse (Some (message error)) (Some (getErrorSuggestion error))
                (if includeDetails then Some error else None).

Record Validation := mkValidation {
  valid : bool;
  v_error : option string;
  v_suggestion : option string
}.

(** [[a, b, c].filter(Boolean)]: an absent source and an empty string are
    both dropped. *)
Definition providedSources (markdownContent markdownFilePath markdownUrl : option string)
  : list (option string) :=
  filter Js.truthyOpt [markdownContent; markdownFilePath; markdownUrl].

Definition validateInputSource (markdownContent markdownFilePath markdownUrl : option string)
  : Validation :=
  let sources := providedSources markdownContent markdownFilePath markdownUrl in
  if Nat.eqb (List.length sources) 0 then
    mkValidation false
      (Some "No input source provided")
      (Some "Provide one of: markdown_content, markdown_file_path, or markdown_url")
  else if Nat.ltb 1 (List.length sources) then
    mkValidation false
      (Some "Multiple input sources provided")
      (Some "Provide only ONE of: markdown_content, markdown_file_path, or markdown_url")
  else mkValidation true None None.

End ErrorHandler.

(* ================================================================== *)
(** * utils/format-utils.ts *)
(* ================================================================== *)

Module FormatUtils.

(** [(num / den).toFixed(1)] for a safe integer [0 <= num] and [den] a
    power of two: the quotient is then an exact double below [1e21], and
    [toFixed] rounds it to the nearest tenth, the larger one on a tie. *)
Definition toFixed1 (num den : Z) : string :=
  let tenths := (20 * num + den) / (2 * den) in
  Js.ofZ (tenths / 10) ++ "." ++ Js.ofZ (tenths mod 10).

(** [bytes] is an integer; the printed digits are those of the code for
    the safe integers. *)
Definition formatFileSize (bytes : Z) : string :=
  if bytes =? 0 then "0 B"
  else if bytes <? 1024 then Js.ofZ bytes ++ " B"
  else if bytes <? 1024 * 1024 then toFixed1 bytes 1024 ++ " KB"
  else toFixed1 bytes (1024 * 1024) ++ " MB".

(** A [string | number] value; numbers are integers here. *)
Inductive StrOrNum :=
| Str (s : string)
| Num (n : Z).

Record TemplateVariables := mkVars {
  page : option StrOrNum;
  total : option StrOrNum;
  date : option string;
  title : option string
}.

Definition noVariables : TemplateVariables := mkVars None None None None.

(** [String(v || '')]: [undefined], the empty string and 0 are falsy. *)
Definition stringOrEmpty (v : option StrOrNum) : string :=
  match v with
  | Some (Str s) => s
  | Some (Num n) => if n =? 0 then "" else Js.ofZ n
  | None => ""
  end.

(** [today] is [new Date().toLocaleDateString()]. *)
Definition replaceTemplateVariables (today : string) (template : string)
  (variables : TemplateVariables) : string :=
  let result := template in
  let result := Js.replaceAll "{page}" (stringOrEmpty (page variables)) result in
  let result := Js.replaceAll "{total}" (stringOrEmpty (total variables)) result in
  let result := Js.replaceAll "{date}" (Js.orElse (date variables) today) result in
  let result := Js.replaceAll "{title}" (Js.orElse (title variables) "Document") result in
  result.

(** ** [formatDuration] *)

(** Whether the double nearest to [num / den] lies below it, for
    [1 <= num / den < 2^53]: the quotient is scaled to a 53-bit significand
    and rounded to nearest, ties to even. *)
Definition doubleBelow (num den : Z) : bool :=
  let p := Z.log2 (num / den) in
  let scaled := num * 2 ^ (52 - p) in
  let q := scaled / den in
  let r := scaled mod den in
  ((0 <? r) && ((2 * r <? den) || ((2 * r =? den) && Z.even q)))%bool.

(** [(ms / 1000).toFixed(1)] for [1000 <= ms < 60000], in tenths of a
    second.  [toFixed] rounds the double [ms / 1000] to the nearest tenth and
    takes the larger one on a tie.  Off a half tenth the double is far too
    close to [ms / 1000] to change the result; on a half tenth the result
    depends on the side of [ms / 1000] the double lies on. *)
Definition secondsTenths (ms : Z) : Z :=
  let q := ms / 100 in
  let r := ms mod 100 in
  if r <? 50 then q
  else if 50 <? r then q + 1
  else if doubleBelow ms 1000 then q else q + 1.

(** [ms] is an integer.  Up to [MAX_SAFE_INTEGER] the double [ms / 60000]
    has the integer part of the exact quotient, so [Math.floor] of it is
    the integer division; the printed digits are those of the code for the
    safe integers. *)
Definition formatDuration (ms : Z) : string :=
  if ms <? 1000 then Js.ofZ ms ++ "ms"
  else if ms <? 60000
  then Js.ofZ (secondsTenths ms / 10) ++ "." ++ Js.ofZ (secondsTenths ms mod 10) ++ "s"
  else Js.ofZ (ms / 60000) ++ "m " ++ Js.ofZ ((ms mod 60000) / 1000) ++ "s".

(** ** [sanitizeFilename] *)

(** The characters of the class in the first [replace]: the angle
    brackets, colon, double quote, slash, backslash, bar, question mark and
    star. *)
Definition isUnsafe (c : ascii) : bool :=
  (Ascii.eqb c "<" || Ascii.eqb c ">" || Ascii.eqb c ":" || Nat.eqb (Js.code c) 34
   || Ascii.eqb c "/" || Nat.eqb (Js.code c) 92 || Ascii.eqb c "|" || Ascii.eqb c "?"
   || Ascii.eqb c "*")%bool.

(** The first [replace]: each of these characters becomes a hyphen. *)
Fixpoint replaceUnsafe (s : string) : string :=
  match s with
  | EmptyString => EmptyString
  | String c r => String (if isUnsafe c then "-"%char else c) (replaceUnsafe r)
  end.

(** [s.replace(/\s+/g, '_')]. *)
Fixpoint underscoreFrom (inRun : bool) (s : string) : string :=
  match s with
  | EmptyString => EmptyString
  | String c r =>
      if Js.isSpace c
      then if inRun then underscoreFrom true r
           else String "_" (underscoreFrom true r)
      else String c (underscoreFrom false r)
  end.

(** [s.replace(/_{2,}/g, '_')]: a run of underscores becomes one. *)
Fixpoint squeezeFrom (inRun : bool) (s : string) : string :=
  match s with
  | EmptyString => EmptyString
  | String c r =>
      if Ascii.eqb c "_"
      then if inRun then squeezeFrom true r
           else String "_" (squeezeFrom true r)
      else String c (squeezeFrom false r)
  end.

Fixpoint dropLeadingUnderscores (s : string) : string :=
  match s with
  | EmptyString => EmptyString
  | String c r => if Ascii.eqb c "_" then dropLeadingUnderscores r else s
  end.

Fixpoint dropTrailingUnderscores (s : string) : string :=
  match s with
  | EmptyString => EmptyString
  | String c r =>
      match dropTrailingUnderscores r with
      | EmptyString => if Ascii.eqb c "_" then EmptyString else String c EmptyString
      | r' => String c r'
      end
  end.

(** [s.replace(/^_+|_+$/g, '')]: the leading run and the trailing run. *)
Definition stripUnderscores (s : string) : string :=
  dropTrailingUnderscores (dropLeadingUnderscores s).

Definition sanitizeFilename (filename : string) : string :=
  stripUnderscores (squeezeFrom false (underscoreFrom false (replaceUnsafe filename))).

End FormatUtils.

(* ================================================================== *)
(** * renderer/html-template.ts *)
(* ================================================================== *)

Module HtmlTemplate.

Record HeaderFooter := mkHeaderFooter {
  left : option string;
  center : option string;
  right : option string
}.

Record Heading := mkHeading {
  level : Z;
  text : string;
  id : string
}.

(** ** The heading pattern [/<h([1-6])[^>]*>(.*?)<\/h\1>/gi] *)

Definition isH (c : ascii) : bool :=
  (Ascii.eqb c "h" || Ascii.eqb c "H")%bool.

(** [[^>]*>]: everything up to and including the first [>]; the result is
    what follows and the number of code units passed. *)
Fixpoint afterGt (s : string) : option (string * nat) :=
  match s with
  | EmptyString => None
  | String c r =>
      if Ascii.eqb c ">" then Some (r, 1%nat)
      else match afterGt r with
           | Some (rest, n) => Some (rest, S n)
           | None => None
           end
  end.

(** [<\/h\1>] at the start of [s], for the captured digit [d]. *)
Definition closesHere (d : ascii) (s : string) : bool :=
  match s with
  | String c0 (String c1 (String c2 (String c3 (String c4 _)))) =>
      (Ascii.eqb c0 "<" && Ascii.eqb c1 "/" && isH c2 && Ascii.eqb c3 d
       && Ascii.eqb c4 ">")%bool
  | _ => false
  end.

(** [(.*?)<\/h\1>]: the shortest run free of line terminators that is
    followed by the closing tag; the result is the run and the number of code
    units matched, closing tag included. *)
Fixpoint lazyInner (d : ascii) (s : string) : option (string * nat) :=
  match s with
  | EmptyString => None
  | String c r =>
      if closesHere d s then Some (EmptyString, 5%nat)
      else if Js.isLineTerminator c then None
      else match lazyInner d r with
           | Some (inner, n) => Some (String c inner, S n)
           | None => None
           end
  end.

(** One attempt of the pattern at the start of [s]: the captured digit, the
    captured inner text and the length of the whole match. *)
Definition matchHeadingAt (s : string) : option (ascii * string * nat) :=
  match s with
  | String c0 (String c1 (String c2 r)) =>
      if (Ascii.eqb c0 "<" && isH c1 && Js.between 49 54 c2)%bool then
        match afterGt r with
        | Some (r', n1) =>
            match lazyInner c2 r' with
            | Some (inner, n2) => Some (c2, inner, (3 + n1 + n2)%nat)
            | None => None
            end
        | None => None
        end
      else None
  | _ => None
  end.

(** [parseInt] of the captured digit. *)
Definition parseIntDigit (d : ascii) : Z := Z.of_nat (Js.code d) - 48.

(** The plain text of a heading: tags removed, then trimmed. *)
Definition plainText (inner : string) : string :=
  Js.trim (Js.stripTags inner).

(** The "simple slug": lower-cased, white space runs to hyphens, everything
    but word characters and hyphens removed. *)
Definition slug (text : string) : string :=
  Js.stripNonWord (Js.hyphenateSpaces (Js.toLowerCase text)).

(** The [while ((match = headingRegex.exec(htmlContent)) !== null)] loop of
    [generateToc]; [skip] is the distance to the regular expression's
    lastIndex. *)
Fixpoint collectHeadings (maxDepth : Z) (skip : nat) (s : string) : list Heading :=
  match s with
  | EmptyString => []
  | String _ r =>
      match skip with
      | S k => collectHeadings maxDepth k r
      | O =>
          match matchHeadingAt s with
          | Some (d, inner, n) =>
              let level := parseIntDigit d in
              if level <=? maxDepth then
                let text := plainText inner in
                let id := slug text in
                mkHeading level text id :: collectHeadings maxDepth (n - 1) r
              else collectHeadings maxDepth (n - 1) r
          | None => collectHeadings maxDepth 0 r
          end
      end
  end.

Fixpoint repeat (n : nat) (s : string) : string :=
  match n with
  | O => EmptyString
  | S k => s ++ repeat k s
  end.

Definition tocItem (h : Heading) : string :=
  "<li><a href=" ++ Js.dq ++ "#" ++ id h ++ Js.dq ++ ">" ++ text h ++ "</a></li>".

(** The [for (const heading of headings)] loop and the closing loop after
    it: [<ul>] is opened while [currentLevel < heading.level], [</ul>] is
    closed while [currentLevel > heading.level]. *)
Fixpoint tocBody (currentLevel : Z) (headings : list Heading) : string :=
  match headings with
  | [] => repeat (Z.to_nat (currentLevel - 1)) "</ul>"
  | heading :: rest =>
      repeat (Z.to_nat (level heading - currentLevel)) "<ul>"
      ++ repeat (Z.to_nat (currentLevel - level heading)) "</ul>"
      ++ tocItem heading
      ++ tocBody (level heading) rest
  end.

Definition tocOpen : string :=
  "<nav class=" ++ Js.dq ++ "toc" ++ Js.dq ++ "><div class=" ++ Js.dq
  ++ "toc-title" ++ Js.dq ++ ">Table of Contents</div><ul>".

Definition generateToc (htmlContent : string) (maxDepth : Z) : string :=
  match collectHeadings maxDepth 0 htmlContent with
  | [] => ""
  | headings => tocOpen ++ tocBody 1 headings ++ "</ul></nav>"
  end.

(** [htmlContent.replace(/<h([1-6])[^>]*>(.*?)<\/h\1>/gi, callback)]. *)
Fixpoint addHeadingIdsFrom (skip : nat) (s : string) : string :=
  match s with
  | EmptyString => EmptyString
  | String c r =>
      match skip with
      | S k => addHeadingIdsFrom k r
      | O =>
          match matchHeadingAt s with
          | Some (d, text, n) =>
              let level := String d EmptyString in
              let id := slug (plainText text) in
              "<h" ++ level ++ " id=" ++ Js.dq ++ id ++ Js.dq ++ ">" ++ text
              ++ "</h" ++ level ++ ">" ++ addHeadingIdsFrom (n - 1) r
          | None => String c (addHeadingIdsFrom 0 r)
          end
      end
  end.

Definition addHeadingIds (htmlContent : string) : string :=
  addHeadingIdsFrom 0 htmlContent.

(** ** [generateHtmlTemplate] *)

Record HtmlTemplateOptions := mkHtmlTemplateOptions {
  content : string;
  themeCss : string;
  codeHighlightCss : string;
  customCss : string;
  includeToc : bool;
  tocDepth : Z
}.

Definition tocAndPrintCss : string :=
"    /* TOC styling */
    .toc {
      background: #f6f8fa;
      padding: 16px;
      border-radius: 6px;
      margin-bottom: 24px;
      page-break-after: avoid;
    }
    .toc-title {
      font-size: 1.2em;
      font-weight: 600;
      margin-bottom: 8px;
    }
    .toc ul {
      list-style: none;
      padding-left: 16px;
      margin: 4px 0;
    }
    .toc ul ul {
      padding-left: 20px;
    }
    .toc li {
      margin: 4px 0;
    }
    .toc a {
      text-decoration: none;
      color: #0969da;
    }
    .toc a:hover {
      text-decoration: underline;
    }

    /* Print optimizations */
    @media print {
      .page-break {
        page-break-before: always;
      }
      h1, h2, h3, h4, h5, h6 {
        page-break-after: avoid;
      }
      pre {
        page-break-inside: avoid;
      }
      img {
        max-width: 100%;
        page-break-inside: avoid;
      }
      table {
        page-break-inside: avoid;
      }
      a {
        color: #0969da;
        text-decoration: underline;
      }
    }
  </style>
".

Definition highlightScript : string :=
"
  <!-- Highlight.js -->
  <script src=" ++ Js.dq
++ "https://cdnjs.cloudflare.com/ajax/libs/highlight.js/11.9.0/highlight.min.js"
++ Js.dq ++ "></script>
  <script>
    document.addEventListener('DOMContentLoaded', () => {
      // Apply syntax highlighting to all code blocks
      document.querySelectorAll('pre code').forEach((block) => {
        hljs.highlightElement(block);
      });
    });
  </script>
</head>
<body>
  <div class=" ++ Js.dq ++ "markdown-body" ++ Js.dq ++ ">
    ".

Definition documentHead : string :=
"<!DOCTYPE html>
<html lang=" ++ Js.dq ++ "en" ++ Js.dq ++ ">
<head>
  <meta charset=" ++ Js.dq ++ "UTF-8" ++ Js.dq ++ ">
  <meta name=" ++ Js.dq ++ "viewport" ++ Js.dq ++ " content=" ++ Js.dq
++ "width=device-width, initial-scale=1.0" ++ Js.dq ++ ">
  <title>Markdown PDF</title>
  <style>
    /* Theme styles */
    ".

Definition generateHtmlTemplate (options : HtmlTemplateOptions) : string :=
  let contentWithIds := addHeadingIds (content options) in
  let toc :=
    if includeToc options then generateToc contentWithIds (tocDepth options)
    else "" in
  documentHead ++ themeCss options ++ "

    /* Code highlighting */
    " ++ codeHighlightCss options ++ "

    /* Custom CSS */
    " ++ customCss options ++ "

" ++ tocAndPrintCss ++ highlightScript ++ toc ++ "
    " ++ contentWithIds ++ "
  </div>
</body>
</html>".

(** ** [formatHeaderFooter] *)

Definition defaultStyle : string :=
  "font-size: 10px; padding: 5px 20px; width: 100%;".

(** The template literal that [formatHeaderFooter] returns. *)
Definition headerFooterTable (style left center right : string) : string :=
  "
    <div style=" ++ Js.dq ++ style ++ Js.dq ++ ">
      <table style=" ++ Js.dq ++ "width: 100%; border: none;" ++ Js.dq ++ ">
        <tr>
          <td style=" ++ Js.dq ++ "text-align: left; width: 33%;" ++ Js.dq ++ ">" ++ left ++ "</td>
          <td style=" ++ Js.dq ++ "text-align: center; width: 34%;" ++ Js.dq ++ ">" ++ center ++ "</td>
          <td style=" ++ Js.dq ++ "text-align: right; width: 33%;" ++ Js.dq ++ ">" ++ right ++ "</td>
        </tr>
      </table>
    </div>
  ".

Definition formatHeaderFooter (today : string) (config : HeaderFooter) (style : string)
  : string :=
  let left := FormatUtils.replaceTemplateVariables today
                (Js.orElse (left config) "") FormatUtils.noVariables in
  let center := FormatUtils.replaceTemplateVariables today
                  (Js.orElse (center config) "") FormatUtils.noVariables in
  let right := FormatUtils.replaceTemplateVariables today
                 (Js.orElse (right config) "") FormatUtils.noVariables in
  headerFooterTable style left center right.

End HtmlTemplate.

(* ================================================================== *)
(** * The process state, the outside world and the effect trace *)
(* ================================================================== *)

Definition Browser := nat.
Definition Page := nat.

(** The identity of one promise stored in [browserLaunchPromise]. *)
Definition Ticket := nat.

Record Margin := mkMargin {
  m_top : option string;
  m_bottom : option string;
  m_left : option string;
  m_right : option string
}.

Inductive ResponseFormat := concise | detailed.

(** [PdfGenerationConfig] of [types/schemas.ts].  [scale] is only handed
    on to the renderer and is kept in thousandths; [tocDepth] is an integer
    (the schema admits any number from 1 to 6, and a heading level is
    compared with it). *)
Record PdfGenerationConfig := mkConfig {
  markdownContent : string;
  outputPath : string;
  theme : string;
  customCss : option string;
  pageFormat : string;
  pageOrientation : string;
  margin : option Margin;
  includeToc : bool;
  tocDepth : Z;
  codeTheme : string;
  header : option HtmlTemplate.HeaderFooter;
  footer : option HtmlTemplate.HeaderFooter;
  scale : Z;
  waitForNetworkIdle : bool;
  baseUrl : option string;
  responseFormat : ResponseFormat
}.

(** The argument of [page.pdf]. *)
Record PdfOptions := mkPdfOptions {
  pdf_path : string;
  pdf_format : string;
  pdf_landscape : bool;
  pdf_margin_top : string;
  pdf_margin_bottom : string;
  pdf_margin_left : string;
  pdf_margin_right : string;
  pdf_scale : Z;
  pdf_printBackground : bool;
  pdf_displayHeaderFooter : bool;
  pdf_headerTemplate : option string;
  pdf_footerTemplate : option string
}.

(** What the callback of [page.evaluate] in [gatherStats] returns. *)
Record DomStats := mkDomStats {
  dom_codeBlocks : Z;
  dom_images : Z;
  dom_headings : Z;
  dom_missingImages : list string
}.

Record PdfStats := mkPdfStats {
  st_pages : Z;
  st_codeBlocks : Z;
  st_images : Z;
  st_headings : Z;
  st_missingImages : list string;
  st_warnings : list string
}.

Record FetchResponse := mkFetchResponse {
  resp_ok : bool;
  resp_status : Z;
  resp_statusText : string;
  resp_contentType : option string;
  resp_text : Outcome string
}.

(** Every call that leaves the process, in the order it is made. *)
Inductive Effect :=
| EReadFile (path : string)
| EFetch (url : string)
| EMkdir (dir : string)
| EMarked (source : string)
| EReadTheme (themeName : string)
| EFetchCodeTheme (codeTheme : string)
| ELaunch (t : Ticket)
| EOnce (signal : string)
| ECloseBrowser (b : Browser)
| ENewPage (b : Browser)
| ESetViewportSize (p : Page)
| ESetContent (p : Page) (html waitUntil : string)
| EWaitForFunction (p : Page)
| EPdf (p : Page) (options : PdfOptions)
| EEvaluate (p : Page)
| EClosePage (p : Page)
| EWarn (msg : string).

(** The outcome of each external call.  [newPage b n] is the outcome of
    the call of [b.newPage()] made after [n] earlier calls of [newPage], and
    [closePage p n] that of the call of [p.close()] made after [n] earlier
    ones. *)
Record Env := mkEnv {
  today : string;
  debug : bool;
  startTime : Z;
  endTime : Z;
  dirname : string -> string;
  readFile : string -> Outcome string;
  fetch : string -> Outcome FetchResponse;
  stat : string -> Outcome Z;
  mkdir : string -> Outcome unit;
  marked : string -> Outcome string;
  readTheme : string -> Outcome string;
  fetchCodeTheme : string -> Outcome string;
  launch : Outcome Browser;
  contexts : Browser -> Outcome bool;
  isConnected : Browser -> bool;
  newPage : Browser -> nat -> Outcome Page;
  setViewportSize : Page -> Outcome unit;
  setContent : Page -> Outcome unit;
  waitForFunction : Page -> Outcome unit;
  pdf : Page -> Outcome Z;
  evaluate : Page -> Outcome DomStats;
  closePage : Page -> nat -> Outcome unit
}.

(** The module-level variables of [pdf-generator.ts], the launches whose
    [chromium.launch] has not settled yet, and the trace. *)
Record World := mkWorld {
  browserInstance : option Browser;
  browserLaunchPromise : option Ticket;
  activePages : Z;
  inFlight : list Ticket;
  nextTicket : Ticket;
  trace : list Effect
}.

Definition MAX_CONCURRENT_PAGES : Z := 10.

Definition initialWorld : World := mkWorld None None 0 [] 0%nat [].

Definition setBrowserInstance (b : option Browser) (w : World) : World :=
  mkWorld b (browserLaunchPromise w) (activePages w) (inFlight w) (nextTicket w) (trace w).

Definition setBrowserLaunchPromise (t : option Ticket) (w : World) : World :=
  mkWorld (browserInstance w) t (activePages w) (inFlight w) (nextTicket w) (trace w).

Definition setActivePages (n : Z) (w : World) : World :=
  mkWorld (browserInstance w) (browserLaunchPromise w) n (inFlight w) (nextTicket w) (trace w).

Definition record (e : Effect) (w : World) : World :=
  mkWorld (browserInstance w) (browserLaunchPromise w) (activePages w) (inFlight w)
          (nextTicket w) (trace w ++ [e]).

(** ** Programs: state passing with exceptions *)

Definition Prog (S A : Type) : Type := S -> Outcome A * S.

Definition ret {S A} (a : A) : Prog S A := fun s => (Ok a, s).

Definition throw {S A} (t : Thrown) : Prog S A := fun s => (Throw t, s).

Definition bind {S A B} (m : Prog S A) (k : A -> Prog S B) : Prog S B :=
  fun s =>
    match m s with
    | (Ok a, s') => k a s'
    | (Throw t, s') => (Throw t, s')
    end.

Notation "x <- m ;; k" := (bind m (fun x => k))
  (at level 61, m at next level, right associativity).
Notation "m ;;; k" := (bind m (fun _ => k))
  (at level 61, right associativity).

(** [try { body } catch (error) { handler error }]. *)
Definition tryCatch {S A} (body : Prog S A) (handler : Thrown -> Prog S A) : Prog S A :=
  fun s =>
    match body s with
    | (Ok a, s') => (Ok a, s')
    | (Throw t, s') => handler t s'
    end.

(** [try { body } finally { final }]: [final] runs on both exits and only
    replaces the completion of [body] when it throws itself. *)
Definition tryFinally {S A} (body : Prog S A) (final : Prog S unit) : Prog S A :=
  fun s =>
    match body s with
    | (r, s') =>
        match final s' with
        | (Ok _, s'') => (r, s'')
        | (Throw t, s'') => (Throw t, s'')
        end
    end.

(** [promise.catch(() => {})]. *)
Definition swallow {S} (m : Prog S unit) : Prog S unit :=
  tryCatch m (fun _ => ret tt).

Definition modify (f : World -> World) : Prog World unit :=
  fun w => (Ok tt, f w).

(** An external call: it is recorded and completes as the oracle says. *)
Definition external {A} (e : Effect) (r : Outcome A) : Prog World A :=
  fun w => (r, record e w).

Definition warn (msg : string) : Prog World unit := modify (record (EWarn msg)).

Definition countClosePage (p : Page) (tr : list Effect) : nat :=
  List.length (filter (fun e => match e with EClosePage q => Nat.eqb q p | _ => false end) tr).

Definition countNewPage (tr : list Effect) : nat :=
  List.length (filter (fun e => match e with ENewPage _ => true | _ => false end) tr).

Definition countLaunch (tr : list Effect) : nat :=
  List.length (filter (fun e => match e with ELaunch _ => true | _ => false end) tr).

(* ================================================================== *)
(** * utils/file-utils.ts *)
(* ================================================================== *)

Module FileUtils.

Definition hasCode (c : string) (t : Thrown) : bool :=
  match t with
  | ErrorObj e => match errCode e with Some c' => String.eqb c' c | None => false end
  | NonError => false
  end.

Definition readMarkdownFile (env : Env) (filePath : string) : Prog World string :=
  tryCatch (external (EReadFile filePath) (readFile env filePath))
    (fun error =>
       if hasCode "ENOENT" error
       then throw (ErrorObj (newError ("Markdown file not found: " ++ filePath)))
       else throw error).

Definition fetchMarkdownUrl (env : Env) (url : string) : Prog World string :=
  tryCatch
    (response <- external (EFetch url) (fetch env url) ;;
     (if negb (resp_ok response)
      then throw (ErrorObj (newError ("HTTP " ++ Js.ofZ (resp_status response) ++ ": "
                                      ++ resp_statusText response)))
      else ret tt) ;;;
     let contentType := Js.orElse (resp_contentType response) "" in
     (if (negb (Js.includes "text" contentType) && negb (Js.includes "markdown" contentType))%bool
      then warn ("Warning: Content-Type is " ++ Js.dq ++ contentType ++ Js.dq
                 ++ ", expected text or markdown")
      else ret tt) ;;;
     fun w => (resp_text response, w))
    (fun error =>
       match error with
       | ErrorObj e =>
           throw (ErrorObj (newError ("Failed to fetch markdown from URL: " ++ message e)))
       | NonError => throw error
       end).

(** The directory is created unless [mkdir] fails with a code other than
    EEXIST; a failure without a code is dropped as well. *)
Definition ensureOutputDirectory (env : Env) (outputPath : string) : Prog World unit :=
  let dir := dirname env outputPath in
  tryCatch (external (EMkdir dir) (mkdir env dir))
    (fun error =>
       match error with
       | ErrorObj e =>
           match errCode e with
           | Some c =>
               if negb (String.eqb c "EEXIST")
               then throw (ErrorObj (newError ("Failed to create output directory: " ++ message e)))
               else ret tt
           | None => ret tt
           end
       | NonError => ret tt
       end).

Definition getFileSize (env : Env) (filePath : string) : Z :=
  match stat env filePath with
  | Ok size => size
  | Throw _ => 0
  end.

End FileUtils.

(* ================================================================== *)
(** * utils/theme-loader.ts *)
(* ================================================================== *)

Module ThemeLoader.

Definition loadTheme (env : Env) (themeName : string) : Prog World string :=
  tryCatch (external (EReadTheme themeName) (readTheme env themeName))
    (fun error =>
       throw (ErrorObj (newError ("Failed to load theme " ++ Js.dq ++ themeName ++ Js.dq
                                  ++ ": " ++ messageOrUnknown error)))).

Definition fallbackCodeCss : string :=
"
      pre code {
        display: block;
        padding: 1em;
        background: #f6f8fa;
        border-radius: 6px;
        overflow-x: auto;
      }
    ".

(** [fetchCodeTheme] is the outcome of the whole [try] block: the request,
    the status test and the body read.  The text of the warning depends on
    how the engine prints the error and is left out. *)
Definition loadCodeTheme (env : Env) (codeTheme : string) : Prog World string :=
  tryCatch (external (EFetchCodeTheme codeTheme) (fetchCodeTheme env codeTheme))
    (fun _ =>
       warn "Failed to load code theme from CDN, using fallback" ;;;
       ret fallbackCodeCss).

End ThemeLoader.

(* ================================================================== *)
(** * renderer/pdf-generator.ts: browser instance management *)
(* ================================================================== *)

Module PdfGenerator.

Definition isBrowserHealthy (env : Env) (browser : Browser) : bool :=
  match contexts env browser with
  | Ok defined => (defined && isConnected env browser)%bool
  | Throw _ => false
  end.

(** ** [getBrowser], cut at its suspension points

    [getBrowser] is an async function: between two awaits it runs without
    interruption, and at an await any other task may run.  Its pieces are
    [getBrowserEnter] (from the call to the first await or to the return),
    [getBrowserResume] (after [await isBrowserHealthy]) and, for the
    anonymous async function that launches, [startLaunch] (up to
    [await chromium.launch]) and [settleLaunch] (the rest). *)

(** What a call of [getBrowser] returns: the shared launch promise, or the
    live instance. *)
Inductive Returned :=
| ReturnsPromise (t : Ticket)
| ReturnsInstance (b : Browser).

(** A call either returns at once or is suspended at
    [await isBrowserHealthy(browserInstance)], whose result is already
    computed. *)
Inductive Entered :=
| Suspended (b : Browser) (healthy : bool)
| Done (r : Returned).

(** The async function of step 3 runs up to [await chromium.launch(...)];
    the promise it returns is stored in [browserLaunchPromise]. *)
Definition startLaunch (w : World) : Ticket * World :=
  let t := nextTicket w in
  (t, mkWorld (browserInstance w) (Some t) (activePages w)
              (inFlight w ++ [t]) (S t) (trace w ++ [ELaunch t])).

Definition launchFailure (error : Thrown) : Thrown :=
  ErrorObj (newError
    ("Failed to launch browser: " ++ messageOrUnknown error ++ ". "
     ++ "Ensure Playwright Chromium is installed: pnpm exec playwright install chromium")).

Definition removeTicket (t : Ticket) (l : list Ticket) : list Ticket :=
  filter (fun t' => negb (Nat.eqb t' t)) l.

(** The launch of ticket [t] settles with [r]: the [try], [catch] and
    [finally] of the async function.  The result is what the promise of [t]
    settles to. *)
Definition settleLaunch (t : Ticket) (r : Outcome Browser) (w : World)
  : Outcome Browser * World :=
  let w := mkWorld (browserInstance w) (browserLaunchPromise w) (activePages w)
                   (removeTicket t (inFlight w)) (nextTicket w) (trace w) in
  match r with
  | Ok browser =>
      let w := setBrowserInstance (Some browser) w in
      let w := record (EOnce "SIGINT") w in
      let w := record (EOnce "SIGTERM") w in
      (Ok browser, setBrowserLaunchPromise None w)
  | Throw error =>
      let w := setBrowserInstance None w in
      (Throw (launchFailure error), setBrowserLaunchPromise None w)
  end.

Definition getBrowserEnter (env : Env) (w : World) : Entered * World :=
  match browserLaunchPromise w with
  | Some t => (Done (ReturnsPromise t), w)
  | None =>
      match browserInstance w with
      | Some b => (Suspended b (isBrowserHealthy env b), w)
      | None => let (t, w') := startLaunch w in (Done (ReturnsPromise t), w')
      end
  end.

(** The healthy branch returns the browser that was tested: the one in
    [browserInstance] as long as no other task has replaced or cleared the
    variable during the await.  [acquirePageHealthy] below reads the
    variable itself. *)
Definition getBrowserResume (b : Browser) (healthy : bool) (w : World)
  : Returned * World :=
  if healthy then (ReturnsInstance b, w)
  else
    let w := record (EWarn "Browser instance unhealthy, restarting...") w in
    let w := setBrowserInstance None w in
    let (t, w') := startLaunch w in (ReturnsPromise t, w').

(** [getBrowser] run to its result with no other task in between: the
    launch it waits for settles as [launch env] says. *)
Definition getBrowser (env : Env) : Prog World Browser :=
  fun w =>
    let (e, w) := getBrowserEnter env w in
    let (r, w) := match e with
                  | Suspended b healthy => getBrowserResume b healthy w
                  | Done r => (r, w)
                  end in
    match r with
    | ReturnsInstance b => (Ok b, w)
    | ReturnsPromise t => settleLaunch t (launch env) w
    end.

Definition quotaMessage : string :=
  "Maximum concurrent pages (" ++ Js.ofZ MAX_CONCURRENT_PAGES ++ ") reached. "
  ++ "Too many PDF conversions in progress. Please try again later.".

Definition acquirePage (env : Env) : Prog World Page :=
  fun w =>
    if MAX_CONCURRENT_PAGES <=? activePages w
    then throw (ErrorObj (newError quotaMessage)) w
    else
      (browser <- getBrowser env ;;
       page <- (fun w => external (ENewPage browser)
                            (newPage env browser (countNewPage (trace w))) w) ;;
       modify (fun w => setActivePages (activePages w + 1) w) ;;;
       ret page) w.

(** [releasePage] up to [await page.close()], and the rest of it. *)
Definition releasePageClose (env : Env) (page : Page) (w : World)
  : Outcome unit * World :=
  external (EClosePage page) (closePage env page (countClosePage page (trace w))) w.

Definition releasePageFinish (closed : Outcome unit) (w : World) : World :=
  let w := match closed with
           | Ok _ => w
           | Throw _ => record (EWarn "Error closing page:") w
           end in
  setActivePages (Z.max 0 (activePages w - 1)) w.

Definition releasePage (env : Env) (page : Page) : Prog World unit :=
  fun w =>
    let (closed, w) := releasePageClose env page w in
    (Ok tt, releasePageFinish closed w).

(** [closeBrowser] after its await; a failing [close()] is swallowed. *)
Definition closeBrowserFinish (w : World) : World :=
  setActivePages 0 (setBrowserLaunchPromise None (setBrowserInstance None w)).

Definition closeBrowser (env : Env) : Prog World unit :=
  fun w =>
    let w := match browserInstance w with
             | Some b => record (ECloseBrowser b) w
             | None => w
             end in
    (Ok tt, closeBrowserFinish w).

(** The [cleanup] handler that [getBrowser] registers for SIGINT and
    SIGTERM. *)
Definition cleanup (env : Env) : Prog World unit :=
  fun w =>
    let w := match browserInstance w with
             | Some b => setBrowserInstance None (record (ECloseBrowser b) w)
             | None => w
             end in
    (Ok tt, setActivePages 0 w).

(** ** [getBrowserStats] *)

Record BrowserStats := mkBrowserStats {
  browserActive : bool;
  bs_activePages : Z;
  maxPages : Z
}.

Definition getBrowserStats (env : Env) (w : World) : BrowserStats :=
  mkBrowserStats
    (match browserInstance w with
     | Some b => isConnected env b
     | None => false
     end)
    (activePages w)
    MAX_CONCURRENT_PAGES.

(** ** [acquirePage], cut at its suspension points

    The quota test and the call of [getBrowser] run in the first piece; the
    call of [newPage] runs once the browser is there, and [activePages++]
    once the page is there. *)
Definition acquirePageEnter (env : Env) (w : World) : Outcome Entered * World :=
  if MAX_CONCURRENT_PAGES <=? activePages w
  then (Throw (ErrorObj (newError quotaMessage)), w)
  else let (e, w') := getBrowserEnter env w in (Ok e, w').

Definition acquirePageOpen (env : Env) (browser : Browser) : Prog World Page :=
  fun w => external (ENewPage browser)
                    (newPage env browser (countNewPage (trace w))) w.

Definition acquirePageCount (w : World) : World :=
  setActivePages (activePages w + 1) w.


(* ================================================================== *)
(** * renderer/pdf-generator.ts: PDF generation *)
(* ================================================================== *)

(** The state of one call of [generatePdf]: the world and the local
    variable [let page: Page | null]. *)
Record Frame := mkFrame { world : World; page : option Page }.

Definition inWorld {A} (m : Prog World A) : Prog Frame A :=
  fun f => let (r, w) := m (world f) in (r, mkFrame w (page f)).

Definition setPage (p : option Page) : Prog Frame unit :=
  fun f => (Ok tt, mkFrame (world f) p).

Definition getPage : Prog Frame (option Page) :=
  fun f => (Ok (page f), f).

Definition missingImagesWarning (missingImages : list string) : string :=
  Js.ofZ (Z.of_nat (List.length missingImages)) ++ " image(s) failed to load: "
  ++ Js.join ", " missingImages.

Definition gatherStats (env : Env) (page : Page) (_detailed : bool) : Prog World PdfStats :=
  stats <- external (EEvaluate page) (evaluate env page) ;;
  let warnings :=
    if Nat.ltb 0 (List.length (dom_missingImages stats))
    then [missingImagesWarning (dom_missingImages stats)]
    else [] in
  ret (mkPdfStats 0 (dom_codeBlocks stats) (dom_images stats) (dom_headings stats)
                  (dom_missingImages stats) warnings).

Definition defaultMargin : Margin :=
  mkMargin (Some "2cm") (Some "2cm") (Some "2cm") (Some "2cm").

Definition isDetailed (f : ResponseFormat) : bool :=
  match f with detailed => true | concise => false end.

Definition pdfOptions (env : Env) (config : PdfGenerationConfig) : PdfOptions :=
  let margin := match margin config with Some m => m | None => defaultMargin end in
  mkPdfOptions
    (outputPath config)
    (pageFormat config)
    (String.eqb (pageOrientation config) "landscape")
    (Js.orElse (m_top margin) "2cm")
    (Js.orElse (m_bottom margin) "2cm")
    (Js.orElse (m_left margin) "2cm")
    (Js.orElse (m_right margin) "2cm")
    (scale config)
    true
    (match header config, footer config with None, None => false | _, _ => true end)
    (match header config with
     | Some h => Some (HtmlTemplate.formatHeaderFooter (today env) h HtmlTemplate.defaultStyle)
     | None => None
     end)
    (match footer config with
     | Some h => Some (HtmlTemplate.formatHeaderFooter (today env) h HtmlTemplate.defaultStyle)
     | None => None
     end).

(** Steps 1 to 9 of the [try] block of [generatePdf], from the output
    directory to [page.pdf]: the result is the page and the length of the
    PDF buffer. *)
Definition producePdf (env : Env) (config : PdfGenerationConfig) : Prog Frame (Page * Z) :=
  inWorld (FileUtils.ensureOutputDirectory env (outputPath config)) ;;;
  htmlContent <- inWorld (external (EMarked (markdownContent config))
                                   (marked env (markdownContent config))) ;;
  themeCss <- inWorld (ThemeLoader.loadTheme env (theme config)) ;;
  codeHighlightCss <- inWorld (ThemeLoader.loadCodeTheme env (codeTheme config)) ;;
  let fullHtml :=
    HtmlTemplate.generateHtmlTemplate
      (HtmlTemplate.mkHtmlTemplateOptions htmlContent themeCss codeHighlightCss
         (Js.orElse (customCss config) "") (includeToc config) (tocDepth config)) in
  p <- inWorld (acquirePage env) ;;
  setPage (Some p) ;;;
  inWorld (external (ESetViewportSize p) (setViewportSize env p)) ;;;
  let waitUntil :=
    if waitForNetworkIdle config then "networkidle" else "domcontentloaded" in
  inWorld (external (ESetContent p fullHtml waitUntil) (setContent env p)) ;;;
  tryCatch (inWorld (external (EWaitForFunction p) (waitForFunction env p)))
           (fun _ => inWorld (warn "Code highlighting timeout, proceeding with PDF generation")) ;;;
  pdfBufferLength <- inWorld (external (EPdf p (pdfOptions env config)) (pdf env p)) ;;
  ret (p, pdfBufferLength).

(** Steps 10 to 13: statistics, release of the page, metrics, response. *)
Definition finishPdf (env : Env) (config : PdfGenerationConfig) (p : Page)
  (pdfBufferLength : Z) : Prog Frame Response :=
  stats <- inWorld (gatherStats env p (isDetailed (responseFormat config))) ;;
  inWorld (releasePage env p) ;;;
  setPage None ;;;
  let duration := endTime env - startTime env in
  let fileSize := FormatUtils.formatFileSize pdfBufferLength in
  ret (SuccessResponse (outputPath config) fileSize (st_pages stats) duration
         (if isDetailed (responseFormat config)
          then Some (mkMetadata (theme config) (pageFormat config) (includeToc config)
                       (st_codeBlocks stats) (st_images stats) (st_headings stats)
                       (st_warnings stats))
          else None)).

(** The [try] block of [generatePdf]. *)
Definition generatePdfTry (env : Env) (config : PdfGenerationConfig) : Prog Frame Response :=
  produced <- producePdf env config ;;
  finishPdf env config (fst produced) (snd produced).

(** The [catch] block: [if (page) await releasePage(page); throw error]. *)
Definition generatePdfCatch (env : Env) (error : Thrown) : Prog Frame Response :=
  pg <- getPage ;;
  match pg with
  | Some p => inWorld (releasePage env p)
  | None => ret tt
  end ;;;
  throw error.

(** The [finally] block: [if (page) await releasePage(page).catch(() => {})]. *)
Definition generatePdfFinally (env : Env) : Prog Frame unit :=
  pg <- getPage ;;
  match pg with
  | Some p => swallow (inWorld (releasePage env p))
  | None => ret tt
  end.

Definition generatePdf (env : Env) (config : PdfGenerationConfig) : Prog World Response :=
  fun w =>
    let (r, f) :=
      tryFinally (tryCatch (generatePdfTry env config) (generatePdfCatch env))
                 (generatePdfFinally env)
                 (mkFrame w None) in
    (r, world f).

(** [Math.ceil(a / b)] for integers [a] and [b > 0]. *)
Definition ceilDiv (a b : Z) : Z := - ((- a) / b).

Definition estimatePageCount (env : Env) (pdfPath : string) : Z :=
  let fileSize := FileUtils.getFileSize env pdfPath in
  Z.max 1 (ceilDiv fileSize (75 * 1024)).

(* ================================================================== *)
(** * Interleaved tasks on the browser manager *)
(* ================================================================== *)

(** Node runs one piece of one task at a time; a task gives way only at an
    await.  A [Step] is one such piece touching the manager's variables. *)

Inductive Caller :=
| NotCalled
| Waiting (b : Browser) (healthy : bool)
| Finished (r : Returned).

Record System := mkSystem {
  sys_world : World;
  callers : list Caller;
  settled : list (Ticket * Outcome Browser)
}.

Inductive Step :=
| Calls (i : nat)
| Resumes (i : nat)
| LaunchSettles (t : Ticket) (r : Outcome Browser)
| PageCounted
| ReleaseFinishes (closed : Outcome unit)
| CloseBrowserFinishes
| CleanupRuns.

Fixpoint updateAt {A} (i : nat) (x : A) (l : list A) : list A :=
  match l, i with
  | [], _ => []
  | _ :: r, O => x :: r
  | y :: r, S k => y :: updateAt k x r
  end.

Definition callerAt (s : System) (i : nat) : Caller := nth i (callers s) NotCalled.

Definition ticketInFlight (t : Ticket) (w : World) : bool :=
  existsb (Nat.eqb t) (inFlight w).

Definition step (env : Env) (st : Step) (s : System) : System :=
  let w := sys_world s in
  match st with
  | Calls i =>
      match callerAt s i with
      | NotCalled =>
          let (e, w') := getBrowserEnter env w in
          let c := match e with
                   | Suspended b healthy => Waiting b healthy
                   | Done r => Finished r
                   end in
          mkSystem w' (updateAt i c (callers s)) (settled s)
      | _ => s
      end
  | Resumes i =>
      match callerAt s i with
      | Waiting b healthy =>
          let (r, w') := getBrowserResume b healthy w in
          mkSystem w' (updateAt i (Finished r) (callers s)) (settled s)
      | _ => s
      end
  | LaunchSettles t r =>
      if ticketInFlight t w then
        let (res, w') := settleLaunch t r w in
        mkSystem w' (callers s) (settled s ++ [(t, res)])
      else s
  | PageCounted =>
      mkSystem (setActivePages (activePages w + 1) w) (callers s) (settled s)
  | ReleaseFinishes closed =>
      mkSystem (releasePageFinish closed w) (callers s) (settled s)
  | CloseBrowserFinishes =>
      mkSystem (closeBrowserFinish w) (callers s) (settled s)
  | CleanupRuns =>
      mkSystem (snd (cleanup env w)) (callers s) (settled s)
  end.

Definition run (env : Env) (steps : list Step) (s : System) : System :=
  fold_left (fun s st => step env st s) steps s.

Definition startSystem (w : World) (k : nat) : System :=
  mkSystem w (List.repeat NotCalled k) [].

Fixpoint settlementOf (t : Ticket) (l : list (Ticket * Outcome Browser))
  : option (Outcome Browser) :=
  match l with
  | [] => None
  | (t', r) :: rest => if Nat.eqb t' t then Some r else settlementOf t rest
  end.

(** What caller [i] has received so far, if anything. *)
Definition received (s : System) (i : nat) : option (Outcome Browser) :=
  match callerAt s i with
  | Finished (ReturnsInstance b) => Some (Ok b)
  | Finished (ReturnsPromise t) => settlementOf t (settled s)
  | _ => None
  end.

End PdfGenerator.

(* ================================================================== *)
(** * tools/convert.ts *)
(* ================================================================== *)

Module Convert.

Record MarkdownToPdfInput := mkInput {
  markdown_content : option string;
  markdown_file_path : option string;
  markdown_url : option string;
  output_path : string;
  in_theme : string;
  custom_css : option string;
  page_format : string;
  page_orientation : string;
  in_margin : option Margin;
  include_toc : bool;
  toc_depth : Z;
  code_theme : string;
  in_header : option HtmlTemplate.HeaderFooter;
  in_footer : option HtmlTemplate.HeaderFooter;
  in_scale : Z;
  wait_for_network_idle : bool;
  base_url : option string;
  response_format : ResponseFormat
}.

(** [createErrorResponse(error as Error)]: the cast checks nothing, and for
    a thrown value without a [message] the call of [toLowerCase] in
    [getErrorSuggestion] raises a TypeError. *)
Definition createErrorResponseAs (error : Thrown) : Prog World Response :=
  match error with
  | ErrorObj e => ret (ErrorHandler.createErrorResponse e false)
  | NonError =>
      throw (ErrorObj (newError
        "Cannot read properties of undefined (reading 'toLowerCase')"))
  end.

(** Step 2 of [convertMarkdownToPdf]: the content, or the response the
    function returns early with.  A source is used when it is truthy. *)
Definition resolveMarkdown (env : Env) (input : MarkdownToPdfInput)
  : Prog World (Response + string) :=
  match Js.whenTruthy (markdown_content input),
        Js.whenTruthy (markdown_file_path input),
        Js.whenTruthy (markdown_url input) with
  | Some content, _, _ => ret (inr content)
  | None, Some filePath, _ =>
      tryCatch (markdownContent <- FileUtils.readMarkdownFile env filePath ;;
                ret (inr markdownContent))
               (fun error => response <- createErrorResponseAs error ;; ret (inl response))
  | None, None, Some url =>
      tryCatch (markdownContent <- FileUtils.fetchMarkdownUrl env url ;;
                ret (inr markdownContent))
               (fun error => response <- createErrorResponseAs error ;; ret (inl response))
  | None, None, None =>
      ret (inl (ErrorResponse
                  (Some "No input source provided")
                  (Some "Provide one of: markdown_content, markdown_file_path, or markdown_url")
                  None))
  end.

Definition emptyContentResponse : Response :=
  ErrorResponse (Some "Markdown content is empty")
                (Some "Provide non-empty markdown content to convert") None.

Definition buildConfig (input : MarkdownToPdfInput) (markdownContent : string)
  : PdfGenerationConfig :=
  mkConfig markdownContent (output_path input) (in_theme input) (custom_css input)
           (page_format input) (page_orientation input) (in_margin input)
           (include_toc input) (toc_depth input) (code_theme input)
           (in_header input) (in_footer input) (in_scale input)
           (wait_for_network_idle input) (base_url input) (response_format input).

(** The [try] block of [convertMarkdownToPdf]. *)
Definition convertTry (env : Env) (input : MarkdownToPdfInput) : Prog World Response :=
  let validation :=
    ErrorHandler.validateInputSource
      (markdown_content input) (markdown_file_path input) (markdown_url input) in
  if negb (ErrorHandler.valid validation) then
    ret (ErrorResponse (ErrorHandler.v_error validation)
                       (ErrorHandler.v_suggestion validation) None)
  else
    resolved <- resolveMarkdown env input ;;
    match resolved with
    | inl response => ret response
    | inr markdownContent =>
        if negb (Js.truthy (Js.trim markdownContent)) then ret emptyContentResponse
        else PdfGenerator.generatePdf env (buildConfig input markdownContent)
    end.

Definition unexpectedResponse : Response :=
  ErrorResponse (Some "An unexpected error occurred")
                (Some "Check the input parameters and try again") None.

(** [convertMarkdownToPdf] never throws: its [catch] turns every exception
    into an error response. *)
Definition convertMarkdownToPdf (env : Env) (input : MarkdownToPdfInput) (w : World)
  : Response * World :=
  match convertTry env input w with
  | (Ok response, w') => (response, w')
  | (Throw (ErrorObj error), w') =>
      (ErrorHandler.createErrorResponse error (debug env), w')
  | (Throw NonError, w') => (unexpectedResponse, w')
  end.

End Convert.

(* ================================================================== *)
(** * Properties *)
(* ================================================================== *)

(** ** Scenarios

    Concrete oracles, inputs and worlds at which the statements below are
    instantiated. *)

(** Every external call succeeds; the file read yields white space only. *)
Definition sampleEnv : Env :=
  mkEnv "11/1/2026" false 1000 1250 (fun _ => "/out")
        (fun _ => Ok "   ") (fun _ => Throw NonError) (fun _ => Ok 153600)
        (fun _ => Ok tt) (fun _ => Ok "<h1>T</h1>") (fun _ => Ok "body{}")
        (fun _ => Ok "code{}")
        (Ok 7%nat) (fun _ => Ok true) (fun _ => true)
        (fun _ n => Ok n) (fun _ => Ok tt) (fun _ => Ok tt) (fun _ => Ok tt)
        (fun _ => Ok 153600) (fun _ => Ok (mkDomStats 1 2 3 ["a.png"]))
        (fun _ _ => Ok tt).

Definition withPdf (r : Page -> Outcome Z) (e : Env) : Env :=
  mkEnv (today e) (debug e) (startTime e) (endTime e) (dirname e) (readFile e)
        (fetch e) (stat e) (mkdir e) (marked e) (readTheme e) (fetchCodeTheme e)
        (launch e) (contexts e) (isConnected e) (newPage e) (setViewportSize e)
        (setContent e) (waitForFunction e) r (evaluate e) (closePage e).

Definition withEvaluate (r : Page -> Outcome DomStats) (e : Env) : Env :=
  mkEnv (today e) (debug e) (startTime e) (endTime e) (dirname e) (readFile e)
        (fetch e) (stat e) (mkdir e) (marked e) (readTheme e) (fetchCodeTheme e)
        (launch e) (contexts e) (isConnected e) (newPage e) (setViewportSize e)
        (setContent e) (waitForFunction e) (pdf e) r (closePage e).

Definition withBrowser (l : Outcome Browser) (connected : Browser -> bool) (e : Env) : Env :=
  mkEnv (today e) (debug e) (startTime e) (endTime e) (dirname e) (readFile e)
        (fetch e) (stat e) (mkdir e) (marked e) (readTheme e) (fetchCodeTheme e)
        l (contexts e) connected (newPage e) (setViewportSize e)
        (setContent e) (waitForFunction e) (pdf e) (evaluate e) (closePage e).

Definition withInput (rf : string -> Outcome string)
  (ft : string -> Outcome FetchResponse) (e : Env) : Env :=
  mkEnv (today e) (debug e) (startTime e) (endTime e) (dirname e) rf
        ft (stat e) (mkdir e) (marked e) (readTheme e) (fetchCodeTheme e)
        (launch e) (contexts e) (isConnected e) (newPage e) (setViewportSize e)
        (setContent e) (waitForFunction e) (pdf e) (evaluate e) (closePage e).

Definition withPreparation (mk : string -> Outcome unit) (md : string -> Outcome string)
  (th : string -> Outcome string) (e : Env) : Env :=
  mkEnv (today e) (debug e) (startTime e) (endTime e) (dirname e) (readFile e)
        (fetch e) (stat e) mk md th (fetchCodeTheme e)
        (launch e) (contexts e) (isConnected e) (newPage e) (setViewportSize e)
        (setContent e) (waitForFunction e) (pdf e) (evaluate e) (closePage e).

Definition noSuchFile : JsErr :=
  mkErr "ENOENT: no such file or directory, open '/docs/a.md'" (Some "ENOENT").

(** No file can be read, and the server answers 404 to every request. *)
Definition missingInputEnv : Env :=
  withInput (fun _ => Throw (ErrorObj noSuchFile))
            (fun _ => Ok (mkFetchResponse false 404 "Not Found" None (Ok "")))
            sampleEnv.

(** [mkdir] is refused. *)
Definition readOnlyEnv : Env :=
  withPreparation
    (fun _ => Throw (ErrorObj (mkErr "EACCES: permission denied, mkdir '/out'"
                                     (Some "EACCES"))))
    (marked sampleEnv) (readTheme sampleEnv) sampleEnv.

(** Chromium is not installed: every launch fails. *)
Definition noChromiumEnv : Env :=
  withBrowser
    (Throw (ErrorObj (newError "Executable doesn't exist at /ms-playwright/chromium/chrome")))
    (fun _ => true) sampleEnv.

Definition diskFull : Thrown :=
  ErrorObj (mkErr "ENOSPC: no space left on device, write" (Some "ENOSPC")).

Definition targetClosed : Thrown :=
  ErrorObj (newError "page.evaluate: Target page, context or browser has been closed").

(** [page.pdf] fails: the disk is full. *)
Definition pdfFailsEnv : Env := withPdf (fun _ => Throw diskFull) sampleEnv.

(** [page.evaluate] fails in [gatherStats]. *)
Definition statsFailEnv : Env := withEvaluate (fun _ => Throw targetClosed) sampleEnv.

(** Browser 7 has crashed; the next launches would give browser 8. *)
Definition crashedEnv : Env :=
  withBrowser (Ok 8%nat) (fun b => negb (Nat.eqb b 7)) sampleEnv.

Definition sampleInput (content file url : option string) : Convert.MarkdownToPdfInput :=
  Convert.mkInput content file url "/out/a.pdf" "github" None "A4" "portrait" None
                  false 3 "github" None None 1000 true None concise.

Definition sampleConfig : PdfGenerationConfig :=
  Convert.buildConfig (sampleInput (Some "# T") None None) "# T".

(** The request of the fourth example in the description of the tool, "with
    footer showing page numbers", with inline content. *)
Definition pageNumberInput : Convert.MarkdownToPdfInput :=
  Convert.mkInput (Some "# T") None None "/out/a.pdf" "github" None "A4" "portrait"
    None false 3 "github" None
    (Some (HtmlTemplate.mkHeaderFooter None None (Some "Page {page} of {total}")))
    1000 true None concise.

Fixpoint iterate {A} (n : nat) (f : A -> A) (a : A) : A :=
  match n with
  | O => a
  | S k => f (iterate k f a)
  end.

(** The world after [n] requests have each acquired a page and hold it. *)
Definition held (n : nat) : World :=
  iterate n (fun w => snd (PdfGenerator.acquirePage sampleEnv w)) initialWorld.

(** Effects of reading the input: a file read, a fetch, or the warning
    about the content type. *)
Definition isInputEffect (e : Effect) : Prop :=
  match e with
  | EReadFile _ | EFetch _ | EWarn _ => True
  | _ => False
  end.

(** Two worlds with the same manager variables. *)
Definition sameManager (w w' : World) : Prop :=
  browserInstance w' = browserInstance w
  /\ browserLaunchPromise w' = browserLaunchPromise w
  /\ activePages w' = activePages w
  /\ inFlight w' = inFlight w
  /\ nextTicket w' = nextTicket w.

(** ** Vocabulary of the statements *)

(** [m] only appends to the trace, and every effect it appends satisfies
    [P]. *)
Definition addsOnly {S A} (tr : S -> list Effect) (P : Effect -> Prop) (m : Prog S A)
  : Prop :=
  forall s r s', m s = (r, s') ->
    exists added, tr s' = (tr s ++ added)%list /\ Forall P added.

Definition frameTrace (f : PdfGenerator.Frame) : list Effect :=
  trace (PdfGenerator.world f).

(** Effects other than a call of [page.pdf]. *)
Definition notPdf (e : Effect) : Prop :=
  match e with EPdf _ _ => False | _ => True end.

(** The only call of [page.pdf] that [generatePdf] makes carries
    [pdfOptions env config]. *)
Definition pdfWith (o : PdfOptions) (e : Effect) : Prop :=
  match e with EPdf _ o' => o' = o | _ => True end.

(** Steps of callers of [getBrowser] only: no launch settles meanwhile. *)
Definition isCallOrResume (st : PdfGenerator.Step) : Prop :=
  match st with
  | PdfGenerator.Calls _ | PdfGenerator.Resumes _ => True
  | _ => False
  end.

(** Before the first call nothing has happened; from the first call on
    there is one launch, its promise is the stored one, and every caller
    that has called holds that promise. *)
Definition coldStartInv (w0 : World) (s : PdfGenerator.System) : Prop :=
  (PdfGenerator.sys_world s = w0 /\ Forall (fun c => c = PdfGenerator.NotCalled) (PdfGenerator.callers s))
  \/ (countLaunch (trace (PdfGenerator.sys_world s)) = S (countLaunch (trace w0))
      /\ browserLaunchPromise (PdfGenerator.sys_world s) = Some (nextTicket w0)
      /\ inFlight (PdfGenerator.sys_world s) = (inFlight w0 ++ [nextTicket w0])%list
      /\ Forall (fun c => c = PdfGenerator.NotCalled \/ c = PdfGenerator.Finished (PdfGenerator.ReturnsPromise (nextTicket w0)))
                (PdfGenerator.callers s)).

(** [m] leaves [activePages] as it is. *)
Definition keepsCount {A} (m : Prog World A) : Prop :=
  forall w r w', m w = (r, w') -> activePages w' = activePages w.

(** Calls made one after the other, each run to its end. *)
Inductive ApiCall :=
| CallConvert (env : Env) (input : Convert.MarkdownToPdfInput)
| CallGeneratePdf (env : Env) (config : PdfGenerationConfig)
| CallAcquirePage (env : Env)
| CallReleasePage (env : Env) (p : Page)
| CallCloseBrowser (env : Env)
| CallCleanup (env : Env).

Definition perform (c : ApiCall) (w : World) : World :=
  match c with
  | CallConvert env input => snd (Convert.convertMarkdownToPdf env input w)
  | CallGeneratePdf env config => snd (PdfGenerator.generatePdf env config w)
  | CallAcquirePage env => snd (PdfGenerator.acquirePage env w)
  | CallReleasePage env p => snd (PdfGenerator.releasePage env p w)
  | CallCloseBrowser env => snd (PdfGenerator.closeBrowser env w)
  | CallCleanup env => snd (PdfGenerator.cleanup env w)
  end.

Definition performAll (calls : list ApiCall) (w : World) : World :=
  fold_left (fun w c => perform c w) calls w.

(** [m] keeps the count of a state between zero and the quota. *)
Definition keepsBound {S A} (count : S -> Z) (m : Prog S A) : Prop :=
  forall s r s',
    0 <= count s <= MAX_CONCURRENT_PAGES ->
    m s = (r, s') ->
    0 <= count s' <= MAX_CONCURRENT_PAGES.

Definition frameCount (f : PdfGenerator.Frame) : Z :=
  activePages (PdfGenerator.world f).

(** The double quote. *)
Definition quote : string := String "034" EmptyString.




(** The file name is free of the characters [sanitizeFilename] removes and
    of the shapes it rewrites. *)
Fixpoint noDoubleUnderscore (afterUnderscore : bool) (s : string) : bool :=
  match s with
  | EmptyString => true
  | String c r =>
      if Ascii.eqb c "_"
      then (negb afterUnderscore && noDoubleUnderscore true r)%bool
      else noDoubleUnderscore false r
  end.

Definition startsWithUnderscore (s : string) : bool :=
  match s with
  | String c _ => Ascii.eqb c "_"
  | EmptyString => false
  end.

Fixpoint endsWithUnderscore (s : string) : bool :=
  match s with
  | EmptyString => false
  | String c EmptyString => Ascii.eqb c "_"
  | String _ r => endsWithUnderscore r
  end.

Definition isSanitized (s : string) : bool :=
  (Js.allChars (fun c => negb (FormatUtils.isUnsafe c)) s
   && Js.allChars (fun c => negb (Js.isSpace c)) s
   && noDoubleUnderscore false s
   && negb (startsWithUnderscore s)
   && negb (endsWithUnderscore s))%bool.

(** The suggestions of [getErrorSuggestion] that come before the test for
    markdown, for a message that has the word fetch in it. *)
Definition earlySuggestions : list string :=
  [ "File not found. Check if the path is correct and the file exists. Use an absolute path for reliability.";
    "Permission denied. Ensure you have write access to the output directory. Try a different output path.";
    "Request timed out. Try setting wait_for_network_idle: false or check your network connection.";
    "Network error while fetching remote content. Check the URL and your internet connection." ].

(** Effects of preparing the document: the output directory, the markdown
    engine, the theme files and warnings. *)
Definition isPreparationEffect (e : Effect) : Prop :=
  match e with
  | EMkdir _ | EMarked _ | EReadTheme _ | EFetchCodeTheme _ | EWarn _ => True
  | _ => False
  end.

(** The last suggestion of [getErrorSuggestion]. *)
Definition genericSuggestion : string :=
  "An unexpected error occurred. Check the error message for details and try again.".

(** The suggestions up to the one for the browser. *)
Definition specificSuggestions : list string :=
  (earlySuggestions
   ++ [ "Invalid markdown syntax. Review the markdown content for formatting errors.";
        "Browser error. Ensure Playwright Chromium is installed: pnpm exec playwright install chromium" ])%list.

(** ** The quota *)

Section Quota.

Import PdfGenerator.

(** C4.  When [activePages] has reached [MAX_CONCURRENT_PAGES], [acquirePage]
    throws the quota error in its first piece, before any await: nothing is
    launched, opened or recorded, and [activePages], [browserInstance] and
    the launch promise are what they were. *)
Theorem acquirePage_quota_exceeded (env : Env) (w : World) :
  MAX_CONCURRENT_PAGES <= activePages w ->
  acquirePage env w = (Throw (ErrorObj (newError quotaMessage)), w)
  /\ quotaMessage
     = "Maximum concurrent pages (10) reached. Too many PDF conversions in progress. Please try again later.".
Proof.
  intros Hfull. split; [| reflexivity].
  unfold acquirePage.
  destruct (MAX_CONCURRENT_PAGES <=? activePages w) eqn:E.
  - reflexivity.
  - apply Z.leb_gt in E. lia.
Qed.

(** The eleventh caller, while ten pages are held. *)
Lemma acquirePage_quota_exceeded_witness :
  activePages (held 10) = 10
  /\ acquirePage sampleEnv (held 10)
     = (Throw (ErrorObj (newError quotaMessage)), held 10).
Proof.
  split; [reflexivity |].
  apply (acquirePage_quota_exceeded sampleEnv (held 10)).
  vm_compute. discriminate.
Defined.

End Quota.

(** ** Input validation *)

Section Validation.

Import ErrorHandler Convert.

Lemma validateInputSource_valid_iff (c f u : option string) :
  valid (validateInputSource c f u) = true
  <-> List.length (providedSources c f u) = 1%nat.
Proof.
  unfold validateInputSource.
  destruct (List.length (providedSources c f u)) as [|[|n]]; simpl; split;
    intros H; try reflexivity; try discriminate.
Qed.

(** C5.  An input with none, or with two or more, of the three sources
    present (a source is present when [filter(Boolean)] keeps it) gets the
    validation error, with message and suggestion, and the world is left as
    it was: no launch, no page, no change of [activePages], no effect. *)
Theorem convert_rejects_wrong_source_count (env : Env) (input : MarkdownToPdfInput)
  (w : World) :
  let n := List.length (providedSources (markdown_content input)
                          (markdown_file_path input) (markdown_url input)) in
  (n = 0%nat ->
   convertMarkdownToPdf env input w
   = (ErrorResponse
        (Some "No input source provided")
        (Some "Provide one of: markdown_content, markdown_file_path, or markdown_url")
        None, w))
  /\ ((2 <= n)%nat ->
      convertMarkdownToPdf env input w
      = (ErrorResponse
           (Some "Multiple input sources provided")
           (Some "Provide only ONE of: markdown_content, markdown_file_path, or markdown_url")
           None, w)).
Proof.
  intros n. subst n.
  unfold convertMarkdownToPdf, convertTry, validateInputSource.
  destruct (List.length (providedSources (markdown_content input)
              (markdown_file_path input) (markdown_url input))) as [|[|k]];
    simpl; split; intros H; try reflexivity; try discriminate; try lia.
Qed.

Lemma convert_rejects_wrong_source_count_witness :
  convertMarkdownToPdf sampleEnv (sampleInput None None None) initialWorld
  = (ErrorResponse
       (Some "No input source provided")
       (Some "Provide one of: markdown_content, markdown_file_path, or markdown_url")
       None, initialWorld)
  /\ convertMarkdownToPdf sampleEnv
       (sampleInput (Some "# T") (Some "/a.md") None) initialWorld
     = (ErrorResponse
          (Some "Multiple input sources provided")
          (Some "Provide only ONE of: markdown_content, markdown_file_path, or markdown_url")
          None, initialWorld).
Proof.
  split.
  - apply (proj1 (convert_rejects_wrong_source_count sampleEnv
                    (sampleInput None None None) initialWorld)).
    reflexivity.
  - apply (proj2 (convert_rejects_wrong_source_count sampleEnv
                    (sampleInput (Some "# T") (Some "/a.md") None) initialWorld)).
    simpl. lia.
Defined.

End Validation.

(** ** Empty content *)

Section EmptyContent.

Import ErrorHandler Convert.

Lemma sameManager_refl (w : World) : sameManager w w.
Proof. repeat split. Qed.

Lemma resolveMarkdown_frame (env : Env) (input : MarkdownToPdfInput) (w w1 : World) r :
  resolveMarkdown env input w = (r, w1) ->
  sameManager w w1
  /\ exists added, trace w1 = (trace w ++ added)%list /\ Forall isInputEffect added.
Proof.
  unfold resolveMarkdown.
  destruct (Js.whenTruthy (markdown_content input)) as [c|].
  { intros H. inversion H; subst. split; [apply sameManager_refl|].
    exists []. rewrite app_nil_r. auto. }
  destruct (Js.whenTruthy (markdown_file_path input)) as [p|].
  { unfold tryCatch, bind, FileUtils.readMarkdownFile, tryCatch, external, throw, ret,
      createErrorResponseAs.
    destruct (readFile env p) as [s|t]; simpl.
    - intros H. inversion H; subst. split; [repeat split|].
      exists [EReadFile p]. split; [reflexivity|]. repeat constructor.
    - destruct (FileUtils.hasCode "ENOENT" t); simpl.
      + intros H. inversion H; subst. split; [repeat split|].
        exists [EReadFile p]. split; [reflexivity|]. repeat constructor.
      + destruct t; simpl; intros H; inversion H; subst;
          (split; [repeat split|]); exists [EReadFile p];
          (split; [reflexivity|]); repeat constructor. }
  destruct (Js.whenTruthy (markdown_url input)) as [u|].
  { unfold tryCatch, bind, FileUtils.fetchMarkdownUrl, tryCatch, bind, external, throw,
      ret, warn, modify, createErrorResponseAs.
    destruct (fetch env u) as [resp|t]; simpl.
    - destruct (resp_ok resp); simpl.
      + destruct (negb (Js.includes "text" (Js.orElse (resp_contentType resp) ""))
                  && negb (Js.includes "markdown" (Js.orElse (resp_contentType resp) "")))%bool;
          simpl; destruct (resp_text resp) as [s|[e|]]; simpl;
          intros H; inversion H; subst; (split; [repeat split|]);
          simpl; eexists; (split; [try rewrite <- app_assoc; reflexivity|]);
          repeat constructor.
      + intros H; inversion H; subst. split; [repeat split|].
        exists [EFetch u]. split; [reflexivity|]. repeat constructor.
    - destruct t; simpl; intros H; inversion H; subst; (split; [repeat split|]);
        exists [EFetch u]; (split; [reflexivity|]); repeat constructor. }
  intros H. inversion H; subst. split; [apply sameManager_refl|].
  exists []. rewrite app_nil_r. auto.
Qed.

(** C10.  When the input passes the source validation and its content
    resolves to the empty string or to white space only, the result is the
    error "Markdown content is empty" with its suggestion; the manager's
    variables are untouched and the only effects are those of reading the
    input (no directory, no launch, no page, no PDF).  And an empty
    [markdown_content] counts as absent in the validation. *)
Theorem convert_rejects_empty_markdown (env : Env) (input : MarkdownToPdfInput)
  (w w1 : World) (content : string) :
  valid (validateInputSource (markdown_content input) (markdown_file_path input)
           (markdown_url input)) = true ->
  resolveMarkdown env input w = (Ok (inr content), w1) ->
  Js.trim content = "" ->
  convertMarkdownToPdf env input w
  = (ErrorResponse (Some "Markdown content is empty")
                   (Some "Provide non-empty markdown content to convert") None, w1)
  /\ sameManager w w1
  /\ (exists added, trace w1 = (trace w ++ added)%list /\ Forall isInputEffect added)
  /\ (forall file url,
        validateInputSource (Some "") file url = validateInputSource None file url).
Proof.
  intros Hvalid Hres Hempty.
  split; [| split; [| split]].
  - unfold convertMarkdownToPdf, convertTry. rewrite Hvalid. simpl.
    unfold bind. rewrite Hres. rewrite Hempty. reflexivity.
  - apply (resolveMarkdown_frame env input w w1 _ Hres).
  - apply (resolveMarkdown_frame env input w w1 _ Hres).
  - reflexivity.
Qed.

Lemma convert_rejects_empty_markdown_witness :
  convertMarkdownToPdf sampleEnv (sampleInput None (Some "/blank.md") None) initialWorld
  = (ErrorResponse (Some "Markdown content is empty")
                   (Some "Provide non-empty markdown content to convert") None,
     record (EReadFile "/blank.md") initialWorld).
Proof.
  apply (convert_rejects_empty_markdown sampleEnv
           (sampleInput None (Some "/blank.md") None) initialWorld
           (record (EReadFile "/blank.md") initialWorld) "   ");
    reflexivity.
Defined.

End EmptyContent.

(** ** Releasing a page *)

Section Release.

Import PdfGenerator.

Lemma releasePage_returns (env : Env) (p : Page) (w : World) :
  fst (releasePage env p w) = Ok tt.
Proof. reflexivity. Qed.

Lemma releasePageFinish_activePages (closed : Outcome unit) (w : World) :
  activePages (releasePageFinish closed w) = Z.max 0 (activePages w - 1).
Proof. destruct closed; reflexivity. Qed.

Lemma releasePage_activePages (env : Env) (p : Page) (w : World) :
  activePages (snd (releasePage env p w)) = Z.max 0 (activePages w - 1).
Proof.
  unfold releasePage, releasePageClose, external.
  cbv beta iota zeta. unfold snd.
  rewrite releasePageFinish_activePages. reflexivity.
Qed.

Lemma releasePage_sameBrowser (env : Env) (p : Page) (w : World) :
  browserInstance (snd (releasePage env p w)) = browserInstance w
  /\ browserLaunchPromise (snd (releasePage env p w)) = browserLaunchPromise w.
Proof.
  unfold releasePage, releasePageClose, external, releasePageFinish. simpl.
  destruct (closePage env p (countClosePage p (trace w))); split; reflexivity.
Qed.

(** Every piece of every task keeps [activePages] at zero or above. *)
Lemma step_activePages_nonneg (env : Env) (st : Step) (s : System) :
  0 <= activePages (sys_world s) -> 0 <= activePages (sys_world (step env st s)).
Proof.
  intros H. destruct st as [i|i|t r| |closed| |]; simpl.
  - destruct (callerAt s i); try assumption.
    unfold getBrowserEnter.
    destruct (browserLaunchPromise (sys_world s)); [assumption|].
    destruct (browserInstance (sys_world s)); simpl; assumption.
  - destruct (callerAt s i) as [|b healthy|r]; try assumption.
    unfold getBrowserResume. destruct healthy; simpl; assumption.
  - destruct (ticketInFlight t (sys_world s)); [|assumption].
    destruct r; simpl; assumption.
  - lia.
  - destruct closed; simpl; lia.
  - lia.
  - destruct (browserInstance (sys_world s)); simpl; lia.
Qed.

Lemma run_activePages_nonneg (env : Env) (steps : list Step) :
  forall s, 0 <= activePages (sys_world s) ->
            0 <= activePages (sys_world (run env steps s)).
Proof.
  induction steps as [|st steps IH]; intros s H; simpl.
  - assumption.
  - apply IH. apply step_activePages_nonneg. assumption.
Qed.

(** Two pages are held; page 0 is released twice.  The second release takes
    the count from 1 to 0 although page 1 is still held. *)
Lemma releasePage_second_release_decrements :
  activePages (held 2) = 2
  /\ activePages (snd (releasePage sampleEnv 0%nat (held 2))) = 1
  /\ activePages (snd (releasePage sampleEnv 0%nat
                         (snd (releasePage sampleEnv 0%nat (held 2))))) = 0.
Proof. repeat split. Qed.

(** C3, as the code has it.  A release never throws, also the second one of
    the same page, and it always takes one off [activePages], stopping at
    zero: after two releases the count is [max 0 (max 0 (n - 1) - 1)], so the
    second release leaves the count alone exactly when the count was already
    zero.  Whatever pieces of other tasks run before, between and after the
    two releases, [activePages] is never negative. *)
Theorem releasePage_twice_safe (env : Env) (p : Page) (w : World) :
  let once := releasePage env p w in
  let twice := releasePage env p (snd once) in
  fst once = Ok tt
  /\ fst twice = Ok tt
  /\ activePages (snd twice) = Z.max 0 (Z.max 0 (activePages w - 1) - 1)
  /\ 0 <= activePages (snd twice)
  /\ (activePages (snd twice) = activePages (snd once) <-> activePages (snd once) = 0)
  /\ (forall before between after closed1 closed2 k,
        0 <= activePages
               (sys_world
                  (run env (before ++ [ReleaseFinishes closed1] ++ between
                              ++ [ReleaseFinishes closed2] ++ after)%list
                       (startSystem initialWorld k)))).
Proof.
  cbv zeta.
  repeat rewrite releasePage_activePages.
  repeat rewrite releasePage_returns.
  repeat split; try lia.
  intros before between after closed1 closed2 k.
  apply run_activePages_nonneg. simpl. lia.
Qed.

End Release.

(** ** Reasoning about programs *)

Section Programs.

Lemma bind_ok_inv {S A B} (m : Prog S A) (k : A -> Prog S B) (s s' : S) (b : B) :
  bind m k s = (Ok b, s') ->
  exists a s1, m s = (Ok a, s1) /\ k a s1 = (Ok b, s').
Proof.
  unfold bind. destruct (m s) as [[a|t] s1]; intros H.
  - exists a, s1. split; [reflexivity | assumption].
  - discriminate.
Qed.

Lemma inWorld_inv {A} (m : Prog World A) (f f' : PdfGenerator.Frame) (r : Outcome A) :
  PdfGenerator.inWorld m f = (r, f') ->
  exists w', m (PdfGenerator.world f) = (r, w')
             /\ f' = PdfGenerator.mkFrame w' (PdfGenerator.page f).
Proof.
  unfold PdfGenerator.inWorld.
  destruct (m (PdfGenerator.world f)) as [r0 w0]. intros H.
  inversion H; subst. exists w0. split; reflexivity.
Qed.

End Programs.

Ltac bind_inv H :=
  let a := fresh "a" in
  let s := fresh "f" in
  let E := fresh "E" in
  apply bind_ok_inv in H; destruct H as (a & s & E & H).

(** ** The result of [generatePdf] *)

Section Result.

Import PdfGenerator Convert ErrorHandler.

Lemma generatePdfCatch_throws (env : Env) (error : Thrown) (f : Frame) :
  exists f', generatePdfCatch env error f = (Throw error, f').
Proof.
  unfold generatePdfCatch, bind, getPage, throw.
  destruct (page f) as [p|]; simpl.
  - unfold inWorld, releasePage.
    destruct (releasePageClose env p (world f)) as [c w1]. eexists. reflexivity.
  - eexists. reflexivity.
Qed.

Lemma generatePdfFinally_returns (env : Env) (f : Frame) :
  exists f', generatePdfFinally env f = (Ok tt, f').
Proof.
  unfold generatePdfFinally, bind, getPage, swallow, tryCatch, ret.
  destruct (page f) as [p|]; simpl.
  - unfold inWorld, releasePage.
    destruct (releasePageClose env p (world f)) as [c w1]. eexists. reflexivity.
  - eexists. reflexivity.
Qed.

(** [generatePdf] completes as its [try] block does: the [catch] block
    rethrows the error it caught and the [finally] block never throws. *)
Lemma generatePdf_outcome (env : Env) (config : PdfGenerationConfig) (w : World) :
  fst (generatePdf env config w)
  = fst (generatePdfTry env config (mkFrame w None)).
Proof.
  unfold generatePdf, tryFinally, tryCatch.
  destruct (generatePdfTry env config (mkFrame w None)) as [[r|t] f1].
  - destruct (generatePdfFinally_returns env f1) as [f2 E]. rewrite E. reflexivity.
  - destruct (generatePdfCatch_throws env t f1) as [f2 E]. rewrite E.
    destruct (generatePdfFinally_returns env f2) as [f3 E']. rewrite E'. reflexivity.
Qed.

Lemma gatherStats_ok (env : Env) (p : Page) (d : bool) (w w' : World) (st : PdfStats) :
  gatherStats env p d w = (Ok st, w') ->
  st_pages st = 0 /\ exists dom, evaluate env p = Ok dom.
Proof.
  unfold gatherStats, bind, external, ret.
  destruct (evaluate env p) as [dom|t]; intros H; inversion H; subst.
  split; [reflexivity | eexists; reflexivity].
Qed.

Lemma finishPdf_ok (env : Env) (config : PdfGenerationConfig) (p : Page) (len : Z)
  (f f' : Frame) (r : Response) :
  finishPdf env config p len f = (Ok r, f') ->
  (exists md, r = SuccessResponse (outputPath config) (FormatUtils.formatFileSize len) 0
                    (endTime env - startTime env) md)
  /\ exists dom, evaluate env p = Ok dom.
Proof.
  unfold finishPdf. intros H.
  bind_inv H. apply inWorld_inv in E. destruct E as (w1 & E & _).
  apply gatherStats_ok in E. destruct E as [Hpages Hdom].
  bind_inv H. bind_inv H. unfold ret in H. inversion H; subst.
  rewrite Hpages. split; [eexists; reflexivity | assumption].
Qed.

Lemma ceilDiv_spec (a b : Z) :
  0 < b -> b * (ceilDiv a b - 1) < a <= b * ceilDiv a b.
Proof.
  intros Hb. unfold ceilDiv.
  pose proof (Z.div_mod (- a) b ltac:(lia)) as Hdm.
  pose proof (Z.mod_pos_bound (- a) b Hb) as Hmod.
  nia.
Qed.

(** A conversion with a PDF of 150 KB succeeds and reports 0 pages, where
    the estimate from the size would be 2. *)
Lemma successful_result_reports_zero_pages :
  fst (convertMarkdownToPdf sampleEnv (sampleInput (Some "# T") None None) initialWorld)
  = SuccessResponse "/out/a.pdf" "150.0 KB" 0 250 None
  /\ estimatePageCount sampleEnv "/out/a.pdf" = 2.
Proof. vm_compute. split; reflexivity. Qed.

(** C7, as the code has it.  Every successful result of [generatePdf]
    reports 0 pages: [gatherStats] sets [pages: 0] and nothing replaces it.
    The estimate from the file size is what [estimatePageCount] returns,
    which no caller uses: the least number of 75 KB pages that hold the
    file, and at least 1. *)
Theorem reported_pages_is_zero (env : Env) (config : PdfGenerationConfig)
  (w w' : World) (r : Response) :
  generatePdf env config w = (Ok r, w') ->
  (exists size md,
     r = SuccessResponse (outputPath config) size 0 (endTime env - startTime env) md)
  /\ (forall pdfPath,
        let n := estimatePageCount env pdfPath in
        let size := FileUtils.getFileSize env pdfPath in
        n = Z.max 1 (ceilDiv size (75 * 1024))
        /\ 1 <= n
        /\ size <= 76800 * n
        /\ (1 < n -> 76800 * (n - 1) < size)).
Proof.
  intros H. split.
  - pose proof (generatePdf_outcome env config w) as Hout.
    rewrite H in Hout. simpl in Hout.
    destruct (generatePdfTry env config (mkFrame w None)) as [r0 f1] eqn:Htry.
    simpl in Hout. subst r0.
    unfold generatePdfTry in Htry. bind_inv Htry.
    apply finishPdf_ok in Htry. destruct Htry as [[md Hr] _].
    eexists. exists md. exact Hr.
  - intros pdfPath. cbv zeta. unfold estimatePageCount.
    pose proof (ceilDiv_spec (FileUtils.getFileSize env pdfPath) (75 * 1024) ltac:(lia)).
    repeat split; lia.
Qed.

Lemma reported_pages_is_zero_witness :
  exists size md,
    SuccessResponse "/out/a.pdf" "150.0 KB" 0 250 None
    = SuccessResponse (outputPath sampleConfig) size 0
        (endTime sampleEnv - startTime sampleEnv) md.
Proof.
  apply (reported_pages_is_zero sampleEnv sampleConfig initialWorld
           (snd (generatePdf sampleEnv sampleConfig initialWorld))
           (SuccessResponse "/out/a.pdf" "150.0 KB" 0 250 None)).
  vm_compute. reflexivity.
Defined.

(** The PDF is produced, the statistics fail, and the request ends in an
    error response. *)
Lemma stats_failure_fails_request :
  fst (producePdf statsFailEnv sampleConfig (mkFrame initialWorld None))
  = Ok (0%nat, 153600)
  /\ fst (convertMarkdownToPdf statsFailEnv (sampleInput (Some "# T") None None)
            initialWorld)
     = ErrorResponse
         (Some "page.evaluate: Target page, context or browser has been closed")
         (Some "Browser error. Ensure Playwright Chromium is installed: pnpm exec playwright install chromium")
         None.
Proof. vm_compute. split; reflexivity. Qed.

(** C6, as the code has it.  When the PDF has been produced and
    [page.evaluate] of [gatherStats] then throws, [generatePdf] throws that
    same error, and [convertMarkdownToPdf] answers with the error response
    made from it: a failure of the statistics fails the request. *)
Theorem stats_failure_is_fatal (env : Env) (input : MarkdownToPdfInput)
  (w w1 : World) (content : string) (p : Page) (len : Z) (f1 : Frame) (t : Thrown) :
  valid (validateInputSource (markdown_content input) (markdown_file_path input)
           (markdown_url input)) = true ->
  resolveMarkdown env input w = (Ok (inr content), w1) ->
  Js.truthy (Js.trim content) = true ->
  producePdf env (buildConfig input content) (mkFrame w1 None) = (Ok (p, len), f1) ->
  evaluate env p = Throw t ->
  fst (generatePdf env (buildConfig input content) w1) = Throw t
  /\ isSuccess (fst (convertMarkdownToPdf env input w)) = false
  /\ fst (convertMarkdownToPdf env input w)
     = match t with
       | ErrorObj e => createErrorResponse e (debug env)
       | NonError => unexpectedResponse
       end.
Proof.
  intros Hvalid Hres Hcontent Hprod Heval.
  assert (Hgen : fst (generatePdf env (buildConfig input content) w1) = Throw t).
  { rewrite generatePdf_outcome.
    unfold generatePdfTry, bind. rewrite Hprod. simpl.
    unfold finishPdf, bind, inWorld, gatherStats, bind, external.
    rewrite Heval. reflexivity. }
  assert (Hconv : fst (convertMarkdownToPdf env input w)
                  = match t with
                    | ErrorObj e => createErrorResponse e (debug env)
                    | NonError => unexpectedResponse
                    end).
  { unfold convertMarkdownToPdf, convertTry. rewrite Hvalid. simpl.
    unfold bind. rewrite Hres. rewrite Hcontent. simpl.
    destruct (generatePdf env (buildConfig input content) w1) as [r w2].
    simpl in Hgen. subst r. destruct t; reflexivity. }
  split; [exact Hgen | split; [| exact Hconv]].
  rewrite Hconv. destruct t; reflexivity.
Qed.

Lemma stats_failure_is_fatal_witness :
  fst (generatePdf statsFailEnv
         (buildConfig (sampleInput (Some "# T") None None) "# T") initialWorld)
  = Throw targetClosed
  /\ isSuccess (fst (convertMarkdownToPdf statsFailEnv
                       (sampleInput (Some "# T") None None) initialWorld)) = false.
Proof.
  pose proof (stats_failure_is_fatal statsFailEnv (sampleInput (Some "# T") None None)
                initialWorld initialWorld "# T" 0%nat 153600
                (snd (producePdf statsFailEnv
                        (buildConfig (sampleInput (Some "# T") None None) "# T")
                        (mkFrame initialWorld None)))
                targetClosed
                eq_refl eq_refl eq_refl eq_refl eq_refl) as H.
  split; [exact (proj1 H) | exact (proj1 (proj2 H))].
Defined.

End Result.

(** ** What a program adds to the trace *)

Section Adds.

Context {S : Type} (tr : S -> list Effect).

Lemma addsOnly_ret {A} P (a : A) : addsOnly tr P (ret a).
Proof.
  intros s r s' H. inversion H; subst. exists []. rewrite app_nil_r. auto.
Qed.

Lemma addsOnly_throw {A} P (t : Thrown) : addsOnly tr P (@throw S A t).
Proof.
  intros s r s' H. inversion H; subst. exists []. rewrite app_nil_r. auto.
Qed.

Lemma addsOnly_chain P (s s1 s2 : S) :
  (exists added, tr s1 = (tr s ++ added)%list /\ Forall P added) ->
  (exists added, tr s2 = (tr s1 ++ added)%list /\ Forall P added) ->
  exists added, tr s2 = (tr s ++ added)%list /\ Forall P added.
Proof.
  intros (a1 & E1 & F1) (a2 & E2 & F2).
  exists (a1 ++ a2)%list. split.
  - rewrite E2, E1, app_assoc. reflexivity.
  - apply Forall_app. split; assumption.
Qed.

Lemma addsOnly_bind {A B} P (m : Prog S A) (k : A -> Prog S B) :
  addsOnly tr P m -> (forall a, addsOnly tr P (k a)) -> addsOnly tr P (bind m k).
Proof.
  intros Hm Hk s r s' H. unfold bind in H.
  destruct (m s) as [[a|t] s1] eqn:E.
  - eapply addsOnly_chain; [eapply Hm; exact E | eapply Hk; exact H].
  - inversion H; subst. eapply Hm. exact E.
Qed.

Lemma addsOnly_tryCatch {A} P (m : Prog S A) (h : Thrown -> Prog S A) :
  addsOnly tr P m -> (forall t, addsOnly tr P (h t)) -> addsOnly tr P (tryCatch m h).
Proof.
  intros Hm Hh s r s' H. unfold tryCatch in H.
  destruct (m s) as [[a|t] s1] eqn:E.
  - inversion H; subst. eapply Hm. exact E.
  - eapply addsOnly_chain; [eapply Hm; exact E | eapply Hh; exact H].
Qed.

Lemma addsOnly_tryFinally {A} P (m : Prog S A) (fin : Prog S unit) :
  addsOnly tr P m -> addsOnly tr P fin -> addsOnly tr P (tryFinally m fin).
Proof.
  intros Hm Hf s r s' H. unfold tryFinally in H.
  destruct (m s) as [r1 s1] eqn:E.
  destruct (fin s1) as [[u|t] s2] eqn:E2; inversion H; subst;
    (eapply addsOnly_chain; [eapply Hm; exact E | eapply Hf; exact E2]).
Qed.

Lemma addsOnly_weaken {A} (P Q : Effect -> Prop) (m : Prog S A) :
  (forall e, P e -> Q e) -> addsOnly tr P m -> addsOnly tr Q m.
Proof.
  intros HPQ Hm s r s' H. destruct (Hm s r s' H) as (added & E & F).
  exists added. split; [assumption|].
  eapply Forall_impl; [exact HPQ | exact F].
Qed.

End Adds.

Section AddsWorld.

Import PdfGenerator.

Lemma addsOnly_external {A} (P : Effect -> Prop) (e : Effect) (r : Outcome A) :
  P e -> addsOnly trace P (external e r).
Proof.
  intros He w r' w' H. unfold external in H. inversion H; subst.
  exists [e]. split; [reflexivity | repeat constructor; assumption].
Qed.

Lemma addsOnly_warn (P : Effect -> Prop) (msg : string) :
  P (EWarn msg) -> addsOnly trace P (warn msg).
Proof.
  intros He w r' w' H. unfold warn, modify in H. inversion H; subst.
  exists [EWarn msg]. split; [reflexivity | repeat constructor; assumption].
Qed.

Lemma addsOnly_inWorld {A} (P : Effect -> Prop) (m : Prog World A) :
  addsOnly trace P m -> addsOnly frameTrace P (inWorld m).
Proof.
  intros Hm f r f' H. apply inWorld_inv in H. destruct H as (w' & E & ->).
  unfold frameTrace. simpl. eapply Hm. exact E.
Qed.

Lemma addsOnly_setPage (P : Effect -> Prop) (p : option Page) :
  addsOnly frameTrace P (setPage p).
Proof.
  intros f r f' H. unfold setPage in H. inversion H; subst.
  exists []. unfold frameTrace. simpl. rewrite app_nil_r. auto.
Qed.

Lemma addsOnly_getPage (P : Effect -> Prop) : addsOnly frameTrace P getPage.
Proof.
  intros f r f' H. unfold getPage in H. inversion H; subst.
  exists []. rewrite app_nil_r. auto.
Qed.

Lemma added_nil (P : Effect -> Prop) (l : list Effect) :
  exists added, l = (l ++ added)%list /\ Forall P added.
Proof. exists []. rewrite app_nil_r. auto. Qed.

Lemma added_snoc (P : Effect -> Prop) (l0 l : list Effect) (e : Effect) :
  (exists added, l = (l0 ++ added)%list /\ Forall P added) ->
  P e ->
  exists added, (l ++ [e])%list = (l0 ++ added)%list /\ Forall P added.
Proof.
  intros (added & E & F) He. exists (added ++ [e])%list. split.
  - rewrite E, app_assoc. reflexivity.
  - apply Forall_app. split; [assumption | repeat constructor; assumption].
Qed.

Ltac concrete_trace :=
  simpl; repeat (apply added_snoc; [| exact I]); apply added_nil.

Lemma addsOnly_getBrowser (env : Env) : addsOnly trace notPdf (getBrowser env).
Proof.
  intros w r w' H.
  unfold getBrowser, getBrowserEnter, getBrowserResume, startLaunch, settleLaunch in H.
  destruct (browserLaunchPromise w) as [t|].
  - destruct (launch env); inversion H; subst; concrete_trace.
  - destruct (browserInstance w) as [b|].
    + destruct (isBrowserHealthy env b).
      * inversion H; subst. exists []. rewrite app_nil_r. auto.
      * simpl in H. destruct (launch env); inversion H; subst; concrete_trace.
    + simpl in H. destruct (launch env); inversion H; subst; concrete_trace.
Qed.

Lemma addsOnly_acquirePage (env : Env) : addsOnly trace notPdf (acquirePage env).
Proof.
  intros w r w' H. unfold acquirePage in H.
  destruct (MAX_CONCURRENT_PAGES <=? activePages w).
  - revert H. apply addsOnly_throw.
  - revert H. apply addsOnly_bind; [apply addsOnly_getBrowser|].
    intros b. apply addsOnly_bind.
    + intros w0 r0 w0' H0. revert H0. apply addsOnly_external. exact I.
    + intros p. apply addsOnly_bind; [| intros; apply addsOnly_ret].
      intros w0 r0 w0' H0. unfold modify in H0. inversion H0; subst.
      exists []. simpl. rewrite app_nil_r. auto.
Qed.

Lemma addsOnly_releasePage (env : Env) (p : Page) :
  addsOnly trace notPdf (releasePage env p).
Proof.
  intros w r w' H.
  unfold releasePage, releasePageClose, external, releasePageFinish in H.
  destruct (closePage env p (countClosePage p (trace w)));
    inversion H; subst; concrete_trace.
Qed.

Lemma addsOnly_ensureOutputDirectory (env : Env) (path : string) :
  addsOnly trace notPdf (FileUtils.ensureOutputDirectory env path).
Proof.
  unfold FileUtils.ensureOutputDirectory.
  apply addsOnly_tryCatch; [apply addsOnly_external; exact I|].
  intros [e|]; [| apply addsOnly_ret].
  destruct (errCode e) as [c|]; [| apply addsOnly_ret].
  destruct (negb (c =? "EEXIST")%string); [apply addsOnly_throw | apply addsOnly_ret].
Qed.

Lemma addsOnly_loadTheme (env : Env) (name : string) :
  addsOnly trace notPdf (ThemeLoader.loadTheme env name).
Proof.
  unfold ThemeLoader.loadTheme.
  apply addsOnly_tryCatch; [apply addsOnly_external; exact I|].
  intros t. apply addsOnly_throw.
Qed.

Lemma addsOnly_loadCodeTheme (env : Env) (name : string) :
  addsOnly trace notPdf (ThemeLoader.loadCodeTheme env name).
Proof.
  unfold ThemeLoader.loadCodeTheme.
  apply addsOnly_tryCatch; [apply addsOnly_external; exact I|].
  intros t. apply addsOnly_bind; [apply addsOnly_warn; exact I|].
  intros. apply addsOnly_ret.
Qed.

Lemma addsOnly_gatherStats (env : Env) (p : Page) (d : bool) :
  addsOnly trace notPdf (gatherStats env p d).
Proof.
  unfold gatherStats.
  apply addsOnly_bind; [apply addsOnly_external; exact I|].
  intros. apply addsOnly_ret.
Qed.

Lemma notPdf_pdfWith (o : PdfOptions) (e : Effect) : notPdf e -> pdfWith o e.
Proof. destruct e; simpl; intros H; try exact I. contradiction. Qed.

Lemma addsOnly_generatePdf (env : Env) (config : PdfGenerationConfig) :
  addsOnly trace (pdfWith (pdfOptions env config)) (generatePdf env config).
Proof.
  intros w r w' H. unfold generatePdf in H.
  destruct (tryFinally (tryCatch (generatePdfTry env config) (generatePdfCatch env))
              (generatePdfFinally env) (mkFrame w None)) as [r0 f] eqn:E.
  inversion H; subst.
  change (trace (world f)) with (frameTrace f).
  change (trace w) with (frameTrace (mkFrame w None)).
  revert E.
  assert (Hw : forall A (m : Prog World A),
             addsOnly trace notPdf m ->
             addsOnly frameTrace (pdfWith (pdfOptions env config)) (inWorld m)).
  { intros A m Hm. apply addsOnly_inWorld.
    eapply addsOnly_weaken; [apply notPdf_pdfWith | exact Hm]. }
  apply addsOnly_tryFinally; [apply addsOnly_tryCatch|].
  - unfold generatePdfTry. apply addsOnly_bind.
    + unfold producePdf.
      repeat (first
        [ apply addsOnly_ensureOutputDirectory
        | apply addsOnly_loadTheme
        | apply addsOnly_loadCodeTheme
        | apply addsOnly_acquirePage
        | apply addsOnly_warn; exact I
        | apply addsOnly_external; exact I
        | apply addsOnly_inWorld; apply addsOnly_external; reflexivity
        | apply Hw
        | apply addsOnly_setPage
        | apply addsOnly_ret
        | apply addsOnly_tryCatch
        | apply addsOnly_bind
        | intro ]).
    + intros [p len]. unfold finishPdf.
      repeat (first
        [ apply addsOnly_gatherStats
        | apply addsOnly_releasePage
        | apply Hw
        | apply addsOnly_setPage
        | apply addsOnly_ret
        | apply addsOnly_bind
        | intro ]).
  - intros t. unfold generatePdfCatch.
    apply addsOnly_bind; [apply addsOnly_getPage|].
    intros [p|]; (apply addsOnly_bind; [| intros; apply addsOnly_throw]).
    + apply Hw. apply addsOnly_releasePage.
    + apply addsOnly_ret.
  - unfold generatePdfFinally.
    apply addsOnly_bind; [apply addsOnly_getPage|].
    intros [p|]; [| apply addsOnly_ret].
    unfold swallow. apply addsOnly_tryCatch; [| intros; apply addsOnly_ret].
    apply Hw. apply addsOnly_releasePage.
Qed.

End AddsWorld.

(** ** Header and footer templates *)

Section Templates.

Import FormatUtils HtmlTemplate PdfGenerator.

Lemma orElse_same (s : string) : Js.orElse (Some s) s = s.
Proof. destruct s; reflexivity. Qed.

(** C9.  ["{page} of {total}"] with page 2 and total 5 gives ["2 of 5"]; an
    unset date is the current date and an unset title is ["Document"].  In
    the pipeline every call of [page.pdf] gets, as header and footer
    template, the table whose three cells are the left, centre and right
    strings after [replaceTemplateVariables]; but [formatHeaderFooter]
    passes no variables, so there every template is treated as if the
    page and the total were the empty string.  For the request with the footer
    ["Page {page} of {total}"] the renderer is handed a footer whose right
    cell reads ["Page  of "]: no page number is substituted. *)
Theorem pipeline_footer_loses_page_numbers (currentDate : string) :
  let table := fun style left center right : string =>
    "
    <div style=" ++ quote ++ style ++ quote ++ ">
      <table style=" ++ quote ++ "width: 100%; border: none;" ++ quote ++ ">
        <tr>
          <td style=" ++ quote ++ "text-align: left; width: 33%;" ++ quote ++ ">" ++ left ++ "</td>
          <td style=" ++ quote ++ "text-align: center; width: 34%;" ++ quote ++ ">" ++ center ++ "</td>
          <td style=" ++ quote ++ "text-align: right; width: 33%;" ++ quote ++ ">" ++ right ++ "</td>
        </tr>
      </table>
    </div>
  " in
  let cell := fun today (side : option string) =>
    replaceTemplateVariables today (Js.orElse side "") noVariables in
  let handed := fun today (h : HeaderFooter) =>
    table "font-size: 10px; padding: 5px 20px; width: 100%;"
          (cell today (left h)) (cell today (center h)) (cell today (right h)) in
  replaceTemplateVariables currentDate "{page} of {total}"
    (mkVars (Some (Num 2)) (Some (Num 5)) None None) = "2 of 5"
  /\ (forall template page total title,
        replaceTemplateVariables currentDate template (mkVars page total None title)
        = replaceTemplateVariables currentDate template (mkVars page total (Some currentDate) title))
  /\ (forall template page total date,
        replaceTemplateVariables currentDate template (mkVars page total date None)
        = replaceTemplateVariables currentDate template
            (mkVars page total date (Some "Document")))
  /\ replaceTemplateVariables "11/1/2026" "{date}" noVariables = "11/1/2026"
  /\ replaceTemplateVariables currentDate "{title}" noVariables = "Document"
  /\ replaceTemplateVariables currentDate "Page {page} of {total}" noVariables = "Page  of "
  /\ (forall template,
        replaceTemplateVariables currentDate template noVariables
        = replaceTemplateVariables currentDate template
            (mkVars (Some (Str "")) (Some (Str "")) (Some currentDate) (Some "Document")))
  /\ (forall config style,
        formatHeaderFooter currentDate config style
        = table style (cell currentDate (left config)) (cell currentDate (center config))
                (cell currentDate (right config)))
  /\ (forall env config w,
        exists added,
          trace (snd (generatePdf env config w)) = (trace w ++ added)%list
          /\ forall p options, In (EPdf p options) added ->
               pdf_headerTemplate options = option_map (handed (today env)) (header config)
               /\ pdf_footerTemplate options = option_map (handed (today env)) (footer config))
  /\ (exists size duration options,
        fst (Convert.convertMarkdownToPdf sampleEnv pageNumberInput initialWorld)
        = SuccessResponse "/out/a.pdf" size 0 duration None
        /\ In (EPdf 0%nat options)
              (trace (snd (Convert.convertMarkdownToPdf sampleEnv pageNumberInput initialWorld)))
        /\ pdf_headerTemplate options = None
        /\ pdf_footerTemplate options
           = Some (table "font-size: 10px; padding: 5px 20px; width: 100%;"
                         "" "" "Page  of ")).
Proof.
  cbv zeta.
  split; [reflexivity|].
  split.
  { intros. unfold replaceTemplateVariables. cbn [date page total title].
    rewrite orElse_same. reflexivity. }
  split; [reflexivity|].
  split; [reflexivity|].
  split; [reflexivity|].
  split; [reflexivity|].
  split.
  { intros. unfold replaceTemplateVariables, noVariables.
    cbn [FormatUtils.date FormatUtils.page FormatUtils.total FormatUtils.title
         stringOrEmpty].
    rewrite !orElse_same. reflexivity. }
  split; [reflexivity|].
  split.
  { intros env config w.
    destruct (generatePdf env config w) as [r w'] eqn:E.
    destruct (addsOnly_generatePdf env config w r w' E) as (added & Ht & Hall).
    exists added. split; [exact Ht|].
    intros p options Hin.
    rewrite Forall_forall in Hall. specialize (Hall _ Hin). simpl in Hall. subst options.
    unfold pdfOptions. cbn [pdf_headerTemplate pdf_footerTemplate].
    destruct (header config), (footer config); split; reflexivity. }
  exists "150.0 KB", 250, (pdfOptions sampleEnv (Convert.buildConfig pageNumberInput "# T")).
  split; [vm_compute; reflexivity|].
  split; [vm_compute; tauto|].
  split; vm_compute; reflexivity.
Qed.

End Templates.

(** ** Table of contents *)

Section Toc.

Import HtmlTemplate.

Lemma string_app_assoc (a b c : string) : (a ++ b) ++ c = a ++ (b ++ c).
Proof. induction a as [|x a IH]; simpl; [reflexivity | rewrite IH; reflexivity]. Qed.















End Toc.

(** ** Launching once *)

Section SingleFlight.

Import PdfGenerator.

Lemma countLaunch_launch (tr : list Effect) (t : Ticket) :
  countLaunch (tr ++ [ELaunch t]) = S (countLaunch tr).
Proof.
  unfold countLaunch. rewrite filter_app, length_app. simpl. lia.
Qed.

Lemma Forall_updateAt {A} (P : A -> Prop) (l : list A) :
  forall i x, Forall P l -> P x -> Forall P (updateAt i x l).
Proof.
  induction l as [|y r IH]; intros i x Hl Hx; [destruct i; constructor|].
  inversion Hl; subst. destruct i; simpl; constructor; auto.
Qed.

Lemma callerAt_Forall (P : Caller -> Prop) (s : System) (i : nat) :
  Forall P (callers s) -> P NotCalled -> P (callerAt s i).
Proof.
  intros Hall Hd. unfold callerAt.
  destruct (nth_in_or_default i (callers s) NotCalled) as [Hin | ->]; [| exact Hd].
  rewrite Forall_forall in Hall. apply Hall. exact Hin.
Qed.

Lemma step_coldStartInv (env : Env) (w0 : World) (st : Step) (s : System) :
  browserInstance w0 = None ->
  browserLaunchPromise w0 = None ->
  isCallOrResume st ->
  coldStartInv w0 s -> coldStartInv w0 (step env st s).
Proof.
  intros Hb Hp Hst Hinv.
  destruct st as [i|i|t r| |closed| |]; try contradiction; simpl.
  - destruct Hinv as [[Hw Hall] | (Hc & Ht & Hf & Hall)].
    + pose proof (callerAt_Forall _ s i Hall eq_refl) as Hi. rewrite Hi.
      unfold getBrowserEnter. rewrite Hw, Hp, Hb. simpl.
      right. repeat split.
      * apply countLaunch_launch.
      * apply Forall_updateAt; [| right; reflexivity].
        eapply Forall_impl; [| exact Hall]. intros c ->. left. reflexivity.
    + pose proof (callerAt_Forall _ s i Hall (or_introl eq_refl)) as Hi.
      destruct Hi as [Hi | Hi]; rewrite Hi.
      * unfold getBrowserEnter. rewrite Ht. simpl.
        right. repeat split; try assumption.
        apply Forall_updateAt; [assumption | right; reflexivity].
      * right. repeat split; assumption.
  - destruct Hinv as [[Hw Hall] | (Hc & Ht & Hf & Hall)].
    + pose proof (callerAt_Forall _ s i Hall eq_refl) as Hi. rewrite Hi.
      left. split; assumption.
    + pose proof (callerAt_Forall _ s i Hall (or_introl eq_refl)) as Hi.
      destruct Hi as [Hi | Hi]; rewrite Hi; right; repeat split; assumption.
Qed.

Lemma run_coldStartInv (env : Env) (w0 : World) (k : nat) (steps : list Step) :
  browserInstance w0 = None ->
  browserLaunchPromise w0 = None ->
  Forall isCallOrResume steps ->
  coldStartInv w0 (run env steps (startSystem w0 k)).
Proof.
  intros Hb Hp Hsteps.
  assert (Hgen : forall s, coldStartInv w0 s -> coldStartInv w0 (run env steps s)).
  { induction Hsteps as [|st steps Hst _ IH]; intros s Hs; simpl.
    - exact Hs.
    - apply IH. apply step_coldStartInv; assumption. }
  apply Hgen. left. split; [reflexivity|].
  simpl. apply Forall_forall. intros c Hin.
  apply repeat_spec in Hin. exact Hin.
Qed.

Lemma run_calls_settled (env : Env) (steps : list Step) :
  Forall isCallOrResume steps ->
  forall s, settled (run env steps s) = settled s.
Proof.
  induction 1 as [|st steps Hst _ IH]; intros s; simpl; [reflexivity|].
  rewrite IH. destruct st as [i|i|t r| |closed| |]; try contradiction; simpl.
  - destruct (callerAt s i); try reflexivity.
    destruct (getBrowserEnter env (sys_world s)). reflexivity.
  - destruct (callerAt s i) as [|b healthy|r]; try reflexivity.
    destruct (getBrowserResume b healthy (sys_world s)). reflexivity.
Qed.

Lemma settleLaunch_result (t : Ticket) (r : Outcome Browser) (w : World) :
  fst (settleLaunch t r w)
  = match r with
    | Ok browser => Ok browser
    | Throw error => Throw (launchFailure error)
    end.
Proof. destruct r; reflexivity. Qed.

(** The part of the single-launch promise that the code keeps.  When there
    is neither a browser nor a launch, any number of callers of
    [getBrowser], in any order, cause one launch while it is in flight: every
    caller that has called holds the promise of that launch, and when the
    launch settles they all receive the same browser, or the same failure. *)
Theorem getBrowser_cold_start_single_flight (env : Env) (w0 : World) (k : nat)
  (steps : list Step) (r : Outcome Browser) :
  browserInstance w0 = None ->
  browserLaunchPromise w0 = None ->
  Forall isCallOrResume steps ->
  let s := run env steps (startSystem w0 k) in
  let s' := step env (LaunchSettles (nextTicket w0) r) s in
  (countLaunch (trace (sys_world s)) <= S (countLaunch (trace w0)))%nat
  /\ (forall i, callerAt s i = NotCalled
                \/ callerAt s i = Finished (ReturnsPromise (nextTicket w0)))
  /\ (forall i, callerAt s i <> NotCalled ->
        countLaunch (trace (sys_world s)) = S (countLaunch (trace w0))
        /\ inFlight (sys_world s) = (inFlight w0 ++ [nextTicket w0])%list
        /\ received s' i
           = Some (match r with
                   | Ok browser => Ok browser
                   | Throw error => Throw (launchFailure error)
                   end)).
Proof.
  intros Hb Hp Hsteps s s'.
  pose proof (run_coldStartInv env w0 k steps Hb Hp Hsteps) as Hinv.
  pose proof (run_calls_settled env steps Hsteps (startSystem w0 k)) as Hset.
  fold s in Hinv, Hset. simpl in Hset.
  destruct Hinv as [[Hw Hall] | (Hc & Ht & Hf & Hall)].
  - split; [rewrite Hw; lia|]. split.
    + intros i. left. apply (callerAt_Forall _ s i Hall eq_refl).
    + intros i Hi. exfalso. apply Hi. apply (callerAt_Forall _ s i Hall eq_refl).
  - split; [rewrite Hc; lia|]. split.
    + intros i. apply (callerAt_Forall _ s i Hall (or_introl eq_refl)).
    + intros i Hi. split; [exact Hc | split; [exact Hf|]].
      destruct (callerAt_Forall _ s i Hall (or_introl eq_refl)) as [Hn | Hfin];
        [contradiction|].
      subst s'. unfold step.
      assert (Hin : ticketInFlight (nextTicket w0) (sys_world s) = true).
      { unfold ticketInFlight. rewrite Hf, existsb_app. simpl.
        rewrite Nat.eqb_refl. rewrite orb_true_r. reflexivity. }
      rewrite Hin.
      pose proof (settleLaunch_result (nextTicket w0) r (sys_world s)) as Hres.
      destruct (settleLaunch (nextTicket w0) r (sys_world s)) as [res w'].
      simpl in Hres. subst res.
      unfold received, callerAt. simpl. fold (callerAt s i). rewrite Hfin.
      rewrite Hset. simpl. rewrite Nat.eqb_refl. reflexivity.
Qed.

(** Three callers, the launch still in flight, then its failure. *)
Lemma getBrowser_cold_start_single_flight_witness :
  countLaunch (trace (sys_world
                 (run sampleEnv [Calls 0; Calls 2; Resumes 0; Calls 1]%nat
                      (startSystem initialWorld 3)))) = 1%nat
  /\ received (step sampleEnv (LaunchSettles 0%nat (Throw diskFull))
                 (run sampleEnv [Calls 0; Calls 2; Resumes 0; Calls 1]%nat
                      (startSystem initialWorld 3))) 1%nat
     = Some (Throw (launchFailure diskFull)).
Proof.
  pose proof (getBrowser_cold_start_single_flight sampleEnv initialWorld 3
                [Calls 0; Calls 2; Resumes 0; Calls 1]%nat (Throw diskFull)
                eq_refl eq_refl
                ltac:(repeat constructor)) as H.
  cbv zeta in H. destruct H as (_ & _ & H).
  specialize (H 1%nat ltac:(vm_compute; discriminate)).
  split; [exact (proj1 H) | exact (proj2 (proj2 H))].
Defined.

(** C2, at the input where the code departs from it.  Two callers of
    [getBrowser] while the one browser is dead: both pass
    the test of the launch promise, both are suspended at the health check,
    and each starts a launch when it resumes.  Two launches are in flight,
    the second promise has replaced the first in [browserLaunchPromise], and
    the callers end with different browsers. *)
Theorem getBrowser_unhealthy_race_launches_twice :
  let s := run crashedEnv [Calls 0; Calls 1; Resumes 0; Resumes 1]%nat
               (startSystem (held 1) 2) in
  let s' := run crashedEnv [LaunchSettles 1 (Ok 8); LaunchSettles 2 (Ok 9)]%nat s in
  browserInstance (held 1) = Some 7%nat
  /\ browserLaunchPromise (held 1) = None
  /\ inFlight (sys_world s) = [1; 2]%nat
  /\ (countLaunch (trace (sys_world s)) = 2 + countLaunch (trace (held 1)))%nat
  /\ callers s = [Finished (ReturnsPromise 1%nat); Finished (ReturnsPromise 2%nat)]
  /\ received s' 0%nat = Some (Ok 8%nat)
  /\ received s' 1%nat = Some (Ok 9%nat).
Proof. vm_compute. repeat split. Qed.

End SingleFlight.

(** ** The count of active pages along a successful conversion *)

Section Count.

Import PdfGenerator.

Lemma keepsCount_ret {A} (a : A) : keepsCount (ret a).
Proof. intros w r w' H. inversion H; subst. reflexivity. Qed.

Lemma keepsCount_throw {A} (t : Thrown) : keepsCount (@throw World A t).
Proof. intros w r w' H. inversion H; subst. reflexivity. Qed.

Lemma keepsCount_external {A} (e : Effect) (r : Outcome A) : keepsCount (external e r).
Proof. intros w r' w' H. inversion H; subst. reflexivity. Qed.

Lemma keepsCount_warn (msg : string) : keepsCount (warn msg).
Proof. intros w r' w' H. inversion H; subst. reflexivity. Qed.

Lemma keepsCount_bind {A B} (m : Prog World A) (k : A -> Prog World B) :
  keepsCount m -> (forall a, keepsCount (k a)) -> keepsCount (bind m k).
Proof.
  intros Hm Hk w r w' H. unfold bind in H.
  destruct (m w) as [[a|t] w1] eqn:E.
  - rewrite (Hk a w1 r w' H). eapply Hm. exact E.
  - inversion H; subst. eapply Hm. exact E.
Qed.

Lemma keepsCount_tryCatch {A} (m : Prog World A) (h : Thrown -> Prog World A) :
  keepsCount m -> (forall t, keepsCount (h t)) -> keepsCount (tryCatch m h).
Proof.
  intros Hm Hh w r w' H. unfold tryCatch in H.
  destruct (m w) as [[a|t] w1] eqn:E.
  - inversion H; subst. eapply Hm. exact E.
  - rewrite (Hh t w1 r w' H). eapply Hm. exact E.
Qed.

Lemma keepsCount_ensureOutputDirectory (env : Env) (path : string) :
  keepsCount (FileUtils.ensureOutputDirectory env path).
Proof.
  unfold FileUtils.ensureOutputDirectory.
  apply keepsCount_tryCatch; [apply keepsCount_external|].
  intros [e|]; [| apply keepsCount_ret].
  destruct (errCode e) as [c|]; [| apply keepsCount_ret].
  destruct (negb (c =? "EEXIST")%string); [apply keepsCount_throw | apply keepsCount_ret].
Qed.

Lemma keepsCount_loadTheme (env : Env) (name : string) :
  keepsCount (ThemeLoader.loadTheme env name).
Proof.
  unfold ThemeLoader.loadTheme.
  apply keepsCount_tryCatch; [apply keepsCount_external|].
  intros t. apply keepsCount_throw.
Qed.

Lemma keepsCount_loadCodeTheme (env : Env) (name : string) :
  keepsCount (ThemeLoader.loadCodeTheme env name).
Proof.
  unfold ThemeLoader.loadCodeTheme.
  apply keepsCount_tryCatch; [apply keepsCount_external|].
  intros t. apply keepsCount_bind; [apply keepsCount_warn|].
  intros. apply keepsCount_ret.
Qed.

Lemma keepsCount_gatherStats (env : Env) (p : Page) (d : bool) :
  keepsCount (gatherStats env p d).
Proof.
  unfold gatherStats.
  apply keepsCount_bind; [apply keepsCount_external|].
  intros. apply keepsCount_ret.
Qed.

Lemma keepsCount_getBrowser (env : Env) : keepsCount (getBrowser env).
Proof.
  intros w r w' H.
  unfold getBrowser, getBrowserEnter, getBrowserResume, startLaunch, settleLaunch in H.
  destruct (browserLaunchPromise w) as [t|].
  - destruct (launch env); inversion H; subst; reflexivity.
  - destruct (browserInstance w) as [b|].
    + destruct (isBrowserHealthy env b); simpl in H.
      * inversion H; subst. reflexivity.
      * destruct (launch env); inversion H; subst; reflexivity.
    + simpl in H. destruct (launch env); inversion H; subst; reflexivity.
Qed.

(** A successful [acquirePage] counts the page in. *)
Lemma acquirePage_ok_count (env : Env) (w w' : World) (p : Page) :
  acquirePage env w = (Ok p, w') -> activePages w' = activePages w + 1.
Proof.
  unfold acquirePage.
  destruct (MAX_CONCURRENT_PAGES <=? activePages w); [discriminate|].
  intros H. bind_inv H. apply keepsCount_getBrowser in E.
  bind_inv H. unfold external in E0. inversion E0; subst.
  bind_inv H. unfold modify in E1. inversion E1; subst.
  unfold ret in H. inversion H; subst. simpl. lia.
Qed.




(** C1, at the input where the code departs from it.  A render fails at
    [page.pdf] while another request holds a page: the [catch]
    block releases the page and leaves [page] set, so the [finally] block
    releases it again.  [page.close()] is called twice on page 1 and
    [activePages] ends at 0 instead of the 1 it was before the call, with
    page 0 still held; the error itself reaches the caller. *)
Theorem generatePdf_failed_render_releases_twice :
  activePages (held 1) = 1
  /\ fst (generatePdf pdfFailsEnv sampleConfig (held 1)) = Throw diskFull
  /\ countClosePage 1%nat (trace (snd (generatePdf pdfFailsEnv sampleConfig (held 1)))) = 2%nat
  /\ activePages (snd (generatePdf pdfFailsEnv sampleConfig (held 1))) = 0.
Proof. vm_compute. repeat split. Qed.

End Count.

(** ** File names *)

Section Sanitize.

Import FormatUtils.

Lemma allChars_impl (p q : ascii -> bool) (s : string) :
  (forall c, p c = true -> q c = true) ->
  Js.allChars p s = true -> Js.allChars q s = true.
Proof.
  intros Hpq. induction s as [|c r IH]; simpl; [reflexivity|].
  intros H. apply andb_true_iff in H. destruct H as [Hc Hr].
  rewrite (Hpq c Hc), (IH Hr). reflexivity.
Qed.

Lemma replaceUnsafe_safe (s : string) :
  Js.allChars (fun c => negb (isUnsafe c)) (replaceUnsafe s) = true.
Proof.
  induction s as [|c r IH]; simpl; [reflexivity|].
  rewrite IH. destruct (isUnsafe c) eqn:E; [reflexivity | rewrite E; reflexivity].
Qed.

Lemma underscoreFrom_chars (p : ascii -> bool) (s : string) :
  p "_"%char = true ->
  Js.allChars p s = true ->
  forall b, Js.allChars p (underscoreFrom b s) = true.
Proof.
  intros Hu. induction s as [|c r IH]; simpl; intros H b; [reflexivity|].
  apply andb_true_iff in H. destruct H as [Hc Hr].
  destruct (Js.isSpace c); [destruct b|]; simpl; rewrite ?Hu, ?Hc, IH; auto.
Qed.

Lemma underscoreFrom_noSpace (s : string) :
  forall b, Js.allChars (fun c => negb (Js.isSpace c)) (underscoreFrom b s) = true.
Proof.
  induction s as [|c r IH]; simpl; intros b; [reflexivity|].
  destruct (Js.isSpace c) eqn:E; [destruct b|]; simpl; rewrite ?E, IH; reflexivity.
Qed.

Lemma squeezeFrom_chars (p : ascii -> bool) (s : string) :
  Js.allChars p s = true ->
  forall b, Js.allChars p (squeezeFrom b s) = true.
Proof.
  induction s as [|c r IH]; simpl; intros H b; [reflexivity|].
  apply andb_true_iff in H. destruct H as [Hc Hr].
  destruct (Ascii.eqb c "_") eqn:E.
  - apply Ascii.eqb_eq in E. subst c.
    destruct b; simpl; rewrite ?Hc, IH; auto.
  - simpl. rewrite Hc, IH; auto.
Qed.

Lemma squeezeFrom_noDouble (s : string) :
  forall b, noDoubleUnderscore b (squeezeFrom b s) = true.
Proof.
  induction s as [|c r IH]; simpl; intros b; [reflexivity|].
  destruct (Ascii.eqb c "_") eqn:E.
  - destruct b; simpl; rewrite ?IH; reflexivity.
  - simpl. rewrite E. apply IH.
Qed.

Lemma dropLeading_chars (p : ascii -> bool) (s : string) :
  Js.allChars p s = true -> Js.allChars p (dropLeadingUnderscores s) = true.
Proof.
  induction s as [|c r IH]; simpl; intros H; [reflexivity|].
  apply andb_true_iff in H. destruct H as [Hc Hr].
  destruct (Ascii.eqb c "_"); [apply IH; assumption|].
  simpl. rewrite Hc, Hr. reflexivity.
Qed.

Lemma dropTrailing_chars (p : ascii -> bool) (s : string) :
  Js.allChars p s = true -> Js.allChars p (dropTrailingUnderscores s) = true.
Proof.
  induction s as [|c r IH]; simpl; intros H; [reflexivity|].
  apply andb_true_iff in H. destruct H as [Hc Hr]. specialize (IH Hr).
  destruct (dropTrailingUnderscores r) as [|c' r'].
  - destruct (Ascii.eqb c "_"); simpl; rewrite ?Hc; reflexivity.
  - change (Js.allChars p (String c (String c' r')) = true).
    simpl in *. rewrite Hc. exact IH.
Qed.

Lemma noDouble_weaken (s : string) :
  noDoubleUnderscore true s = true -> noDoubleUnderscore false s = true.
Proof.
  destruct s as [|c r]; simpl; [reflexivity|].
  destruct (Ascii.eqb c "_"); [discriminate | auto].
Qed.

Lemma dropLeading_noDouble (s : string) :
  forall b, noDoubleUnderscore b s = true ->
            noDoubleUnderscore false (dropLeadingUnderscores s) = true.
Proof.
  induction s as [|c r IH]; simpl; intros b H; [reflexivity|].
  destruct (Ascii.eqb c "_") eqn:E.
  - apply andb_true_iff in H. destruct H as [_ H]. eapply IH. exact H.
  - simpl. rewrite E. exact H.
Qed.

Lemma dropTrailing_noDouble (s : string) :
  forall b, noDoubleUnderscore b s = true ->
            noDoubleUnderscore b (dropTrailingUnderscores s) = true.
Proof.
  induction s as [|c r IH]; simpl; intros b H; [reflexivity|].
  destruct (Ascii.eqb c "_") eqn:E.
  - apply andb_true_iff in H. destruct H as [Hb H]. specialize (IH true H).
    destruct (dropTrailingUnderscores r) as [|c' r']; [reflexivity|].
    change (noDoubleUnderscore b (String c (String c' r')) = true).
    cbn [noDoubleUnderscore] in *. rewrite E, Hb. exact IH.
  - specialize (IH false H).
    destruct (dropTrailingUnderscores r) as [|c' r'].
    + simpl. rewrite E. reflexivity.
    + change (noDoubleUnderscore b (String c (String c' r')) = true).
      cbn [noDoubleUnderscore] in *. rewrite E. exact IH.
Qed.

Lemma dropLeading_start (s : string) :
  startsWithUnderscore (dropLeadingUnderscores s) = false.
Proof.
  induction s as [|c r IH]; simpl; [reflexivity|].
  destruct (Ascii.eqb c "_") eqn:E; [exact IH | simpl; exact E].
Qed.

Lemma dropTrailing_start (s : string) :
  startsWithUnderscore s = false ->
  startsWithUnderscore (dropTrailingUnderscores s) = false.
Proof.
  destruct s as [|c r]; simpl; intros H; [reflexivity|].
  destruct (dropTrailingUnderscores r); [rewrite H|]; simpl; auto.
Qed.

Lemma dropTrailing_end (s : string) :
  endsWithUnderscore (dropTrailingUnderscores s) = false.
Proof.
  induction s as [|c r IH]; simpl; [reflexivity|].
  destruct (dropTrailingUnderscores r) as [|c' r'] eqn:Er.
  - destruct (Ascii.eqb c "_") eqn:E; simpl; [reflexivity | exact E].
  - exact IH.
Qed.

Lemma sanitizeFilename_isSanitized (filename : string) :
  isSanitized (sanitizeFilename filename) = true.
Proof.
  unfold isSanitized, sanitizeFilename, stripUnderscores.
  repeat (apply andb_true_iff; split).
  - apply dropTrailing_chars, dropLeading_chars, squeezeFrom_chars.
    apply underscoreFrom_chars; [reflexivity | apply replaceUnsafe_safe].
  - apply dropTrailing_chars, dropLeading_chars, squeezeFrom_chars.
    apply underscoreFrom_noSpace.
  - apply dropTrailing_noDouble. eapply dropLeading_noDouble.
    apply squeezeFrom_noDouble.
  - rewrite dropTrailing_start; [reflexivity | apply dropLeading_start].
  - rewrite dropTrailing_end. reflexivity.
Qed.

Lemma replaceUnsafe_fixed (s : string) :
  Js.allChars (fun c => negb (isUnsafe c)) s = true -> replaceUnsafe s = s.
Proof.
  induction s as [|c r IH]; simpl; intros H; [reflexivity|].
  apply andb_true_iff in H. destruct H as [Hc Hr].
  rewrite (IH Hr). destruct (isUnsafe c); [discriminate | reflexivity].
Qed.

Lemma underscoreFrom_fixed (s : string) :
  Js.allChars (fun c => negb (Js.isSpace c)) s = true ->
  forall b, underscoreFrom b s = s.
Proof.
  induction s as [|c r IH]; simpl; intros H b; [reflexivity|].
  apply andb_true_iff in H. destruct H as [Hc Hr].
  destruct (Js.isSpace c); [discriminate|]. rewrite (IH Hr). reflexivity.
Qed.

Lemma squeezeFrom_fixed (s : string) :
  forall b, noDoubleUnderscore b s = true -> squeezeFrom b s = s.
Proof.
  induction s as [|c r IH]; simpl; intros b H; [reflexivity|].
  destruct (Ascii.eqb c "_") eqn:E.
  - apply andb_true_iff in H. destruct H as [Hb H].
    apply Ascii.eqb_eq in E. subst c.
    destruct b; [discriminate|]. rewrite (IH true H). reflexivity.
  - rewrite (IH false H). reflexivity.
Qed.

Lemma dropLeading_fixed (s : string) :
  startsWithUnderscore s = false -> dropLeadingUnderscores s = s.
Proof.
  destruct s as [|c r]; simpl; intros H; [reflexivity|]. rewrite H. reflexivity.
Qed.

Lemma dropTrailing_fixed (s : string) :
  endsWithUnderscore s = false -> dropTrailingUnderscores s = s.
Proof.
  induction s as [|c r IH]; simpl; intros H; [reflexivity|].
  destruct r as [|c' r'].
  - simpl. rewrite H. reflexivity.
  - rewrite (IH H). reflexivity.
Qed.

Lemma sanitizeFilename_fixed (s : string) :
  isSanitized s = true -> sanitizeFilename s = s.
Proof.
  unfold isSanitized. intros H.
  repeat (apply andb_true_iff in H; destruct H as [H ?]).
  unfold sanitizeFilename, stripUnderscores.
  rewrite replaceUnsafe_fixed by assumption.
  rewrite underscoreFrom_fixed by assumption.
  rewrite squeezeFrom_fixed by assumption.
  rewrite dropLeading_fixed by (apply negb_true_iff; assumption).
  apply dropTrailing_fixed. apply negb_true_iff. assumption.
Qed.

(** Whatever the name, the result of [sanitizeFilename] has none of the
    characters the first pass replaces, no white space, no two underscores
    in a row and no underscore at either end.  It may be empty, and dots
    are kept. *)
Theorem sanitizeFilename_result (filename : string) :
  let r := sanitizeFilename filename in
  Js.allChars (fun c => negb (isUnsafe c)) r = true
  /\ Js.allChars (fun c => negb (Js.isSpace c)) r = true
  /\ noDoubleUnderscore false r = true
  /\ startsWithUnderscore r = false
  /\ endsWithUnderscore r = false
  /\ sanitizeFilename " _ " = ""
  /\ sanitizeFilename "../a b" = "..-a_b".
Proof.
  cbv zeta.
  pose proof (sanitizeFilename_isSanitized filename) as H. unfold isSanitized in H.
  repeat (apply andb_true_iff in H; destruct H as [H ?]).
  repeat split; try assumption; apply negb_true_iff; assumption.
Qed.

(** [sanitizeFilename] changes nothing in a name that is already of that
    shape; so sanitizing twice is sanitizing once. *)
Theorem sanitizeFilename_idempotent (filename : string) :
  sanitizeFilename (sanitizeFilename filename) = sanitizeFilename filename
  /\ (forall s, isSanitized s = true -> sanitizeFilename s = s).
Proof.
  split; [| exact sanitizeFilename_fixed].
  apply sanitizeFilename_fixed. apply sanitizeFilename_isSanitized.
Qed.

End Sanitize.

(** ** Sizes and durations *)

Section Formatting.

Import FormatUtils.

Lemma secondsTenths_near (ms : Z) : -50 <= ms - 100 * secondsTenths ms <= 50.
Proof.
  unfold secondsTenths.
  pose proof (Z.div_mod ms 100 ltac:(lia)) as Hdm.
  pose proof (Z.mod_pos_bound ms 100 ltac:(lia)) as Hm.
  destruct (Z.ltb_spec (ms mod 100) 50); [lia|].
  destruct (Z.ltb_spec 50 (ms mod 100)); [lia|].
  destruct (doubleBelow ms 1000); lia.
Qed.

Lemma secondsTenths_top (ms : Z) : 59950 <= ms < 60000 -> secondsTenths ms = 600.
Proof.
  intros H.
  destruct (Z.eq_dec ms 59950) as [-> | Hne]; [vm_compute; reflexivity|].
  unfold secondsTenths.
  pose proof (Z.div_mod ms 100 ltac:(lia)) as Hdm.
  pose proof (Z.mod_pos_bound ms 100 ltac:(lia)) as Hm.
  assert (Hq : ms / 100 = 599) by nia.
  destruct (Z.ltb_spec (ms mod 100) 50); [lia|].
  destruct (Z.ltb_spec 50 (ms mod 100)); lia.
Qed.

(** For a size that is a safe integer, [formatFileSize] picks the unit by
    the size: bytes below 1024, KB below 1024 * 1024, MB from there on.  The
    number printed with KB or MB has one decimal and is within 0.05 of the
    exact quotient.  Just below one megabyte the rounding gives
    "1024.0 KB". *)
Theorem formatFileSize_units (bytes : Z) :
  0 <= bytes <= Js.MAX_SAFE_INTEGER ->
  (bytes < 1024 -> formatFileSize bytes = Js.ofZ bytes ++ " B")
  /\ (1024 <= bytes < 1024 * 1024 ->
      exists n, formatFileSize bytes = Js.ofZ (n / 10) ++ "." ++ Js.ofZ (n mod 10) ++ " KB"
                /\ 10 <= n <= 10240
                /\ -512 <= 10 * bytes - 1024 * n <= 512)
  /\ (1024 * 1024 <= bytes ->
      exists n, formatFileSize bytes = Js.ofZ (n / 10) ++ "." ++ Js.ofZ (n mod 10) ++ " MB"
                /\ 10 <= n
                /\ -524288 <= 10 * bytes - 1048576 * n <= 524288)
  /\ (1048525 <= bytes < 1048576 -> formatFileSize bytes = "1024.0 KB").
Proof.
  intros Hsafe. unfold formatFileSize, toFixed1.
  split; [| split; [| split]]; intros H.
  - destruct (Z.eqb_spec bytes 0) as [-> | Hne]; [reflexivity|].
    destruct (Z.ltb_spec bytes 1024); [reflexivity | lia].
  - destruct (Z.eqb_spec bytes 0); [lia|].
    destruct (Z.ltb_spec bytes 1024); [lia|].
    destruct (Z.ltb_spec bytes (1024 * 1024)); [| lia].
    exists ((20 * bytes + 1024) / (2 * 1024)).
    pose proof (Z.div_mod (20 * bytes + 1024) (2 * 1024) ltac:(lia)) as Hdm.
    pose proof (Z.mod_pos_bound (20 * bytes + 1024) (2 * 1024) ltac:(lia)) as Hm.
    split; [rewrite !string_app_assoc; reflexivity | lia].
  - destruct (Z.eqb_spec bytes 0); [lia|].
    destruct (Z.ltb_spec bytes 1024); [lia|].
    destruct (Z.ltb_spec bytes (1024 * 1024)); [lia|].
    exists ((20 * bytes + 1024 * 1024) / (2 * (1024 * 1024))).
    pose proof (Z.div_mod (20 * bytes + 1024 * 1024) (2 * (1024 * 1024)) ltac:(lia)) as Hdm.
    pose proof (Z.mod_pos_bound (20 * bytes + 1024 * 1024) (2 * (1024 * 1024)) ltac:(lia))
      as Hm.
    split; [rewrite !string_app_assoc; reflexivity | lia].
  - destruct (Z.eqb_spec bytes 0); [lia|].
    destruct (Z.ltb_spec bytes 1024); [lia|].
    destruct (Z.ltb_spec bytes (1024 * 1024)); [| lia].
    pose proof (Z.div_mod (20 * bytes + 1024) (2 * 1024) ltac:(lia)) as Hdm.
    pose proof (Z.mod_pos_bound (20 * bytes + 1024) (2 * 1024) ltac:(lia)) as Hm.
    assert (Hn : (20 * bytes + 1024) / (2 * 1024) = 10240) by lia.
    rewrite Hn. reflexivity.
Qed.

(** Five megabytes. *)
Lemma formatFileSize_units_witness :
  formatFileSize 100 = Js.ofZ 100 ++ " B"
  /\ exists n,
       formatFileSize 5242880 = Js.ofZ (n / 10) ++ "." ++ Js.ofZ (n mod 10) ++ " MB"
       /\ 10 <= n
       /\ -524288 <= 10 * 5242880 - 1048576 * n <= 524288.
Proof.
  split.
  - apply (formatFileSize_units 100); [vm_compute; split; discriminate | reflexivity].
  - apply (formatFileSize_units 5242880); vm_compute; [split |]; discriminate.
Defined.

(** For a duration that is a safe integer, [formatDuration] prints
    milliseconds below one second, seconds with one decimal below one
    minute (within 0.05 s of the duration), and whole minutes and seconds
    from there on, the seconds below 60.  In the last 50 ms before the
    minute the seconds round to "60.0s". *)
Theorem formatDuration_units (ms : Z) :
  - Js.MAX_SAFE_INTEGER <= ms <= Js.MAX_SAFE_INTEGER ->
  (ms < 1000 -> formatDuration ms = Js.ofZ ms ++ "ms")
  /\ (1000 <= ms < 60000 ->
      exists n, formatDuration ms = Js.ofZ (n / 10) ++ "." ++ Js.ofZ (n mod 10) ++ "s"
                /\ -50 <= ms - 100 * n <= 50)
  /\ (60000 <= ms ->
      exists m s, formatDuration ms = Js.ofZ m ++ "m " ++ Js.ofZ s ++ "s"
                  /\ 1 <= m /\ 0 <= s < 60
                  /\ 60000 * m + 1000 * s <= ms < 60000 * m + 1000 * s + 1000)
  /\ (59950 <= ms < 60000 -> formatDuration ms = "60.0s").
Proof.
  intros Hsafe. unfold formatDuration.
  split; [| split; [| split]]; intros H.
  - destruct (Z.ltb_spec ms 1000); [reflexivity | lia].
  - destruct (Z.ltb_spec ms 1000); [lia|].
    destruct (Z.ltb_spec ms 60000); [| lia].
    exists (secondsTenths ms). split; [reflexivity | apply secondsTenths_near].
  - destruct (Z.ltb_spec ms 1000); [lia|].
    destruct (Z.ltb_spec ms 60000); [lia|].
    exists (ms / 60000), ((ms mod 60000) / 1000).
    pose proof (Z.div_mod ms 60000 ltac:(lia)) as Hdm.
    pose proof (Z.mod_pos_bound ms 60000 ltac:(lia)) as Hm.
    pose proof (Z.div_mod (ms mod 60000) 1000 ltac:(lia)) as Hdm2.
    pose proof (Z.mod_pos_bound (ms mod 60000) 1000 ltac:(lia)) as Hm2.
    split; [reflexivity | nia].
  - destruct (Z.ltb_spec ms 1000); [lia|].
    destruct (Z.ltb_spec ms 60000); [| lia].
    rewrite (secondsTenths_top ms H). reflexivity.
Qed.

(** A quarter of a second, and an hour and a half. *)
Lemma formatDuration_units_witness :
  formatDuration 250 = Js.ofZ 250 ++ "ms"
  /\ exists m s,
       formatDuration 5400000 = Js.ofZ m ++ "m " ++ Js.ofZ s ++ "s"
       /\ 1 <= m /\ 0 <= s < 60
       /\ 60000 * m + 1000 * s <= 5400000 < 60000 * m + 1000 * s + 1000.
Proof.
  split.
  - apply (formatDuration_units 250); [vm_compute; split; discriminate | reflexivity].
  - apply (formatDuration_units 5400000); vm_compute; [split |]; discriminate.
Defined.

End Formatting.

(** ** The browser after a call *)

Section Browser.

Import PdfGenerator.

Lemma countLaunch_other (tr : list Effect) (e : Effect) :
  match e with ELaunch _ => False | _ => True end ->
  countLaunch (tr ++ [e]) = countLaunch tr.
Proof.
  intros H. unfold countLaunch. rewrite filter_app, length_app.
  destruct e; simpl; lia || contradiction.
Qed.

Ltac count_launches :=
  simpl;
  repeat first
    [ rewrite countLaunch_launch
    | rewrite countLaunch_other by exact I ];
  try lia.

(** [getBrowser], run to its end, always leaves the launch promise cleared
    and [activePages] alone, and starts at most one launch.  When it
    returns a browser, that browser is [browserInstance]; when it throws,
    [browserInstance] is null and the error is the launch failure with its
    advice.  A healthy instance is returned as it is, with no effect at
    all. *)
Theorem getBrowser_postcondition (env : Env) (w : World) :
  let r := fst (getBrowser env w) in
  let w' := snd (getBrowser env w) in
  browserLaunchPromise w' = None
  /\ activePages w' = activePages w
  /\ (countLaunch (trace w') <= S (countLaunch (trace w)))%nat
  /\ (forall b, r = Ok b -> browserInstance w' = Some b)
  /\ (forall t, r = Throw t ->
        browserInstance w' = None
        /\ exists error, launch env = Throw error /\ t = launchFailure error)
  /\ (forall b, browserLaunchPromise w = None ->
                browserInstance w = Some b ->
                isBrowserHealthy env b = true ->
                getBrowser env w = (Ok b, w)).
Proof.
  cbv zeta.
  unfold getBrowser, getBrowserEnter, getBrowserResume, startLaunch, settleLaunch.
  destruct (browserLaunchPromise w) as [t|] eqn:Ep;
    [| destruct (browserInstance w) as [b0|] eqn:Eb;
       [destruct (isBrowserHealthy env b0) eqn:Eh|] ];
    try (destruct (launch env) as [b|e] eqn:El);
    simpl; repeat split;
    first
      [ reflexivity
      | assumption
      | lia
      | count_launches; fail
      | intros x Hx; inversion Hx; subst; first [reflexivity | assumption]
      | intros x Hx; inversion Hx; subst; exists e; split; reflexivity
      | intros x Hx; discriminate
      | intros b1 Hp1 Hb Hh; congruence
      | congruence
      | match goal with
        | H : Throw _ = Throw _ |- _ =>
            inversion H; subst; eexists; split; reflexivity
        end ].
Qed.

(** [closeBrowser] leaves no browser, no launch promise and a count of
    zero, and never throws.  A second call changes nothing and closes
    nothing.  The statistics then report an inactive browser, and the next
    call of [getBrowser] starts a launch. *)
Theorem closeBrowser_resets (env : Env) (w : World) :
  let w1 := snd (closeBrowser env w) in
  fst (closeBrowser env w) = Ok tt
  /\ browserInstance w1 = None
  /\ browserLaunchPromise w1 = None
  /\ activePages w1 = 0
  /\ closeBrowser env w1 = (Ok tt, w1)
  /\ getBrowserStats env w1 = mkBrowserStats false 0 10
  /\ (forall env', fst (getBrowserEnter env' w1) = Done (ReturnsPromise (nextTicket w1)))
  /\ trace w1 = match browserInstance w with
                | Some b => (trace w ++ [ECloseBrowser b])%list
                | None => trace w
                end.
Proof.
  cbv zeta. unfold closeBrowser, closeBrowserFinish.
  destruct (browserInstance w) as [b|]; simpl; repeat split.
Qed.

End Browser.

(** ** The count stays within the quota *)

Section Bound.

Import PdfGenerator Convert.

Lemma keepsBound_ret {S A} (count : S -> Z) (a : A) : keepsBound count (ret a).
Proof. intros s r s' Hb H. inversion H; subst. assumption. Qed.

Lemma keepsBound_throw {S A} (count : S -> Z) (t : Thrown) :
  keepsBound count (@throw S A t).
Proof. intros s r s' Hb H. inversion H; subst. assumption. Qed.

Lemma keepsBound_bind {S A B} (count : S -> Z) (m : Prog S A) (k : A -> Prog S B) :
  keepsBound count m -> (forall a, keepsBound count (k a)) -> keepsBound count (bind m k).
Proof.
  intros Hm Hk s r s' Hb H. unfold bind in H.
  destruct (m s) as [[a|t] s1] eqn:E.
  - eapply Hk; [| exact H]. eapply Hm; [exact Hb | exact E].
  - inversion H; subst. eapply Hm; [exact Hb | exact E].
Qed.

Lemma keepsBound_tryCatch {S A} (count : S -> Z) (m : Prog S A) (h : Thrown -> Prog S A) :
  keepsBound count m -> (forall t, keepsBound count (h t)) ->
  keepsBound count (tryCatch m h).
Proof.
  intros Hm Hh s r s' Hb H. unfold tryCatch in H.
  destruct (m s) as [[a|t] s1] eqn:E.
  - inversion H; subst. eapply Hm; [exact Hb | exact E].
  - eapply Hh; [| exact H]. eapply Hm; [exact Hb | exact E].
Qed.

Lemma keepsBound_tryFinally {S A} (count : S -> Z) (m : Prog S A) (fin : Prog S unit) :
  keepsBound count m -> keepsBound count fin -> keepsBound count (tryFinally m fin).
Proof.
  intros Hm Hf s r s' Hb H. unfold tryFinally in H.
  destruct (m s) as [r1 s1] eqn:E.
  destruct (fin s1) as [[u|t] s2] eqn:E2; inversion H; subst;
    (eapply Hf; [| exact E2]; eapply Hm; [exact Hb | exact E]).
Qed.

Lemma keepsCount_keepsBound {A} (m : Prog World A) :
  keepsCount m -> keepsBound activePages m.
Proof. intros Hm w r w' Hb H. rewrite (Hm w r w' H). exact Hb. Qed.

Lemma keepsBound_inWorld {A} (m : Prog World A) :
  keepsBound activePages m -> keepsBound frameCount (inWorld m).
Proof.
  intros Hm f r f' Hb H. apply inWorld_inv in H. destruct H as (w' & E & ->).
  unfold frameCount in *. simpl. eapply Hm; [exact Hb | exact E].
Qed.

Lemma keepsBound_setPage (p : option Page) : keepsBound frameCount (setPage p).
Proof. intros f r f' Hb H. inversion H; subst. exact Hb. Qed.

Lemma keepsBound_getPage : keepsBound frameCount getPage.
Proof. intros f r f' Hb H. inversion H; subst. exact Hb. Qed.

(** A failing [acquirePage] leaves the count alone. *)
Lemma acquirePage_throw_count (env : Env) (w w' : World) (t : Thrown) :
  acquirePage env w = (Throw t, w') -> activePages w' = activePages w.
Proof.
  unfold acquirePage.
  destruct (MAX_CONCURRENT_PAGES <=? activePages w).
  { intros H. inversion H; subst. reflexivity. }
  unfold bind.
  destruct (getBrowser env w) as [[b|e] w1] eqn:Eg.
  - apply keepsCount_getBrowser in Eg. unfold external, modify, ret.
    destruct (newPage env b (countNewPage (trace w1))); intros H; inversion H; subst.
    simpl. exact Eg.
  - apply keepsCount_getBrowser in Eg. intros H. inversion H; subst. exact Eg.
Qed.

Lemma keepsBound_acquirePage (env : Env) : keepsBound activePages (acquirePage env).
Proof.
  intros w r w' Hb H. destruct r as [p|t].
  - pose proof (acquirePage_ok_count env w w' p H) as Hc.
    unfold acquirePage in H.
    destruct (Z.leb_spec MAX_CONCURRENT_PAGES (activePages w)); [discriminate | lia].
  - rewrite (acquirePage_throw_count env w w' t H). exact Hb.
Qed.

Lemma keepsBound_releasePage (env : Env) (p : Page) :
  keepsBound activePages (releasePage env p).
Proof.
  intros w r w' Hb H.
  pose proof (releasePage_activePages env p w) as Hr. rewrite H in Hr. simpl in Hr.
  lia.
Qed.

Lemma keepsBound_generatePdf (env : Env) (config : PdfGenerationConfig) :
  keepsBound activePages (generatePdf env config).
Proof.
  intros w r w' Hb H. unfold generatePdf in H.
  destruct (tryFinally (tryCatch (generatePdfTry env config) (generatePdfCatch env))
              (generatePdfFinally env) (mkFrame w None)) as [r0 f] eqn:E.
  inversion H; subst.
  change (0 <= frameCount f <= MAX_CONCURRENT_PAGES).
  revert E. generalize (mkFrame w None) r f
    (Hb : 0 <= frameCount (mkFrame w None) <= MAX_CONCURRENT_PAGES).
  intros f0 r1 f1 Hb0 E. revert f0 r1 f1 Hb0 E.
  change (keepsBound frameCount
            (tryFinally (tryCatch (generatePdfTry env config) (generatePdfCatch env))
               (generatePdfFinally env))).
  assert (Hk : forall A (m : Prog World A),
             keepsCount m -> keepsBound frameCount (inWorld m)).
  { intros A m Hm. apply keepsBound_inWorld, keepsCount_keepsBound, Hm. }
  apply keepsBound_tryFinally; [apply keepsBound_tryCatch|].
  - unfold generatePdfTry. apply keepsBound_bind.
    + unfold producePdf.
      repeat (first
        [ apply keepsBound_inWorld; apply keepsBound_acquirePage
        | apply Hk; first
            [ apply keepsCount_ensureOutputDirectory
            | apply keepsCount_loadTheme
            | apply keepsCount_loadCodeTheme
            | apply keepsCount_warn
            | apply keepsCount_external ]
        | apply keepsBound_setPage
        | apply keepsBound_ret
        | apply keepsBound_tryCatch
        | apply keepsBound_bind
        | intro ]).
    + intros [p len]. unfold finishPdf.
      repeat (first
        [ apply keepsBound_inWorld; apply keepsBound_releasePage
        | apply Hk; apply keepsCount_gatherStats
        | apply keepsBound_setPage
        | apply keepsBound_ret
        | apply keepsBound_bind
        | intro ]).
  - intros t. unfold generatePdfCatch.
    apply keepsBound_bind; [apply keepsBound_getPage|].
    intros [p|]; (apply keepsBound_bind; [| intros; apply keepsBound_throw]).
    + apply keepsBound_inWorld, keepsBound_releasePage.
    + apply keepsBound_ret.
  - unfold generatePdfFinally.
    apply keepsBound_bind; [apply keepsBound_getPage|].
    intros [p|]; [| apply keepsBound_ret].
    unfold swallow. apply keepsBound_tryCatch; [| intros; apply keepsBound_ret].
    apply keepsBound_inWorld, keepsBound_releasePage.
Qed.

Lemma keepsBound_convertTry (env : Env) (input : MarkdownToPdfInput) :
  keepsBound activePages (convertTry env input).
Proof.
  unfold convertTry.
  destruct (negb (ErrorHandler.valid _)); [apply keepsBound_ret|].
  apply keepsBound_bind.
  - intros w r w' Hb H. apply resolveMarkdown_frame in H.
    destruct H as [(_ & _ & Hc & _) _]. rewrite Hc. exact Hb.
  - intros [response | markdownContent]; [apply keepsBound_ret|].
    destruct (negb (Js.truthy (Js.trim markdownContent)));
      [apply keepsBound_ret | apply keepsBound_generatePdf].
Qed.

Lemma perform_bound (c : ApiCall) (w : World) :
  0 <= activePages w <= MAX_CONCURRENT_PAGES ->
  0 <= activePages (perform c w) <= MAX_CONCURRENT_PAGES.
Proof.
  intros Hb. destruct c as [env input|env config|env|env p|env|env]; cbn [perform].
  - unfold convertMarkdownToPdf.
    destruct (convertTry env input w) as [[r|[e|]] w'] eqn:E; cbn [snd];
      eapply keepsBound_convertTry; eauto.
  - destruct (generatePdf env config w) as [r w'] eqn:E. cbn [snd].
    eapply keepsBound_generatePdf; eauto.
  - destruct (acquirePage env w) as [r w'] eqn:E. cbn [snd].
    eapply keepsBound_acquirePage; eauto.
  - destruct (releasePage env p w) as [r w'] eqn:E. cbn [snd].
    eapply keepsBound_releasePage; eauto.
  - simpl. unfold MAX_CONCURRENT_PAGES. lia.
  - simpl. destruct (browserInstance w); simpl; unfold MAX_CONCURRENT_PAGES; lia.
Qed.

(** When every call runs to its end before the next one starts, the count
    of active pages is never negative and never above the quota, whatever
    the calls are and however they end; so [getBrowserStats] never reports
    more active pages than its [maxPages]. *)
Theorem sequential_count_within_quota (calls : list ApiCall) (env : Env) :
  let w := performAll calls initialWorld in
  0 <= activePages w <= MAX_CONCURRENT_PAGES
  /\ 0 <= bs_activePages (getBrowserStats env w) <= maxPages (getBrowserStats env w).
Proof.
  cbv zeta.
  assert (H : forall w, 0 <= activePages w <= MAX_CONCURRENT_PAGES ->
                        0 <= activePages (performAll calls w) <= MAX_CONCURRENT_PAGES).
  { unfold performAll. induction calls as [|c calls IH]; intros w Hb; simpl.
    - exact Hb.
    - apply IH. apply perform_bound. exact Hb. }
  assert (H0 : 0 <= activePages (performAll calls initialWorld) <= MAX_CONCURRENT_PAGES).
  { apply H. simpl. unfold MAX_CONCURRENT_PAGES. lia. }
  split; [exact H0 | exact H0].
Qed.

Lemma acquirePage_pieces (env : Env) (w : World) :
  acquirePage env w
  = match acquirePageEnter env w with
    | (Throw t, w1) => (Throw t, w1)
    | (Ok e, w1) =>
        let (r, w2) := match e with
                       | Suspended b healthy => getBrowserResume b healthy w1
                       | Done r => (r, w1)
                       end in
        match (match r with
               | ReturnsInstance b => (Ok b, w2)
               | ReturnsPromise t => settleLaunch t (launch env) w2
               end) with
        | (Throw t, w3) => (Throw t, w3)
        | (Ok browser, w3) =>
            match acquirePageOpen env browser w3 with
            | (Ok p, w4) => (Ok p, acquirePageCount w4)
            | (Throw t, w4) => (Throw t, w4)
            end
        end
    end.
Proof.
  unfold acquirePage, acquirePageEnter, acquirePageOpen, acquirePageCount.
  destruct (MAX_CONCURRENT_PAGES <=? activePages w); [reflexivity|].
  unfold bind, getBrowser.
  destruct (getBrowserEnter env w) as [e w1].
  destruct (match e with
            | Suspended b healthy => getBrowserResume b healthy w1
            | Done r => (r, w1)
            end) as [r w2].
  destruct (match r with
            | ReturnsInstance b => (Ok b, w2)
            | ReturnsPromise t => settleLaunch t (launch env) w2
            end) as [[b|t] w3]; [| reflexivity].
  unfold external, modify, ret.
  destruct (newPage env b (countNewPage (trace w3))); reflexivity.
Qed.




End Bound.

(** ** What the conversion tool answers *)

Section Answers.

Import PdfGenerator Convert ErrorHandler.

Lemma toLowerCase_app (a b : string) :
  Js.toLowerCase (a ++ b) = Js.toLowerCase a ++ Js.toLowerCase b.
Proof. induction a as [|c r IH]; simpl; [reflexivity | rewrite IH; reflexivity]. Qed.

Lemma generatePdf_ok_success (env : Env) (config : PdfGenerationConfig)
  (w w' : World) (r : Response) :
  generatePdf env config w = (Ok r, w') ->
  exists size md,
    r = SuccessResponse (outputPath config) size 0 (endTime env - startTime env) md.
Proof.
  intros H.
  pose proof (generatePdf_outcome env config w) as Hout.
  rewrite H in Hout. simpl in Hout.
  destruct (generatePdfTry env config (mkFrame w None)) as [r0 f1] eqn:Htry.
  simpl in Hout. subst r0.
  unfold generatePdfTry in Htry. bind_inv Htry.
  apply finishPdf_ok in Htry. destruct Htry as [[md Hr] _].
  eexists. exists md. exact Hr.
Qed.

Lemma createErrorResponseAs_shape (t : Thrown) (w w' : World) (resp : Response) :
  createErrorResponseAs t w = (Ok resp, w') ->
  exists message suggestion, resp = ErrorResponse (Some message) (Some suggestion) None.
Proof.
  destruct t as [e|]; simpl; intros H; inversion H; subst.
  unfold createErrorResponse. eexists. eexists. reflexivity.
Qed.

Lemma resolveMarkdown_inl (env : Env) (input : MarkdownToPdfInput) (w w1 : World)
  (resp : Response) :
  resolveMarkdown env input w = (Ok (inl resp), w1) ->
  exists message suggestion, resp = ErrorResponse (Some message) (Some suggestion) None.
Proof.
  unfold resolveMarkdown.
  destruct (Js.whenTruthy (markdown_content input)) as [c|]; [discriminate|].
  destruct (Js.whenTruthy (markdown_file_path input)) as [p|].
  { unfold tryCatch, bind.
    destruct (FileUtils.readMarkdownFile env p w) as [[s|t] w0]; [discriminate|].
    destruct (createErrorResponseAs t w0) as [[r|t'] w2] eqn:E; [| discriminate].
    intros H. inversion H; subst. eapply createErrorResponseAs_shape. exact E. }
  destruct (Js.whenTruthy (markdown_url input)) as [u|].
  { unfold tryCatch, bind.
    destruct (FileUtils.fetchMarkdownUrl env u w) as [[s|t] w0]; [discriminate|].
    destruct (createErrorResponseAs t w0) as [[r|t'] w2] eqn:E; [| discriminate].
    intros H. inversion H; subst. eapply createErrorResponseAs_shape. exact E. }
  intros H. inversion H; subst. eexists. eexists. reflexivity.
Qed.

(** [convertMarkdownToPdf] answers with a success whose path is the
    requested output path, or with an error that has both a message and a
    suggestion.  Unless DEBUG is set the error has no details. *)
Theorem convert_response_shape (env : Env) (input : MarkdownToPdfInput) (w : World) :
  let r := fst (convertMarkdownToPdf env input w) in
  (exists size pages duration md,
     r = SuccessResponse (output_path input) size pages duration md)
  \/ (exists message suggestion details,
        r = ErrorResponse (Some message) (Some suggestion) details
        /\ (debug env = false -> details = None)).
Proof.
  cbv zeta. unfold convertMarkdownToPdf.
  destruct (convertTry env input w) as [[r|[e|]] w'] eqn:E; simpl.
  - unfold convertTry in E.
    destruct (negb (valid (validateInputSource (markdown_content input)
                             (markdown_file_path input) (markdown_url input)))) eqn:Ev.
    + inversion E; subst. right. unfold validateInputSource in *.
      destruct (List.length (providedSources (markdown_content input)
                  (markdown_file_path input) (markdown_url input))) as [|[|n]];
        simpl in *; try discriminate;
        eexists; eexists; eexists; (split; reflexivity).
    + bind_inv E. destruct a as [resp | content].
      * inversion E; subst. apply resolveMarkdown_inl in E0.
        destruct E0 as (m & sg & ->). right. exists m, sg, None. split; reflexivity.
      * destruct (negb (Js.truthy (Js.trim content))).
        -- inversion E; subst. right. eexists. eexists. eexists.
           split; reflexivity.
        -- apply generatePdf_ok_success in E. destruct E as (size & md & ->).
           left. eexists. eexists. eexists. eexists. reflexivity.
  - right. unfold createErrorResponse. eexists. eexists. eexists.
    split; [reflexivity|]. intros ->. reflexivity.
  - right. eexists. eexists. eexists. split; reflexivity.
Qed.

(** An input that passes [validateInputSource] has exactly one usable
    source: of the three tests in [convertMarkdownToPdf] one succeeds and
    the other two fail, so the branch marked "should never happen" is never
    taken, and inline content is taken as it is, with no file read and no
    request. *)
Theorem valid_input_has_one_source (env : Env) (input : MarkdownToPdfInput) :
  valid (validateInputSource (markdown_content input) (markdown_file_path input)
           (markdown_url input)) = true ->
  let c := Js.whenTruthy (markdown_content input) in
  let f := Js.whenTruthy (markdown_file_path input) in
  let u := Js.whenTruthy (markdown_url input) in
  ((exists content, c = Some content /\ f = None /\ u = None
                    /\ forall w, resolveMarkdown env input w = (Ok (inr content), w))
   \/ (exists path, c = None /\ f = Some path /\ u = None)
   \/ (exists url, c = None /\ f = None /\ u = Some url)).
Proof.
  intros Hv. apply validateInputSource_valid_iff in Hv.
  unfold providedSources in Hv. cbv zeta. unfold resolveMarkdown.
  destruct (markdown_content input) as [[|c0 c]|];
    destruct (markdown_file_path input) as [[|f0 f]|];
    destruct (markdown_url input) as [[|u0 u]|];
    simpl in *; try discriminate;
    first
      [ left; eexists; repeat split; reflexivity
      | right; left; eexists; repeat split; reflexivity
      | right; right; eexists; repeat split; reflexivity ].
Qed.

Lemma valid_input_has_one_source_witness :
  exists content,
    Js.whenTruthy (markdown_content (sampleInput (Some "# T") (Some "") None)) = Some content
    /\ Js.whenTruthy (markdown_file_path (sampleInput (Some "# T") (Some "") None)) = None.
Proof.
  destruct (valid_input_has_one_source sampleEnv (sampleInput (Some "# T") (Some "") None)
              eq_refl) as [(content & Hc & Hf & _) | [(p & Hc & _) | (u & Hc & _)]].
  - exists content. split; assumption.
  - discriminate Hc.
  - discriminate Hc.
Defined.

(** A markdown file that does not exist is answered with "Markdown file not
    found: " and the path.  The suggestion is chosen from that message: it
    has the word markdown in it, so unless the path brings in one of the
    words tested earlier, the suggestion is the one for invalid markdown
    syntax, not the one for a missing file.  Only the file read has
    happened. *)
Theorem convert_missing_file (env : Env) (input : MarkdownToPdfInput) (w : World)
  (path : string) (e : JsErr) :
  Js.whenTruthy (markdown_content input) = None ->
  Js.whenTruthy (markdown_file_path input) = Some path ->
  Js.whenTruthy (markdown_url input) = None ->
  readFile env path = Throw (ErrorObj e) ->
  errCode e = Some "ENOENT" ->
  (forall word,
     In word ["enoent"; "no such file"; "eacces"; "permission denied"; "timeout";
              "timed out"; "fetch"; "network"] ->
     Js.includes word (Js.toLowerCase ("Markdown file not found: " ++ path)) = false) ->
  convertMarkdownToPdf env input w
  = (ErrorResponse
       (Some ("Markdown file not found: " ++ path))
       (Some "Invalid markdown syntax. Review the markdown content for formatting errors.")
       None,
     record (EReadFile path) w).
Proof.
  intros Hc Hf Hu Hread Hcode Hwords.
  assert (Hvalid : valid (validateInputSource (markdown_content input)
                            (markdown_file_path input) (markdown_url input)) = true).
  { apply validateInputSource_valid_iff. unfold providedSources.
    destruct (markdown_content input) as [[|c0 c]|];
      destruct (markdown_file_path input) as [[|f0 f]|];
      destruct (markdown_url input) as [[|u0 u]|]; simpl in *; try discriminate;
      reflexivity. }
  unfold convertMarkdownToPdf, convertTry. rewrite Hvalid. simpl.
  unfold bind, resolveMarkdown. rewrite Hc, Hf.
  unfold tryCatch, bind, FileUtils.readMarkdownFile, tryCatch, external.
  rewrite Hread. unfold FileUtils.hasCode. rewrite Hcode. simpl.
  unfold createErrorResponse, getErrorSuggestion. cbn [message newError].
  rewrite !Hwords by (simpl; tauto).
  simpl. reflexivity.
Qed.

Lemma convert_missing_file_witness :
  convertMarkdownToPdf missingInputEnv (sampleInput None (Some "/docs/a.md") None)
    initialWorld
  = (ErrorResponse
       (Some "Markdown file not found: /docs/a.md")
       (Some "Invalid markdown syntax. Review the markdown content for formatting errors.")
       None,
     record (EReadFile "/docs/a.md") initialWorld).
Proof.
  apply (convert_missing_file missingInputEnv (sampleInput None (Some "/docs/a.md") None)
           initialWorld "/docs/a.md" noSuchFile eq_refl eq_refl eq_refl eq_refl eq_refl).
  intros word Hin. simpl in Hin.
  repeat (destruct Hin as [<- | Hin]; [vm_compute; reflexivity|]). destruct Hin.
Defined.

End Answers.

(** ** Errors and their suggestions *)

Section Suggestions.

Import PdfGenerator Convert ErrorHandler.

Lemma startsWith_app (p a b : string) :
  Js.startsWith p a = true -> Js.startsWith p (a ++ b) = true.
Proof.
  revert a. induction p as [|x p IH]; intros a H; [reflexivity|].
  destruct a as [|y a]; [discriminate|]. simpl in *.
  apply andb_true_iff in H. destruct H as [Hx Hp].
  rewrite Hx, (IH a Hp). reflexivity.
Qed.

Lemma includes_app (p a b : string) :
  Js.includes p a = true -> Js.includes p (a ++ b) = true.
Proof.
  induction a as [|y a IH]; simpl; intros H.
  - destruct p; [| discriminate]. destruct b; reflexivity.
  - apply orb_true_iff in H. destruct H as [H | H].
    + pose proof (startsWith_app p (String y a) b H) as Hs.
      cbn [append] in Hs. rewrite Hs. reflexivity.
    + rewrite (IH H). apply orb_true_r.
Qed.

(** The errors [fetchMarkdownUrl] throws. *)
Lemma fetchMarkdownUrl_failure (env : Env) (url : string) (w w' : World) (t : Thrown) :
  FileUtils.fetchMarkdownUrl env url w = (Throw t, w') ->
  t = NonError
  \/ exists m, t = ErrorObj (newError ("Failed to fetch markdown from URL: " ++ m)).
Proof.
  unfold FileUtils.fetchMarkdownUrl, tryCatch, bind, external, throw, ret, warn, modify.
  destruct (fetch env url) as [resp|[e|]]; simpl.
  - destruct (resp_ok resp); simpl.
    + destruct (negb (Js.includes "text" (Js.orElse (resp_contentType resp) ""))
                && negb (Js.includes "markdown" (Js.orElse (resp_contentType resp) "")))%bool;
        simpl; destruct (resp_text resp) as [s|[e|]]; simpl;
        intros H; inversion H; subst; first [left; reflexivity | right; eexists; reflexivity].
    + intros H. inversion H; subst. right. eexists. reflexivity.
  - intros H. inversion H; subst. right. eexists. reflexivity.
  - intros H. inversion H; subst. left. reflexivity.
Qed.

Lemma fetch_failure_suggestion (m : string) :
  In (getErrorSuggestion (newError ("Failed to fetch markdown from URL: " ++ m)))
     earlySuggestions.
Proof.
  unfold getErrorSuggestion. cbn [message newError].
  rewrite toLowerCase_app.
  assert (Hf : Js.includes "fetch"
                 (Js.toLowerCase "Failed to fetch markdown from URL: " ++ Js.toLowerCase m)
               = true).
  { apply includes_app. vm_compute. reflexivity. }
  rewrite Hf. cbn [orb].
  repeat match goal with
         | |- In (if ?c then _ else _) _ => destruct c; [simpl; tauto|]
         end.
  simpl. tauto.
Qed.

(** A request for the markdown that is answered with a status outside 2xx
    ends in the error "Failed to fetch markdown from URL: HTTP", the status
    and its text; the body is not read.  Every error of
    [fetchMarkdownUrl] that is an [Error] starts with the same words, so
    its suggestion is one of the four tested before the word markdown, and
    never the one for invalid markdown syntax nor the generic one. *)
Theorem convert_fetch_failure (env : Env) (input : MarkdownToPdfInput) (w : World)
  (url : string) (resp : FetchResponse) :
  Js.whenTruthy (markdown_content input) = None ->
  Js.whenTruthy (markdown_file_path input) = None ->
  Js.whenTruthy (markdown_url input) = Some url ->
  fetch env url = Ok resp ->
  resp_ok resp = false ->
  let m := "Failed to fetch markdown from URL: HTTP " ++ Js.ofZ (resp_status resp)
           ++ ": " ++ resp_statusText resp in
  convertMarkdownToPdf env input w
  = (ErrorResponse (Some m) (Some (getErrorSuggestion (newError m))) None,
     record (EFetch url) w)
  /\ In (getErrorSuggestion (newError m)) earlySuggestions
  /\ (forall w0 w1 e,
        FileUtils.fetchMarkdownUrl env url w0 = (Throw (ErrorObj e), w1) ->
        In (getErrorSuggestion e) earlySuggestions).
Proof.
  intros Hc Hf Hu Hfetch Hok m. split; [| split].
  - assert (Hvalid : valid (validateInputSource (markdown_content input)
                              (markdown_file_path input) (markdown_url input)) = true).
    { apply validateInputSource_valid_iff. unfold providedSources.
      destruct (markdown_content input) as [[|c0 c]|];
        destruct (markdown_file_path input) as [[|f0 f]|];
        destruct (markdown_url input) as [[|u0 u]|]; simpl in *; try discriminate;
        reflexivity. }
    unfold convertMarkdownToPdf, convertTry. rewrite Hvalid. cbn [negb].
    unfold bind, resolveMarkdown. rewrite Hc, Hf, Hu.
    unfold tryCatch, bind, FileUtils.fetchMarkdownUrl, tryCatch, bind, external, throw.
    rewrite Hfetch, Hok. cbn [negb message newError createErrorResponseAs ret].
    unfold createErrorResponse. cbn [message newError]. reflexivity.
  - apply (fetch_failure_suggestion
             ("HTTP " ++ Js.ofZ (resp_status resp) ++ ": " ++ resp_statusText resp)).
  - intros w0 w1 e H. apply fetchMarkdownUrl_failure in H.
    destruct H as [H | [m' H]]; [discriminate|].
    inversion H; subst. apply fetch_failure_suggestion.
Qed.

Lemma convert_fetch_failure_witness :
  convertMarkdownToPdf missingInputEnv (sampleInput None None (Some "https://x.test/a.md"))
    initialWorld
  = (ErrorResponse
       (Some "Failed to fetch markdown from URL: HTTP 404: Not Found")
       (Some "Network error while fetching remote content. Check the URL and your internet connection.")
       None,
     record (EFetch "https://x.test/a.md") initialWorld).
Proof.
  destruct (convert_fetch_failure missingInputEnv
              (sampleInput None None (Some "https://x.test/a.md")) initialWorld
              "https://x.test/a.md"
              (mkFetchResponse false 404 "Not Found" None (Ok ""))
              eq_refl eq_refl eq_refl eq_refl eq_refl) as [Heq _].
  rewrite Heq. vm_compute. reflexivity.
Defined.

Lemma getBrowser_throw_cases (env : Env) (w : World) :
  match fst (getBrowser env w) with
  | Throw t => exists error, launch env = Throw error /\ t = launchFailure error
  | Ok _ => True
  end.
Proof.
  unfold getBrowser, getBrowserEnter, getBrowserResume, startLaunch, settleLaunch.
  destruct (browserLaunchPromise w) as [t|];
    [| destruct (browserInstance w) as [b0|];
       [destruct (isBrowserHealthy env b0)|] ];
    try (destruct (launch env) as [b|e] eqn:El); simpl;
    first [exact I | exists e; split; reflexivity].
Qed.

Lemma launch_failure_suggestion (error : Thrown) :
  exists m, launchFailure error = ErrorObj (newError m)
            /\ In (getErrorSuggestion (newError m)) specificSuggestions.
Proof.
  unfold launchFailure. eexists. split; [reflexivity|].
  unfold getErrorSuggestion. cbn [message newError].
  rewrite toLowerCase_app.
  assert (Hb : Js.includes "browser"
                 (Js.toLowerCase "Failed to launch browser: "
                  ++ Js.toLowerCase
                       (messageOrUnknown error ++ ". "
                        ++ "Ensure Playwright Chromium is installed: pnpm exec playwright install chromium"))
               = true).
  { apply includes_app. vm_compute. reflexivity. }
  rewrite Hb. cbn [orb].
  repeat match goal with
         | |- In (if ?c then _ else _) _ => destruct c; [simpl; tauto|]
         end.
  simpl. tauto.
Qed.

(** When [getBrowser] throws, the error is an [Error] whose message names
    the failed launch and ends with the advice to install Chromium, and
    the suggestion chosen for it is never the generic one. *)
Theorem getBrowser_failure_is_explained (env : Env) (w w' : World) (t : Thrown) :
  getBrowser env w = (Throw t, w') ->
  exists error m,
    launch env = Throw error
    /\ t = ErrorObj (newError m)
    /\ m = "Failed to launch browser: " ++ messageOrUnknown error ++ ". "
           ++ "Ensure Playwright Chromium is installed: pnpm exec playwright install chromium"
    /\ In (getErrorSuggestion (newError m)) specificSuggestions
    /\ ~ In genericSuggestion specificSuggestions.
Proof.
  intros H.
  pose proof (getBrowser_throw_cases env w) as Hcases.
  rewrite H in Hcases. simpl in Hcases.
  destruct Hcases as (error & Hl & ->).
  exists error. eexists. split; [exact Hl|]. split; [reflexivity|]. split; [reflexivity|].
  split.
  - destruct (launch_failure_suggestion error) as (m & Hm & Hin).
    inversion Hm; subst. exact Hin.
  - simpl. intros Hin.
    repeat (destruct Hin as [Hin | Hin]; [discriminate Hin|]). exact Hin.
Qed.

Lemma getBrowser_failure_is_explained_witness :
  exists error m,
    launch noChromiumEnv = Throw error
    /\ Throw (A := Browser) (launchFailure (ErrorObj (newError "Executable doesn't exist at /ms-playwright/chromium/chrome")))
       = Throw (ErrorObj (newError m))
    /\ In (getErrorSuggestion (newError m)) specificSuggestions.
Proof.
  destruct (getBrowser_failure_is_explained noChromiumEnv initialWorld
              (snd (getBrowser noChromiumEnv initialWorld))
              (launchFailure (ErrorObj (newError "Executable doesn't exist at /ms-playwright/chromium/chrome")))
              eq_refl) as (error & m & Hl & Ht & _ & Hin & _).
  exists error, m. split; [exact Hl|]. split; [rewrite Ht; reflexivity | exact Hin].
Defined.

End Suggestions.

(** ** Failures before a page is acquired *)

Section Preparation.

Import PdfGenerator Convert ErrorHandler.

Lemma generatePdf_throws_before_page (env : Env) (config : PdfGenerationConfig)
  (w : World) (t : Thrown) (f : Frame) :
  generatePdfTry env config (mkFrame w None) = (Throw t, f) ->
  page f = None ->
  generatePdf env config w = (Throw t, world f).
Proof.
  intros Htry Hpage.
  unfold generatePdf, tryFinally, tryCatch. rewrite Htry.
  unfold generatePdfCatch, generatePdfFinally, bind, getPage, throw, ret.
  rewrite Hpage. simpl. rewrite Hpage. reflexivity.
Qed.

(** A failure while the document is prepared ends [generatePdf] with the
    error, before any page or browser is touched: the manager's variables
    and the count are what they were, and the [catch] and [finally] blocks
    release nothing.  [mkdir] fails the conversion only with a coded error
    other than EEXIST; any other failure of [mkdir] is ignored. *)
Theorem generatePdf_preparation_failure (env : Env) (config : PdfGenerationConfig)
  (w : World) :
  let dir := dirname env (outputPath config) in
  let source := markdownContent config in
  (forall e c,
     mkdir env dir = Throw (ErrorObj e) -> errCode e = Some c -> c <> "EEXIST" ->
     generatePdf env config w
     = (Throw (ErrorObj (newError ("Failed to create output directory: " ++ message e))),
        record (EMkdir dir) w))
  /\ (forall t,
        mkdir env dir = Ok tt -> marked env source = Throw t ->
        generatePdf env config w
        = (Throw t, record (EMarked source) (record (EMkdir dir) w)))
  /\ (forall html t,
        mkdir env dir = Ok tt -> marked env source = Ok html ->
        readTheme env (theme config) = Throw t ->
        generatePdf env config w
        = (Throw (ErrorObj (newError ("Failed to load theme " ++ Js.dq ++ theme config
                                      ++ Js.dq ++ ": " ++ messageOrUnknown t))),
           record (EReadTheme (theme config))
             (record (EMarked source) (record (EMkdir dir) w))))
  /\ (forall t,
        mkdir env dir = Throw t ->
        (forall e, t = ErrorObj e -> errCode e = None \/ errCode e = Some "EEXIST") ->
        FileUtils.ensureOutputDirectory env (outputPath config) w
        = (Ok tt, record (EMkdir dir) w)).
Proof.
  cbv zeta. split; [| split; [| split]].
  - intros e c Hmk Hcode Hne.
    apply (generatePdf_throws_before_page env config w _
             (mkFrame (record (EMkdir (dirname env (outputPath config))) w) None));
      [| reflexivity].
    unfold generatePdfTry, producePdf, bind, inWorld, FileUtils.ensureOutputDirectory,
      tryCatch, external, throw.
    cbn [world page]. rewrite Hmk, Hcode.
    destruct (String.eqb_spec c "EEXIST"); [contradiction | reflexivity].
  - intros t Hmk Hmd.
    apply (generatePdf_throws_before_page env config w _
             (mkFrame (record (EMarked (markdownContent config))
                         (record (EMkdir (dirname env (outputPath config))) w)) None));
      [| reflexivity].
    unfold generatePdfTry, producePdf, bind, inWorld, FileUtils.ensureOutputDirectory,
      tryCatch, external.
    cbn [world page]. rewrite Hmk. cbn [world page]. rewrite Hmd. reflexivity.
  - intros html t Hmk Hmd Hth.
    apply (generatePdf_throws_before_page env config w _
             (mkFrame (record (EReadTheme (theme config))
                         (record (EMarked (markdownContent config))
                            (record (EMkdir (dirname env (outputPath config))) w))) None));
      [| reflexivity].
    unfold generatePdfTry, producePdf, bind, inWorld, FileUtils.ensureOutputDirectory,
      ThemeLoader.loadTheme, tryCatch, external, throw.
    cbn [world page]. rewrite Hmk. cbn [world page]. rewrite Hmd. cbn [world page].
    rewrite Hth. reflexivity.
  - intros t Hmk Hcode.
    unfold FileUtils.ensureOutputDirectory, tryCatch, external, throw, ret.
    rewrite Hmk. destruct t as [e|]; [| reflexivity].
    destruct (Hcode e eq_refl) as [H | H]; rewrite H; reflexivity.
Qed.

Lemma generatePdf_preparation_failure_witness :
  generatePdf readOnlyEnv sampleConfig (held 1)
  = (Throw (ErrorObj (newError
       "Failed to create output directory: EACCES: permission denied, mkdir '/out'")),
     record (EMkdir "/out") (held 1)).
Proof.
  apply (proj1 (generatePdf_preparation_failure readOnlyEnv sampleConfig (held 1))
           (mkErr "EACCES: permission denied, mkdir '/out'" (Some "EACCES")) "EACCES"
           eq_refl eq_refl).
  discriminate.
Defined.

(** A conversion that reaches [acquirePage] while the quota is used up is
    answered with the quota message and the generic suggestion.  Nothing is
    launched, opened or closed for it, and the count and the browser are
    left as they were: the pages the other requests hold stay counted. *)
Theorem convert_at_quota (env : Env) (input : MarkdownToPdfInput) (w w1 : World)
  (content html css : string) :
  valid (validateInputSource (markdown_content input) (markdown_file_path input)
           (markdown_url input)) = true ->
  resolveMarkdown env input w = (Ok (inr content), w1) ->
  Js.truthy (Js.trim content) = true ->
  mkdir env (dirname env (output_path input)) = Ok tt ->
  marked env content = Ok html ->
  readTheme env (in_theme input) = Ok css ->
  MAX_CONCURRENT_PAGES <= activePages w ->
  let result := convertMarkdownToPdf env input w in
  fst result
  = ErrorResponse (Some quotaMessage) (Some genericSuggestion)
      (if debug env then Some (newError quotaMessage) else None)
  /\ sameManager w (snd result)
  /\ exists added,
       trace (snd result) = (trace w1 ++ added)%list
       /\ Forall isPreparationEffect added.
Proof.
  intros Hvalid Hres Htrim Hmk Hmd Hth Hfull result.
  pose proof (resolveMarkdown_frame env input w w1 _ Hres) as [Hsame _].
  destruct Hsame as (Hbi & Hbp & Hap & Hif & Hnt).
  assert (Hfull1 : (MAX_CONCURRENT_PAGES <=? activePages w1) = true).
  { apply Z.leb_le. rewrite Hap. exact Hfull. }
  assert (Hgen : exists w2,
             generatePdf env (buildConfig input content) w1
             = (Throw (ErrorObj (newError quotaMessage)), w2)
             /\ sameManager w1 w2
             /\ exists added, trace w2 = (trace w1 ++ added)%list
                              /\ Forall isPreparationEffect added).
  { destruct (fetchCodeTheme env (code_theme input)) as [codeCss|tc] eqn:Ecode.
    - exists (record (EFetchCodeTheme (code_theme input))
                (record (EReadTheme (in_theme input))
                   (record (EMarked content)
                      (record (EMkdir (dirname env (output_path input))) w1)))).
      split; [| split; [repeat split |]].
      + apply (generatePdf_throws_before_page env (buildConfig input content) w1 _
                 (mkFrame _ None)); [| reflexivity].
        unfold generatePdfTry, producePdf, bind, inWorld,
          FileUtils.ensureOutputDirectory, ThemeLoader.loadTheme,
          ThemeLoader.loadCodeTheme, tryCatch, external, acquirePage, throw.
        cbn [world page outputPath markdownContent theme codeTheme buildConfig].
        rewrite Hmk. cbn [world page]. rewrite Hmd. cbn [world page].
        rewrite Hth. cbn [world page]. rewrite Ecode. cbn [world page].
        cbn [record activePages]. rewrite Hfull1. reflexivity.
      + eexists. split; [simpl; rewrite <- !app_assoc; reflexivity|].
        repeat constructor.
    - exists (record (EWarn "Failed to load code theme from CDN, using fallback")
                (record (EFetchCodeTheme (code_theme input))
                   (record (EReadTheme (in_theme input))
                      (record (EMarked content)
                         (record (EMkdir (dirname env (output_path input))) w1))))).
      split; [| split; [repeat split |]].
      + apply (generatePdf_throws_before_page env (buildConfig input content) w1 _
                 (mkFrame _ None)); [| reflexivity].
        unfold generatePdfTry, producePdf, bind, inWorld,
          FileUtils.ensureOutputDirectory, ThemeLoader.loadTheme,
          ThemeLoader.loadCodeTheme, tryCatch, bind, warn, modify, ret, external,
          acquirePage, throw.
        cbn [world page outputPath markdownContent theme codeTheme buildConfig].
        rewrite Hmk. cbn [world page]. rewrite Hmd. cbn [world page].
        rewrite Hth. cbn [world page]. rewrite Ecode. cbn [world page].
        cbn [record activePages]. rewrite Hfull1. reflexivity.
      + eexists. split; [simpl; rewrite <- !app_assoc; reflexivity|].
        repeat constructor. }
  destruct Hgen as (w2 & Hg & (Hbi2 & Hbp2 & Hap2 & Hif2 & Hnt2) & Hadded).
  assert (Hconv : result
                  = (ErrorResponse (Some quotaMessage) (Some genericSuggestion)
                       (if debug env then Some (newError quotaMessage) else None), w2)).
  { subst result. unfold convertMarkdownToPdf, convertTry. rewrite Hvalid. cbn [negb].
    unfold bind. rewrite Hres, Htrim. cbn [negb]. rewrite Hg.
    unfold createErrorResponse. reflexivity. }
  rewrite Hconv. cbn [fst snd].
  split; [reflexivity|]. split; [| exact Hadded].
  repeat split; congruence.
Qed.

Lemma convert_at_quota_witness :
  fst (convertMarkdownToPdf sampleEnv (sampleInput (Some "# T") None None) (held 10))
  = ErrorResponse (Some quotaMessage) (Some genericSuggestion) None
  /\ sameManager (held 10)
       (snd (convertMarkdownToPdf sampleEnv (sampleInput (Some "# T") None None) (held 10))).
Proof.
  pose proof (convert_at_quota sampleEnv (sampleInput (Some "# T") None None)
                (held 10) (held 10) "# T" "<h1>T</h1>" "body{}"
                eq_refl eq_refl eq_refl eq_refl eq_refl eq_refl
                ltac:(vm_compute; discriminate)) as H.
  cbv zeta in H. split; [exact (proj1 H) | exact (proj1 (proj2 H))].
Defined.

End Preparation.

(** ** Templates without placeholders *)

Section PlainTemplates.

Import FormatUtils.

Lemma replaceAllFrom_absent (a : ascii) (p repl orig : string) (s : string) :
  Js.containsChar a s = false ->
  forall idx, Js.replaceAllFrom (String a p) repl orig idx 0 s = s.
Proof.
  induction s as [|c r IH]; intros H idx; [reflexivity|].
  simpl in H. apply orb_false_iff in H. destruct H as [Hc Hr].
  cbn [Js.replaceAllFrom Js.startsWith].
  rewrite Ascii.eqb_sym, Hc. cbn [andb]. rewrite (IH Hr). reflexivity.
Qed.

Lemma replaceAll_absent (a : ascii) (p repl s : string) :
  Js.containsChar a s = false -> Js.replaceAll (String a p) repl s = s.
Proof. intros H. unfold Js.replaceAll. apply replaceAllFrom_absent. exact H. Qed.

Lemma getSubstitution_plain (matched before after repl : string) :
  Js.containsChar "$" repl = false ->
  Js.getSubstitution matched before after repl = repl.
Proof.
  induction repl as [|c r IH]; intros H; [reflexivity|].
  simpl in H. apply orb_false_iff in H. destruct H as [Hc Hr].
  cbn [Js.getSubstitution]. rewrite Hc, (IH Hr). reflexivity.
Qed.

Lemma string_app_nil (s : string) : s ++ "" = s.
Proof. induction s as [|c r IH]; simpl; [reflexivity | rewrite IH; reflexivity]. Qed.

(** A template without an opening brace comes back unchanged, whatever the
    variables.  A title without a dollar sign replaces ["{title}"] as it
    is; a dollar sign is read as a pattern of [replace], so the title [$&]
    puts the placeholder back. *)
Theorem replaceTemplateVariables_plain (today template : string)
  (variables : TemplateVariables) :
  (Js.containsChar "{" template = false ->
   replaceTemplateVariables today template variables = template)
  /\ (forall t,
        Js.truthy t = true -> Js.containsChar "$" t = false ->
        replaceTemplateVariables today "{title}" (mkVars None None None (Some t)) = t)
  /\ replaceTemplateVariables today "{title}" (mkVars None None None (Some "$&"))
     = "{title}".
Proof.
  split; [| split].
  - intros H. unfold replaceTemplateVariables.
    rewrite (replaceAll_absent "{" "page}" _ template H).
    rewrite (replaceAll_absent "{" "total}" _ template H).
    rewrite (replaceAll_absent "{" "date}" _ template H).
    apply (replaceAll_absent "{" "title}" _ template H).
  - intros t Ht Hd. unfold replaceTemplateVariables. cbn [page total date title].
    cbn [stringOrEmpty Js.orElse]. rewrite Ht.
    change (Js.replaceAll "{page}" "" "{title}") with "{title}".
    change (Js.replaceAll "{total}" "" "{title}") with "{title}".
    assert (Hdate : Js.replaceAll "{date}" today "{title}" = "{title}") by reflexivity.
    rewrite Hdate.
    unfold Js.replaceAll. cbn [Js.replaceAllFrom Js.startsWith Ascii.eqb Bool.eqb andb
                               String.length Nat.sub Js.take Js.drop].
    rewrite getSubstitution_plain by exact Hd.
    apply string_app_nil.
  - reflexivity.
Qed.

Lemma replaceTemplateVariables_plain_witness :
  replaceTemplateVariables "11/1/2026" "Confidential draft"
    (mkVars (Some (Num 2)) (Some (Num 5)) None None) = "Confidential draft".
Proof.
  apply (proj1 (replaceTemplateVariables_plain "11/1/2026" "Confidential draft"
                  (mkVars (Some (Num 2)) (Some (Num 5)) None None))).
  reflexivity.
Defined.

End PlainTemplates.

(** ** The successful response *)

Section Success.

Import PdfGenerator.

Ltac frame_step H :=
  let E := fresh "E" in
  let w := fresh "w" in
  let a := fresh "a" in
  let f := fresh "f" in
  apply bind_ok_inv in H; destruct H as (a & f & E & H);
  first
    [ apply inWorld_inv in E; destruct E as (w & E & ->)
    | unfold setPage in E; inversion E; subst; clear E ].

Lemma external_ok {A} (e : Effect) (r : Outcome A) (w w' : World) (a : A) :
  external e r w = (Ok a, w') -> r = Ok a.
Proof.
  unfold external. intros H. inversion H; subst. reflexivity.
Qed.

Lemma producePdf_ok (env : Env) (config : PdfGenerationConfig) (f f' : Frame)
  (p : Page) (len : Z) :
  producePdf env config f = (Ok (p, len), f') -> pdf env p = Ok len.
Proof.
  unfold producePdf. intros H.
  frame_step H. frame_step H. frame_step H. frame_step H. frame_step H.
  frame_step H. frame_step H. frame_step H.
  apply bind_ok_inv in H. destruct H as (u & f2 & _ & H).
  apply bind_ok_inv in H. destruct H as (n & f3 & Epdf & H).
  apply inWorld_inv in Epdf. destruct Epdf as (w9 & Epdf & _).
  apply external_ok in Epdf.
  unfold ret in H. inversion H; subst. exact Epdf.
Qed.

(** A conversion that succeeds answers with the output path of the
    request, the size of the PDF buffer as [formatFileSize] prints it, and
    the elapsed time.  In detailed mode the metadata repeat the theme, the
    page format and the TOC flag of the request and carry the counts that
    [page.evaluate] returned; images that failed to load do not fail the
    conversion but make one warning that names them.  In concise mode there
    are no metadata, and no warning reaches the caller. *)
Theorem generatePdf_success_response (env : Env) (config : PdfGenerationConfig)
  (w w' : World) (r : Response) :
  generatePdf env config w = (Ok r, w') ->
  exists p len dom,
    pdf env p = Ok len
    /\ evaluate env p = Ok dom
    /\ r = SuccessResponse (outputPath config) (FormatUtils.formatFileSize len) 0
             (endTime env - startTime env)
             (match responseFormat config with
              | detailed =>
                  Some (mkMetadata (theme config) (pageFormat config) (includeToc config)
                          (dom_codeBlocks dom) (dom_images dom) (dom_headings dom)
                          (match dom_missingImages dom with
                           | [] => []
                           | _ :: _ => [missingImagesWarning (dom_missingImages dom)]
                           end))
              | concise => None
              end).
Proof.
  intros H.
  pose proof (generatePdf_outcome env config w) as Hout.
  rewrite H in Hout. simpl in Hout.
  destruct (generatePdfTry env config (mkFrame w None)) as [r0 f1] eqn:Htry.
  simpl in Hout. subst r0.
  unfold generatePdfTry in Htry.
  apply bind_ok_inv in Htry. destruct Htry as ([p len] & f0 & Hprod & Hfin).
  apply producePdf_ok in Hprod.
  unfold finishPdf in Hfin. cbn [fst snd] in Hfin.
  frame_step Hfin.
  unfold gatherStats, bind, external, ret in E.
  destruct (evaluate env p) as [dom|t] eqn:Eev; inversion E; subst. clear E.
  frame_step Hfin. frame_step Hfin.
  unfold ret in Hfin. inversion Hfin; subst.
  exists p, len, dom. split; [exact Hprod|]. split; [exact Eev|].
  cbn [st_pages st_codeBlocks st_images st_headings st_warnings].
  destruct (responseFormat config); cbn [isDetailed]; try reflexivity.
  destruct (dom_missingImages dom); reflexivity.
Qed.

Lemma generatePdf_success_response_witness :
  exists p len dom,
    pdf sampleEnv p = Ok len
    /\ evaluate sampleEnv p = Ok dom
    /\ SuccessResponse "/out/a.pdf" "150.0 KB" 0 250 None
       = SuccessResponse (outputPath sampleConfig) (FormatUtils.formatFileSize len) 0
           (endTime sampleEnv - startTime sampleEnv)
           (match responseFormat sampleConfig with
            | detailed =>
                Some (mkMetadata (theme sampleConfig) (pageFormat sampleConfig)
                        (includeToc sampleConfig)
                        (dom_codeBlocks dom) (dom_images dom) (dom_headings dom)
                        (match dom_missingImages dom with
                         | [] => []
                         | _ :: _ => [missingImagesWarning (dom_missingImages dom)]
                         end))
            | concise => None
            end).
Proof.
  apply (generatePdf_success_response sampleEnv sampleConfig (held 1)
           (snd (generatePdf sampleEnv sampleConfig (held 1)))).
  vm_compute. reflexivity.
Defined.

End Success.

(** ** The stored launch promise *)

Section Lock.

Import PdfGenerator.

Lemma step_promise_in_flight (env : Env) (st : Step) (s : System) :
  (forall t, browserLaunchPromise (sys_world s) = Some t -> In t (inFlight (sys_world s))) ->
  forall t, browserLaunchPromise (sys_world (step env st s)) = Some t ->
            In t (inFlight (sys_world (step env st s))).
Proof.
  intros Hinv t. destruct st as [i|i|t0 r| |closed| |]; simpl.
  - destruct (callerAt s i); try apply Hinv.
    unfold getBrowserEnter.
    destruct (browserLaunchPromise (sys_world s)) eqn:Ep; [simpl; rewrite Ep; apply Hinv|].
    destruct (browserInstance (sys_world s)); simpl.
    + rewrite Ep. discriminate.
    + intros H. inversion H; subst. apply in_or_app. right. left. reflexivity.
  - destruct (callerAt s i) as [|b healthy|r]; try apply Hinv.
    unfold getBrowserResume. destruct healthy; simpl; [apply Hinv|].
    intros H. inversion H; subst. apply in_or_app. right. left. reflexivity.
  - destruct (ticketInFlight t0 (sys_world s)); [| apply Hinv].
    destruct r; simpl; discriminate.
  - apply Hinv.
  - destruct closed; simpl; apply Hinv.
  - discriminate.
  - destruct (browserInstance (sys_world s)); simpl; apply Hinv.
Qed.

(** In every state the manager can reach, whatever the order in which the
    pieces of its callers run, a launch promise stored in
    [browserLaunchPromise] belongs to a launch that has not settled yet: a
    caller is never handed a promise that has already settled. *)
Theorem stored_promise_is_in_flight (env : Env) (steps : list Step) (k : nat) (t : Ticket) :
  let s := run env steps (startSystem initialWorld k) in
  browserLaunchPromise (sys_world s) = Some t -> In t (inFlight (sys_world s)).
Proof.
  cbv zeta.
  assert (H : forall s,
             (forall t, browserLaunchPromise (sys_world s) = Some t ->
                        In t (inFlight (sys_world s))) ->
             forall t, browserLaunchPromise (sys_world (run env steps s)) = Some t ->
                       In t (inFlight (sys_world (run env steps s)))).
  { induction steps as [|st steps IH]; intros s Hs; simpl; [exact Hs|].
    apply IH. apply step_promise_in_flight. exact Hs. }
  apply H. simpl. discriminate.
Qed.

Lemma stored_promise_is_in_flight_witness :
  In 0%nat (inFlight (sys_world (run sampleEnv [Calls 0; Calls 1]%nat
                                     (startSystem initialWorld 2)))).
Proof.
  apply (stored_promise_is_in_flight sampleEnv [Calls 0; Calls 1]%nat 2 0%nat).
  reflexivity.
Defined.

End Lock.
